(** * Automated code review for Home Assistant integrations

    A shallow embedding of [scripts/code_review.py]: the issue model, the
    [ReviewResult] aggregator, the text, syntax-tree and manifest detectors,
    the external tool phase and the quality tier decision, followed by the
    properties that the specification states about them.

    Conventions of the embedding.
    - Python [str] is the [string] of its UTF-8 encoding; [str.strip] and
      the character classes of the regular expressions read it code point
      by code point, with the classes Python 3.11 has for a [str].
    - Python [int] is [Z]; [len] results are [nat].
    - Python [float] is the binary64 [float] of the kernel, NaN included; a
      JSON number is an [int] or a [float], as [json.loads] produces them.
    - A method of [CodeReviewer] is a function from the reviewer's state to
      an [outcome]: it returns, raises a Python exception, or never returns
      (a subprocess that does not exit while no timeout is given).  The
      field [coverage_percent] is a number in every state; a return that
      leaves another object in it is an outcome of its own.
    - What the script observes of the outside world (file contents, the
      parsers of the standard library, the external tools) is an [Env]. *)

From Stdlib Require Import String Ascii List NArith ZArith Bool Lia Arith Permutation.
From Stdlib Require Import Floats DecimalString Sorted.
Import ListNotations.

Set Warnings "-register-all".

Local Open Scope list_scope.
Local Open Scope string_scope.

(** ** Issue model *)

Inductive Severity := BLOCKING | WARNING | NITPICK.

Inductive Category := SECURITY | QUALITY | TESTING | DOCUMENTATION | ASYNC | PATTERN.

Definition Severity_eqb (a b : Severity) : bool :=
  match a, b with
  | BLOCKING, BLOCKING | WARNING, WARNING | NITPICK, NITPICK => true
  | _, _ => false
  end.

Definition Category_eqb (a b : Category) : bool :=
  match a, b with
  | SECURITY, SECURITY | QUALITY, QUALITY | TESTING, TESTING
  | DOCUMENTATION, DOCUMENTATION | ASYNC, ASYNC | PATTERN, PATTERN => true
  | _, _ => false
  end.

Record Issue := mkIssue {
  severity : Severity;
  category : Category;
  file : string;
  line : option Z;
  title : string;
  description : string;
  suggestion : option string;
  code_example : option string;
  reference : option string
}.

(** ** Numbers as [json.loads] yields them *)

Inductive number :=
| PyInt (z : Z)
| PyFloat (f : float).

(** [x < 60], [x >= 60] and [x >= 80]: Python compares an [int] exactly and a
    [float] by IEEE 754, where every comparison with NaN is false. *)
Definition lt_60 (x : number) : bool :=
  match x with
  | PyInt z => (z <? 60)%Z
  | PyFloat f => (f <? 60)%float
  end.

Definition ge_60 (x : number) : bool :=
  match x with
  | PyInt z => (60 <=? z)%Z
  | PyFloat f => (60 <=? f)%float
  end.

Definition ge_80 (x : number) : bool :=
  match x with
  | PyInt z => (80 <=? z)%Z
  | PyFloat f => (80 <=? f)%float
  end.

Definition is_nan (x : number) : bool :=
  match x with
  | PyInt _ => false
  | PyFloat f => PrimFloat.is_nan f
  end.

(** ** The aggregator *)

Record ReviewResult := mkReviewResult {
  blocking : list Issue;
  warnings : list Issue;
  nitpicks : list Issue;
  positives : list string;
  coverage_percent : number;
  quality_tier : string;
  files_reviewed : nat
}.

(** [ReviewResult()]: the defaults of the dataclass. *)
Definition new_ReviewResult : ReviewResult :=
  {| blocking := []; warnings := []; nitpicks := []; positives := [];
     coverage_percent := PyFloat 0%float; quality_tier := "Unknown";
     files_reviewed := 0 |}.

Definition set_blocking (l : list Issue) (r : ReviewResult) : ReviewResult :=
  {| blocking := l; warnings := warnings r; nitpicks := nitpicks r;
     positives := positives r; coverage_percent := coverage_percent r;
     quality_tier := quality_tier r; files_reviewed := files_reviewed r |}.

Definition set_warnings (l : list Issue) (r : ReviewResult) : ReviewResult :=
  {| blocking := blocking r; warnings := l; nitpicks := nitpicks r;
     positives := positives r; coverage_percent := coverage_percent r;
     quality_tier := quality_tier r; files_reviewed := files_reviewed r |}.

Definition set_nitpicks (l : list Issue) (r : ReviewResult) : ReviewResult :=
  {| blocking := blocking r; warnings := warnings r; nitpicks := l;
     positives := positives r; coverage_percent := coverage_percent r;
     quality_tier := quality_tier r; files_reviewed := files_reviewed r |}.

Definition set_positives (l : list string) (r : ReviewResult) : ReviewResult :=
  {| blocking := blocking r; warnings := warnings r; nitpicks := nitpicks r;
     positives := l; coverage_percent := coverage_percent r;
     quality_tier := quality_tier r; files_reviewed := files_reviewed r |}.

Definition set_coverage_percent (p : number) (r : ReviewResult) : ReviewResult :=
  {| blocking := blocking r; warnings := warnings r; nitpicks := nitpicks r;
     positives := positives r; coverage_percent := p;
     quality_tier := quality_tier r; files_reviewed := files_reviewed r |}.

Definition set_quality_tier (t : string) (r : ReviewResult) : ReviewResult :=
  {| blocking := blocking r; warnings := warnings r; nitpicks := nitpicks r;
     positives := positives r; coverage_percent := coverage_percent r;
     quality_tier := t; files_reviewed := files_reviewed r |}.

Definition set_files_reviewed (n : nat) (r : ReviewResult) : ReviewResult :=
  {| blocking := blocking r; warnings := warnings r; nitpicks := nitpicks r;
     positives := positives r; coverage_percent := coverage_percent r;
     quality_tier := quality_tier r; files_reviewed := n |}.

(** [ReviewResult.add_issue]: append to the list of the issue's severity. *)
Definition add_issue (issue : Issue) (r : ReviewResult) : ReviewResult :=
  match severity issue with
  | BLOCKING => set_blocking (blocking r ++ [issue])%list r
  | WARNING => set_warnings (warnings r ++ [issue])%list r
  | NITPICK => set_nitpicks (nitpicks r ++ [issue])%list r
  end.

Definition add_positive (s : string) (r : ReviewResult) : ReviewResult :=
  set_positives (positives r ++ [s])%list r.

Definition has_blocking_issues (r : ReviewResult) : bool :=
  (0 <? length (blocking r))%nat.

Definition total_issues (r : ReviewResult) : nat :=
  (length (blocking r) + length (warnings r) + length (nitpicks r))%nat.

(** A sequence of [add_issue] calls, in call order. *)
Definition add_issues (issues : list Issue) (r : ReviewResult) : ReviewResult :=
  fold_left (fun acc i => add_issue i acc) issues r.


(** ** Text

    A Python [str] is a sequence of code points; the [string] that stands
    for it holds its UTF-8 encoding, as the literals of this file do.
    Splitting at line breaks and looking for an ASCII text give the same
    on the bytes as on the code points.  What goes character by character
    ([str.strip], the classes of the regular expressions) reads the
    [characters] of the text. *)

Definition newline : ascii := "010"%char.

Definition byte (c : ascii) : N := N_of_ascii c.

(** A byte [10xxxxxx], which continues an encoded character. *)
Definition is_continuation (c : ascii) : bool :=
  ((128 <=? byte c) && (byte c <? 192))%N.

Definition point2 (c1 c2 : ascii) : N :=
  ((byte c1 mod 32) * 64 + byte c2 mod 64)%N.

Definition point3 (c1 c2 c3 : ascii) : N :=
  (((byte c1 mod 16) * 64 + byte c2 mod 64) * 64 + byte c3 mod 64)%N.

Definition point4 (c1 c2 c3 c4 : ascii) : N :=
  ((((byte c1 mod 8) * 64 + byte c2 mod 64) * 64 + byte c3 mod 64) * 64
   + byte c4 mod 64)%N.

(** The encodings of two, three and four bytes: a lead byte, continuation
    bytes and a code point that needs this many bytes. *)
Definition two_bytes (c1 c2 : ascii) : bool :=
  ((192 <=? byte c1) && (byte c1 <? 224) && is_continuation c2
   && (128 <=? point2 c1 c2))%N.

Definition three_bytes (c1 c2 c3 : ascii) : bool :=
  ((224 <=? byte c1) && (byte c1 <? 240) && is_continuation c2 && is_continuation c3
   && (2048 <=? point3 c1 c2 c3))%N.

Definition four_bytes (c1 c2 c3 c4 : ascii) : bool :=
  ((240 <=? byte c1) && (byte c1 <? 248) && is_continuation c2 && is_continuation c3
   && is_continuation c4
   && (65536 <=? point4 c1 c2 c3 c4) && (point4 c1 c2 c3 c4 <=? 1114111))%N.

(** A byte on its own: an ASCII character, or a byte that starts no encoded
    character.  No [str] has such a byte in its encoding; it is read as a
    character beyond the code points, which is in no class. *)
Definition point1 (c : ascii) : N :=
  (if byte c <? 128 then byte c else 1114112 + byte c)%N.

(** The characters of a text: the code point of each and the bytes that
    encode it.  A surrogate is read from its three bytes like any code
    point, since a [str] may hold one. *)
Fixpoint characters (s : string) : list (N * string) :=
  match s with
  | EmptyString => []
  | String c1 s1 =>
      let alone := (point1 c1, String c1 EmptyString) :: characters s1 in
      match s1 with
      | String c2 s2 =>
          if two_bytes c1 c2
          then (point2 c1 c2, String c1 (String c2 EmptyString)) :: characters s2
          else
            match s2 with
            | String c3 s3 =>
                if three_bytes c1 c2 c3
                then (point3 c1 c2 c3,
                      String c1 (String c2 (String c3 EmptyString))) :: characters s3
                else
                  match s3 with
                  | String c4 s4 =>
                      if four_bytes c1 c2 c3 c4
                      then (point4 c1 c2 c3 c4,
                            String c1 (String c2 (String c3 (String c4 EmptyString))))
                           :: characters s4
                      else alone
                  | EmptyString => alone
                  end
            | EmptyString => alone
            end
      | EmptyString => alone
      end
  end.

Definition code_points (s : string) : list N := map fst (characters s).

(** The text of a list of characters. *)
Fixpoint text_of (cs : list (N * string)) : string :=
  match cs with
  | [] => EmptyString
  | (_, bytes) :: rest => bytes ++ text_of rest
  end.

(** [str.isspace]: the white space of Unicode, which is also the class
    [\s] of [re] on a [str]. *)
Definition is_space (c : N) : bool :=
  ((9 <=? c) && (c <=? 13) || (28 <=? c) && (c <=? 32)
   || (c =? 133) || (c =? 160) || (c =? 5760)
   || (8192 <=? c) && (c <=? 8202)
   || (c =? 8232) || (c =? 8233) || (c =? 8239) || (c =? 8287) || (c =? 12288))%N.

(** The code points that are alphanumeric for [str.isalnum], and the
    underscore: the ranges of the Unicode 14.0 data of Python 3.11. *)
Definition word_ranges : list (N * N) :=
  ([
   (48, 57); (65, 90); (95, 95); (97, 122); (170, 170); (178, 179);
   (181, 181); (185, 186); (188, 190); (192, 214); (216, 246); (248, 705);
   (710, 721); (736, 740); (748, 748); (750, 750); (880, 884); (886, 887);
   (890, 893); (895, 895); (902, 902); (904, 906); (908, 908); (910, 929);
   (931, 1013); (1015, 1153); (1162, 1327); (1329, 1366); (1369, 1369); (1376, 1416);
   (1488, 1514); (1519, 1522); (1568, 1610); (1632, 1641); (1646, 1647); (1649, 1747);
   (1749, 1749); (1765, 1766); (1774, 1788); (1791, 1791); (1808, 1808); (1810, 1839);
   (1869, 1957); (1969, 1969); (1984, 2026); (2036, 2037); (2042, 2042); (2048, 2069);
   (2074, 2074); (2084, 2084); (2088, 2088); (2112, 2136); (2144, 2154); (2160, 2183);
   (2185, 2190); (2208, 2249); (2308, 2361); (2365, 2365); (2384, 2384); (2392, 2401);
   (2406, 2415); (2417, 2432); (2437, 2444); (2447, 2448); (2451, 2472); (2474, 2480);
   (2482, 2482); (2486, 2489); (2493, 2493); (2510, 2510); (2524, 2525); (2527, 2529);
   (2534, 2545); (2548, 2553); (2556, 2556); (2565, 2570); (2575, 2576); (2579, 2600);
   (2602, 2608); (2610, 2611); (2613, 2614); (2616, 2617); (2649, 2652); (2654, 2654);
   (2662, 2671); (2674, 2676); (2693, 2701); (2703, 2705); (2707, 2728); (2730, 2736);
   (2738, 2739); (2741, 2745); (2749, 2749); (2768, 2768); (2784, 2785); (2790, 2799);
   (2809, 2809); (2821, 2828); (2831, 2832); (2835, 2856); (2858, 2864); (2866, 2867);
   (2869, 2873); (2877, 2877); (2908, 2909); (2911, 2913); (2918, 2927); (2929, 2935);
   (2947, 2947); (2949, 2954); (2958, 2960); (2962, 2965); (2969, 2970); (2972, 2972);
   (2974, 2975); (2979, 2980); (2984, 2986); (2990, 3001); (3024, 3024); (3046, 3058);
   (3077, 3084); (3086, 3088); (3090, 3112); (3114, 3129); (3133, 3133); (3160, 3162);
   (3165, 3165); (3168, 3169); (3174, 3183); (3192, 3198); (3200, 3200); (3205, 3212);
   (3214, 3216); (3218, 3240); (3242, 3251); (3253, 3257); (3261, 3261); (3293, 3294);
   (3296, 3297); (3302, 3311); (3313, 3314); (3332, 3340); (3342, 3344); (3346, 3386);
   (3389, 3389); (3406, 3406); (3412, 3414); (3416, 3425); (3430, 3448); (3450, 3455);
   (3461, 3478); (3482, 3505); (3507, 3515); (3517, 3517); (3520, 3526); (3558, 3567);
   (3585, 3632); (3634, 3635); (3648, 3654); (3664, 3673); (3713, 3714); (3716, 3716);
   (3718, 3722); (3724, 3747); (3749, 3749); (3751, 3760); (3762, 3763); (3773, 3773);
   (3776, 3780); (3782, 3782); (3792, 3801); (3804, 3807); (3840, 3840); (3872, 3891);
   (3904, 3911); (3913, 3948); (3976, 3980); (4096, 4138); (4159, 4169); (4176, 4181);
   (4186, 4189); (4193, 4193); (4197, 4198); (4206, 4208); (4213, 4225); (4238, 4238);
   (4240, 4249); (4256, 4293); (4295, 4295); (4301, 4301); (4304, 4346); (4348, 4680);
   (4682, 4685); (4688, 4694); (4696, 4696); (4698, 4701); (4704, 4744); (4746, 4749);
   (4752, 4784); (4786, 4789); (4792, 4798); (4800, 4800); (4802, 4805); (4808, 4822);
   (4824, 4880); (4882, 4885); (4888, 4954); (4969, 4988); (4992, 5007); (5024, 5109);
   (5112, 5117); (5121, 5740); (5743, 5759); (5761, 5786); (5792, 5866); (5870, 5880);
   (5888, 5905); (5919, 5937); (5952, 5969); (5984, 5996); (5998, 6000); (6016, 6067);
   (6103, 6103); (6108, 6108); (6112, 6121); (6128, 6137); (6160, 6169); (6176, 6264);
   (6272, 6276); (6279, 6312); (6314, 6314); (6320, 6389); (6400, 6430); (6470, 6509);
   (6512, 6516); (6528, 6571); (6576, 6601); (6608, 6618); (6656, 6678); (6688, 6740);
   (6784, 6793); (6800, 6809); (6823, 6823); (6917, 6963); (6981, 6988); (6992, 7001);
   (7043, 7072); (7086, 7141); (7168, 7203); (7232, 7241); (7245, 7293); (7296, 7304);
   (7312, 7354); (7357, 7359); (7401, 7404); (7406, 7411); (7413, 7414); (7418, 7418);
   (7424, 7615); (7680, 7957); (7960, 7965); (7968, 8005); (8008, 8013); (8016, 8023);
   (8025, 8025); (8027, 8027); (8029, 8029); (8031, 8061); (8064, 8116); (8118, 8124);
   (8126, 8126); (8130, 8132); (8134, 8140); (8144, 8147); (8150, 8155); (8160, 8172);
   (8178, 8180); (8182, 8188); (8304, 8305); (8308, 8313); (8319, 8329); (8336, 8348);
   (8450, 8450); (8455, 8455); (8458, 8467); (8469, 8469); (8473, 8477); (8484, 8484);
   (8486, 8486); (8488, 8488); (8490, 8493); (8495, 8505); (8508, 8511); (8517, 8521);
   (8526, 8526); (8528, 8585); (9312, 9371); (9450, 9471); (10102, 10131); (11264, 11492);
   (11499, 11502); (11506, 11507); (11517, 11517); (11520, 11557); (11559, 11559); (11565, 11565);
   (11568, 11623); (11631, 11631); (11648, 11670); (11680, 11686); (11688, 11694); (11696, 11702);
   (11704, 11710); (11712, 11718); (11720, 11726); (11728, 11734); (11736, 11742); (11823, 11823);
   (12293, 12295); (12321, 12329); (12337, 12341); (12344, 12348); (12353, 12438); (12445, 12447);
   (12449, 12538); (12540, 12543); (12549, 12591); (12593, 12686); (12690, 12693); (12704, 12735);
   (12784, 12799); (12832, 12841); (12872, 12879); (12881, 12895); (12928, 12937); (12977, 12991);
   (13312, 19903); (19968, 42124); (42192, 42237); (42240, 42508); (42512, 42539); (42560, 42606);
   (42623, 42653); (42656, 42735); (42775, 42783); (42786, 42888); (42891, 42954); (42960, 42961);
   (42963, 42963); (42965, 42969); (42994, 43009); (43011, 43013); (43015, 43018); (43020, 43042);
   (43056, 43061); (43072, 43123); (43138, 43187); (43216, 43225); (43250, 43255); (43259, 43259);
   (43261, 43262); (43264, 43301); (43312, 43334); (43360, 43388); (43396, 43442); (43471, 43481);
   (43488, 43492); (43494, 43518); (43520, 43560); (43584, 43586); (43588, 43595); (43600, 43609);
   (43616, 43638); (43642, 43642); (43646, 43695); (43697, 43697); (43701, 43702); (43705, 43709);
   (43712, 43712); (43714, 43714); (43739, 43741); (43744, 43754); (43762, 43764); (43777, 43782);
   (43785, 43790); (43793, 43798); (43808, 43814); (43816, 43822); (43824, 43866); (43868, 43881);
   (43888, 44002); (44016, 44025); (44032, 55203); (55216, 55238); (55243, 55291); (63744, 64109);
   (64112, 64217); (64256, 64262); (64275, 64279); (64285, 64285); (64287, 64296); (64298, 64310);
   (64312, 64316); (64318, 64318); (64320, 64321); (64323, 64324); (64326, 64433); (64467, 64829);
   (64848, 64911); (64914, 64967); (65008, 65019); (65136, 65140); (65142, 65276); (65296, 65305);
   (65313, 65338); (65345, 65370); (65382, 65470); (65474, 65479); (65482, 65487); (65490, 65495);
   (65498, 65500); (65536, 65547); (65549, 65574); (65576, 65594); (65596, 65597); (65599, 65613);
   (65616, 65629); (65664, 65786); (65799, 65843); (65856, 65912); (65930, 65931); (66176, 66204);
   (66208, 66256); (66273, 66299); (66304, 66339); (66349, 66378); (66384, 66421); (66432, 66461);
   (66464, 66499); (66504, 66511); (66513, 66517); (66560, 66717); (66720, 66729); (66736, 66771);
   (66776, 66811); (66816, 66855); (66864, 66915); (66928, 66938); (66940, 66954); (66956, 66962);
   (66964, 66965); (66967, 66977); (66979, 66993); (66995, 67001); (67003, 67004); (67072, 67382);
   (67392, 67413); (67424, 67431); (67456, 67461); (67463, 67504); (67506, 67514); (67584, 67589);
   (67592, 67592); (67594, 67637); (67639, 67640); (67644, 67644); (67647, 67669); (67672, 67702);
   (67705, 67742); (67751, 67759); (67808, 67826); (67828, 67829); (67835, 67867); (67872, 67897);
   (67968, 68023); (68028, 68047); (68050, 68096); (68112, 68115); (68117, 68119); (68121, 68149);
   (68160, 68168); (68192, 68222); (68224, 68255); (68288, 68295); (68297, 68324); (68331, 68335);
   (68352, 68405); (68416, 68437); (68440, 68466); (68472, 68497); (68521, 68527); (68608, 68680);
   (68736, 68786); (68800, 68850); (68858, 68899); (68912, 68921); (69216, 69246); (69248, 69289);
   (69296, 69297); (69376, 69415); (69424, 69445); (69457, 69460); (69488, 69505); (69552, 69579);
   (69600, 69622); (69635, 69687); (69714, 69743); (69745, 69746); (69749, 69749); (69763, 69807);
   (69840, 69864); (69872, 69881); (69891, 69926); (69942, 69951); (69956, 69956); (69959, 69959);
   (69968, 70002); (70006, 70006); (70019, 70066); (70081, 70084); (70096, 70106); (70108, 70108);
   (70113, 70132); (70144, 70161); (70163, 70187); (70272, 70278); (70280, 70280); (70282, 70285);
   (70287, 70301); (70303, 70312); (70320, 70366); (70384, 70393); (70405, 70412); (70415, 70416);
   (70419, 70440); (70442, 70448); (70450, 70451); (70453, 70457); (70461, 70461); (70480, 70480);
   (70493, 70497); (70656, 70708); (70727, 70730); (70736, 70745); (70751, 70753); (70784, 70831);
   (70852, 70853); (70855, 70855); (70864, 70873); (71040, 71086); (71128, 71131); (71168, 71215);
   (71236, 71236); (71248, 71257); (71296, 71338); (71352, 71352); (71360, 71369); (71424, 71450);
   (71472, 71483); (71488, 71494); (71680, 71723); (71840, 71922); (71935, 71942); (71945, 71945);
   (71948, 71955); (71957, 71958); (71960, 71983); (71999, 71999); (72001, 72001); (72016, 72025);
   (72096, 72103); (72106, 72144); (72161, 72161); (72163, 72163); (72192, 72192); (72203, 72242);
   (72250, 72250); (72272, 72272); (72284, 72329); (72349, 72349); (72368, 72440); (72704, 72712);
   (72714, 72750); (72768, 72768); (72784, 72812); (72818, 72847); (72960, 72966); (72968, 72969);
   (72971, 73008); (73030, 73030); (73040, 73049); (73056, 73061); (73063, 73064); (73066, 73097);
   (73112, 73112); (73120, 73129); (73440, 73458); (73648, 73648); (73664, 73684); (73728, 74649);
   (74752, 74862); (74880, 75075); (77712, 77808); (77824, 78894); (82944, 83526); (92160, 92728);
   (92736, 92766); (92768, 92777); (92784, 92862); (92864, 92873); (92880, 92909); (92928, 92975);
   (92992, 92995); (93008, 93017); (93019, 93025); (93027, 93047); (93053, 93071); (93760, 93846);
   (93952, 94026); (94032, 94032); (94099, 94111); (94176, 94177); (94179, 94179); (94208, 100343);
   (100352, 101589); (101632, 101640); (110576, 110579); (110581, 110587); (110589, 110590); (110592, 110882);
   (110928, 110930); (110948, 110951); (110960, 111355); (113664, 113770); (113776, 113788); (113792, 113800);
   (113808, 113817); (119520, 119539); (119648, 119672); (119808, 119892); (119894, 119964); (119966, 119967);
   (119970, 119970); (119973, 119974); (119977, 119980); (119982, 119993); (119995, 119995); (119997, 120003);
   (120005, 120069); (120071, 120074); (120077, 120084); (120086, 120092); (120094, 120121); (120123, 120126);
   (120128, 120132); (120134, 120134); (120138, 120144); (120146, 120485); (120488, 120512); (120514, 120538);
   (120540, 120570); (120572, 120596); (120598, 120628); (120630, 120654); (120656, 120686); (120688, 120712);
   (120714, 120744); (120746, 120770); (120772, 120779); (120782, 120831); (122624, 122654); (123136, 123180);
   (123191, 123197); (123200, 123209); (123214, 123214); (123536, 123565); (123584, 123627); (123632, 123641);
   (124896, 124902); (124904, 124907); (124909, 124910); (124912, 124926); (124928, 125124); (125127, 125135);
   (125184, 125251); (125259, 125259); (125264, 125273); (126065, 126123); (126125, 126127); (126129, 126132);
   (126209, 126253); (126255, 126269); (126464, 126467); (126469, 126495); (126497, 126498); (126500, 126500);
   (126503, 126503); (126505, 126514); (126516, 126519); (126521, 126521); (126523, 126523); (126530, 126530);
   (126535, 126535); (126537, 126537); (126539, 126539); (126541, 126543); (126545, 126546); (126548, 126548);
   (126551, 126551); (126553, 126553); (126555, 126555); (126557, 126557); (126559, 126559); (126561, 126562);
   (126564, 126564); (126567, 126570); (126572, 126578); (126580, 126583); (126585, 126588); (126590, 126590);
   (126592, 126601); (126603, 126619); (126625, 126627); (126629, 126633); (126635, 126651); (127232, 127244);
   (130032, 130041); (131072, 173791); (173824, 177976); (177984, 178205); (178208, 183969); (183984, 191456);
   (194560, 195101); (196608, 201546)
  ])%N.

(** The class [\w] of [re] on a [str]. *)
Definition is_word (c : N) : bool :=
  existsb (fun range => (fst range <=? c) && (c <=? snd range))%N word_ranges.

Definition is_upper (c : ascii) : bool :=
  let n := nat_of_ascii c in ((65 <=? n) && (n <=? 90))%nat.

Definition lower_char (c : ascii) : ascii :=
  if is_upper c then ascii_of_nat (nat_of_ascii c + 32) else c.

Definition upper_char (c : ascii) : ascii :=
  let n := nat_of_ascii c in
  if ((97 <=? n) && (n <=? 122))%nat then ascii_of_nat (n - 32) else c.

(** [str.lower] as far as the test for an ASCII text in the result goes:
    the letters A to Z are lowered byte by byte.  A character outside ASCII
    is left as it is; its lower case in Python holds no ASCII letter but
    [i] (for U+0130) and [k] (for U+212A), and is never empty. *)
Fixpoint lower (s : string) : string :=
  match s with
  | EmptyString => EmptyString
  | String c s' => String (lower_char c) (lower s')
  end.

(** [s.startswith(p)] *)
Definition startswith (s p : string) : bool := String.prefix p s.

(** [needle in s] *)
Fixpoint contains (needle s : string) : bool :=
  if String.prefix needle s then true
  else match s with
       | EmptyString => false
       | String _ s' => contains needle s'
       end.

Fixpoint lstrip (cs : list (N * string)) : list (N * string) :=
  match cs with
  | [] => []
  | c :: rest => if is_space (fst c) then lstrip rest else cs
  end.

Fixpoint rstrip (cs : list (N * string)) : list (N * string) :=
  match cs with
  | [] => []
  | c :: rest =>
      match rstrip rest with
      | [] => if is_space (fst c) then [] else [c]
      | kept => c :: kept
      end
  end.

(** [str.strip] *)
Definition strip (s : string) : string := text_of (rstrip (lstrip (characters s))).

(** [s.split("\n")]: never empty, one more piece than there are newlines. *)
Fixpoint split_newline (s : string) : list string :=
  match s with
  | EmptyString => [EmptyString]
  | String c s' =>
      if Ascii.eqb c newline then EmptyString :: split_newline s'
      else match split_newline s' with
           | h :: t => String c h :: t
           | [] => [String c EmptyString]
           end
  end.

(** [str(n)] for a length. *)
Definition str_of_nat (n : nat) : string :=
  NilEmpty.string_of_uint (Nat.to_uint n).

(** ** Regular expressions

    The patterns of [CodeReviewer.__init__] are written in this syntax and
    matched by derivatives, code point by code point.  [re.search] only asks
    whether some part of the text matches, so greedy and lazy repetition
    need not be told apart. *)

Inductive regex :=
| Void
| Eps
| Cls (p : N -> bool)
| Seq (a b : regex)
| Alt (a b : regex)
| Star (a : regex).

Fixpoint nullable (r : regex) : bool :=
  match r with
  | Void => false
  | Eps => true
  | Cls _ => false
  | Seq a b => nullable a && nullable b
  | Alt a b => nullable a || nullable b
  | Star _ => true
  end.

Fixpoint deriv (c : N) (r : regex) : regex :=
  match r with
  | Void => Void
  | Eps => Void
  | Cls p => if p c then Eps else Void
  | Seq a b =>
      if nullable a then Alt (Seq (deriv c a) b) (deriv c b)
      else Seq (deriv c a) b
  | Alt a b => Alt (deriv c a) (deriv c b)
  | Star a => Seq (deriv c a) (Star a)
  end.

(** Does the expression match the whole sequence of code points? *)
Fixpoint matches (r : regex) (cs : list N) : bool :=
  match cs with
  | [] => nullable r
  | c :: rest => matches (deriv c r) rest
  end.

(** [re.fullmatch] *)
Definition fullmatch (r : regex) (s : string) : bool := matches r (code_points s).

(** The language of an expression: the sequences of code points it matches
    in full. *)
Inductive in_lang : regex -> list N -> Prop :=
| in_Eps : in_lang Eps []
| in_Cls p c : p c = true -> in_lang (Cls p) [c]
| in_Seq a b s t : in_lang a s -> in_lang b t -> in_lang (Seq a b) (s ++ t)
| in_Alt_l a b s : in_lang a s -> in_lang (Alt a b) s
| in_Alt_r a b s : in_lang b s -> in_lang (Alt a b) s
| in_Star_nil a : in_lang (Star a) []
| in_Star_cons a s t : in_lang a s -> in_lang (Star a) t -> in_lang (Star a) (s ++ t).

Arguments in_Seq {a b s t} _ _.
Arguments in_Star_cons {a s t} _ _.
Arguments in_Alt_l {a} b {s} _.
Arguments in_Alt_r a {b s} _.

Definition any_char : regex := Cls (fun _ => true).

(** [.] without [re.DOTALL]: every character but the line feed. *)
Definition dot : regex := Cls (fun c => negb (c =? byte newline)%N).

(** A literal ASCII character of a pattern. *)
Definition chr (c : ascii) : regex := Cls (N.eqb (byte c)).

(** The code points a literal ASCII character matches under
    [re.IGNORECASE]: its two cases and, for i, k and s, the letters that
    fold to them (dotted capital I, dotless i, Kelvin sign, long s). *)
Definition case_variants (c : ascii) : list N :=
  ([byte (lower_char c); byte (upper_char c)]
   ++ match byte (lower_char c) with
      | 105 => [304; 305]
      | 107 => [8490]
      | 115 => [383]
      | _ => []
      end)%N%list.

(** A literal character under [re.IGNORECASE]. *)
Definition ichr (c : ascii) : regex :=
  Cls (fun x => existsb (N.eqb x) (case_variants c)).

Fixpoint lit (s : string) : regex :=
  match s with
  | EmptyString => Eps
  | String c s' => Seq (chr c) (lit s')
  end.

Fixpoint ilit (s : string) : regex :=
  match s with
  | EmptyString => Eps
  | String c s' => Seq (ichr c) (ilit s')
  end.

Definition opt (r : regex) : regex := Alt r Eps.
Definition plus (r : regex) : regex := Seq r (Star r).
Definition spaces : regex := Star (Cls is_space).

Fixpoint seqs (rs : list regex) : regex :=
  match rs with
  | [] => Eps
  | [r] => r
  | r :: rs' => Seq r (seqs rs')
  end.

Fixpoint alts (rs : list regex) : regex :=
  match rs with
  | [] => Void
  | [r] => r
  | r :: rs' => Alt r (alts rs')
  end.

(** [pattern.search(s) is not None] *)
Definition search (r : regex) (s : string) : bool :=
  matches (seqs [Star any_char; r; Star any_char]) (code_points s).

(** [search] for a pattern [\b r] whose [r] starts with a word character: the
    match starts the text or follows a character outside [\w]. *)
Definition search_at_word_start (r : regex) (s : string) : bool :=
  matches
    (seqs [opt (Seq (Star any_char) (Cls (fun c => negb (is_word c))));
           r; Star any_char]) (code_points s).

Definition dquote : ascii := "034"%char.
Definition squote : ascii := "039"%char.

(** The class of the two quote characters, written [Q] in the comments
    below. *)
Definition quote : regex :=
  Cls (fun c => (c =? byte dquote) || (c =? byte squote))%N.

Module security_patterns.

(** [(?:api[_-]?key|password|secret|token)\s*=\s*Q[\w\-]+Q] with
    [re.IGNORECASE] *)
Definition hardcoded_key : regex :=
  seqs [alts [seqs [ilit "api";
                    opt (Cls (fun c => (c =? byte "_") || (c =? byte "-"))%N);
                    ilit "key"];
              ilit "password"; ilit "secret"; ilit "token"];
        spaces; chr "="; spaces; quote;
        plus (Cls (fun c => is_word c || (c =? byte "-")%N));
        quote].

(** [(?:execute|executemany|query)\s*\(\s*Q.*?\{|\%] with
    [re.IGNORECASE]: the alternation is at the top level. *)
Definition sql_injection : regex :=
  Alt (seqs [alts [ilit "execute"; ilit "executemany"; ilit "query"];
             spaces; chr "("; spaces; quote; Star dot; chr "{"])
      (chr "%").

(** [\beval\s*\(], without its leading [\b] (see [search_at_word_start]). *)
Definition eval_usage : regex := seqs [lit "eval"; spaces; chr "("].

(** [requests\s*\.(?:get|post|put|delete)] *)
Definition requests_in_async : regex :=
  seqs [lit "requests"; spaces; chr ".";
        alts [lit "get"; lit "post"; lit "put"; lit "delete"]].

(** [subprocess\s*\.\s*(?:call|run|Popen).*shell\s*=\s*True] *)
Definition shell_injection : regex :=
  seqs [lit "subprocess"; spaces; chr "."; spaces;
        alts [lit "call"; lit "run"; lit "Popen"];
        Star dot; lit "shell"; spaces; chr "="; spaces; lit "True"].

End security_patterns.

Module ha_patterns.

(** [time\.sleep\s*\(] *)
Definition blocking_sleep : regex :=
  seqs [lit "time"; chr "."; lit "sleep"; spaces; chr "("].

End ha_patterns.

(** Is the text made of ASCII characters only? *)
Fixpoint is_ascii (s : string) : bool :=
  match s with
  | EmptyString => true
  | String c s' => (byte c <? 128)%N && is_ascii s'
  end.

(** ** Values of the standard library *)

(** What [json.loads] returns. An object is its members in insertion order;
    a [dict] holds each key once. *)
Inductive json :=
| JNull
| JBool (b : bool)
| JNum (n : number)
| JStr (s : string)
| JArr (items : list json)
| JObj (members : list (string * json)).

Inductive exn_class :=
| FileNotFoundError
| TimeoutExpired
| JSONDecodeError
| KeyError
| TypeError
| AttributeError
| ValueError
| OverflowError
| RecursionError
| OtherException.

(** An exception below [Exception], with [str(e)]. *)
Record exn := Exn { class : exn_class; str_exn : string }.

Definition is_FileNotFoundError (e : exn) : bool :=
  match class e with FileNotFoundError => true | _ => false end.

Definition type_name (v : json) : string :=
  match v with
  | JNull => "NoneType"
  | JBool _ => "bool"
  | JNum (PyInt _) => "int"
  | JNum (PyFloat _) => "float"
  | JStr _ => "str"
  | JArr _ => "list"
  | JObj _ => "dict"
  end.

(** [dict.get(key)] as an option. *)
Fixpoint lookup (key : string) (members : list (string * json)) : option json :=
  match members with
  | [] => None
  | (k, v) :: rest => if String.eqb k key then Some v else lookup key rest
  end.

(** [key in v] for a string [key]: membership of a key in a [dict], of an
    equal element in a [list], of a substring in a [str]; a [TypeError] on
    the other values. *)
Definition py_in (key : string) (v : json) : bool + exn :=
  match v with
  | JObj members =>
      inl (match lookup key members with Some _ => true | None => false end)
  | JArr items =>
      inl (existsb (fun x => match x with JStr s => String.eqb s key | _ => false end)
             items)
  | JStr s => inl (contains key s)
  | _ => inr (Exn TypeError
                ("argument of type '" ++ type_name v ++ "' is not iterable"))
  end.

(** [v.get(key, default)] *)
Definition py_get (v : json) (key : string) (default : json) : json + exn :=
  match v with
  | JObj members =>
      inl (match lookup key members with Some x => x | None => default end)
  | _ => inr (Exn AttributeError
                ("'" ++ type_name v ++ "' object has no attribute 'get'"))
  end.

(** [v[key]] for a string [key] *)
Definition subscript (v : json) (key : string) : json + exn :=
  match v with
  | JObj members =>
      match lookup key members with
      | Some x => inl x
      | None => inr (Exn KeyError ("'" ++ key ++ "'"))
      end
  | JArr _ => inr (Exn TypeError "list indices must be integers or slices, not str")
  | JStr _ => inr (Exn TypeError "string indices must be integers, not 'str'")
  | _ => inr (Exn TypeError ("'" ++ type_name v ++ "' object is not subscriptable"))
  end.

(** Truth value of [v], as [not v] tests it. *)
Definition truthy (v : json) : bool :=
  match v with
  | JNull => false
  | JBool b => b
  | JNum (PyInt z) => negb (z =? 0)%Z
  | JNum (PyFloat f) => negb (f =? 0)%float
  | JStr s => negb (String.eqb s "")
  | JArr items => match items with [] => false | _ => true end
  | JObj members => match members with [] => false | _ => true end
  end.

(** The values that order against an [int]; [bool] is a subclass of [int]. *)
Definition as_number (v : json) : option number :=
  match v with
  | JNum n => Some n
  | JBool b => Some (PyInt (if b then 1 else 0))
  | _ => None
  end.

Inductive json_result :=
| JsonValue (v : json)
| JsonDecodeError (msg : string).

(** The view of a syntax tree that [_check_ast_patterns] takes. *)
Inductive expr_view :=
| Name (id : string)
| OtherExpr.

Inductive node_kind :=
| FunctionDef (name : string) (returns : option expr_view) (lineno : Z)
| ExceptHandler (type : option expr_view) (lineno : Z)
| OtherNode.

(** The tree [ast.parse] returns, as [ast.walk] unfolds it: a node object
    that several nodes have as a child (the parser shares its [Load] and
    [Store] contexts) stands once under each of them, as the walk yields it
    once for each. *)
Inductive ast :=
| Node (kind : node_kind) (children : list ast).

Definition kind_of (t : ast) : node_kind :=
  match t with Node k _ => k end.

(** What [ast.parse] does with a text: it returns a tree, raises a
    [SyntaxError] with [e.lineno] and [e.msg], or raises another exception
    (a [ValueError] for a text with a null byte, a [RecursionError] or a
    [MemoryError] for one nested too deep). *)
Inductive parse_result :=
| Parsed (tree : ast)
| SyntaxError (lineno : option Z) (msg : string)
| ParseFails (e : exn).

Fixpoint node_count (t : ast) : nat :=
  match t with
  | Node _ cs => S (list_sum (map node_count cs))
  end.

(** [ast.walk]: a queue that starts with the root; the node taken from its
    front is yielded and its children are added at the back. *)
Fixpoint walk_queue (fuel : nat) (todo : list ast) : list ast :=
  match fuel, todo with
  | S fuel', (Node _ cs as n) :: rest => n :: walk_queue fuel' (rest ++ cs)%list
  | _, _ => []
  end.

Definition ast_walk (t : ast) : list ast := walk_queue (node_count t) [t].

(** ** The outside world *)

Record Path := mkPath {
  path_str : string;   (* str(file) *)
  name : string;       (* file.name *)
  suffix : string      (* file.suffix *)
}.

Inductive tool :=
| ToolMissing                                    (* no such executable *)
| ToolExits (returncode : Z) (stdout : string)   (* runs and exits *)
| ToolHangs.                                     (* runs and never exits *)

Record Env := mkEnv {
  root_path : string;
  path_exists : string -> bool;          (* Path.exists *)
  read_text : string -> string + exn;    (* Path.read_text *)
  ast_parse : string -> parse_result;    (* ast.parse *)
  json_loads : string -> json_result;    (* json.loads *)
  tools : list string -> tool;           (* the command line run *)
  fixed_1f : number -> string            (* format(x, ".1f"), when there is one *)
}.

(** [root / part] *)
Definition joinpath (root part : string) : string := root ++ "/" ++ part.

(** The arguments of a [subprocess.run] call that bear on its result. *)
Record invocation := mkInvocation {
  argv : list string;
  timeout : option Z
}.

Inductive run_result :=
| Completed (returncode : Z) (stdout : string)
| RunRaises (e : exn)
| RunBlocks.

(** [subprocess.run]: a missing executable raises [FileNotFoundError]; a
    process is waited for, and one that does not exit ends the wait only
    when a timeout was passed. *)
Definition subprocess_run (env : Env) (inv : invocation) : run_result :=
  match tools env (argv inv) with
  | ToolMissing =>
      RunRaises (Exn FileNotFoundError
                   ("[Errno 2] No such file or directory: '" ++ hd "" (argv inv) ++ "'"))
  | ToolExits rc out => Completed rc out
  | ToolHangs =>
      match timeout inv with
      | Some _ => RunRaises (Exn TimeoutExpired "Command timed out")
      | None => RunBlocks
      end
  end.

(** ** The reviewer *)

(** The state a method works on: [self.result] and what was printed to
    [sys.stderr]. *)
Record Reviewer := mkReviewer {
  result : ReviewResult;
  stderr : list string
}.

(** [CodeReviewer(root_path)] before any output. *)
Definition new_Reviewer : Reviewer :=
  {| result := new_ReviewResult; stderr := [] |}.

Definition on_result (f : ReviewResult -> ReviewResult) (st : Reviewer) : Reviewer :=
  {| result := f (result st); stderr := stderr st |}.

(** [print(msg, file=sys.stderr)] *)
Definition print_err (msg : string) (st : Reviewer) : Reviewer :=
  {| result := result st; stderr := (stderr st ++ [msg])%list |}.

(** How a method ends.  The field [coverage_percent] is a number in every
    state; when the coverage phase has put another object there (a [bool],
    or a value that is no number at all), the method has returned
    [ReturnsHolding] that object: the state is the reviewer's but for that
    field, which holds the number a [bool] equals, or is out of date. *)
Inductive outcome :=
| Returns (st : Reviewer)
| ReturnsHolding (v : json) (st : Reviewer)
| Raises (e : exn) (st : Reviewer)
| Blocks.

(** The next method after one that ended; with an object held in the
    field, it runs on the rest of the state. *)
Definition bind (m : outcome) (k : Reviewer -> outcome) : outcome :=
  match m with
  | Returns st => k st
  | ReturnsHolding v st =>
      match k st with
      | Returns st' => ReturnsHolding v st'
      | other => other
      end
  | Raises e st => Raises e st
  | Blocks => Blocks
  end.

Notation "m >>= k" := (bind m k) (at level 50, left associativity).

(** [try: ... except C as e: handler], for the classes [handles] accepts. *)
Definition catch (handles : exn -> bool) (m : outcome)
    (handler : exn -> Reviewer -> Reviewer) : outcome :=
  match m with
  | Raises e st => if handles e then Returns (handler e st) else Raises e st
  | other => other
  end.

Definition any_Exception (e : exn) : bool := true.

Definition is_JSONDecodeError (e : exn) : bool :=
  match class e with JSONDecodeError => true | _ => false end.

(** A text between double quotes. *)
Definition dq (s : string) : string := String dquote (s ++ String dquote "").

(** ** Pattern detector *)

Definition hardcoded_credential_issue (path : string) (i : Z) : Issue :=
  {| severity := BLOCKING; category := SECURITY; file := path; line := Some i;
     title := "Hardcoded Credential";
     description := "Hardcoded API key, password, or secret detected";
     suggestion := Some "Store credentials in config entry data";
     code_example := Some "api_key = entry.data[CONF_API_KEY]";
     reference :=
       Some "https://developers.home-assistant.io/docs/config_entries_config_flow_handler" |}.

(** Is this line of the file at [path] reported as a hardcoded credential? *)
Definition reports_credential (path text : string) : bool :=
  if search security_patterns.hardcoded_key text then
    negb (contains "test" (lower path)) && negb (startswith (strip text) "#")
  else false.

(** The loop [for i, line in enumerate(lines, 1)] of
    [_check_security_issues], from index [i] on. *)
Fixpoint check_hardcoded_credentials (path : string) (i : Z) (lines : list string)
    (r : ReviewResult) : ReviewResult :=
  match lines with
  | [] => r
  | text :: rest =>
      check_hardcoded_credentials path (i + 1) rest
        (if reports_credential path text
         then add_issue (hardcoded_credential_issue path i) r
         else r)
  end.

Definition sql_injection_issue (path : string) : Issue :=
  {| severity := BLOCKING; category := SECURITY; file := path; line := None;
     title := "Potential SQL Injection";
     description := "SQL query using string formatting detected";
     suggestion := Some "Use parameterized queries";
     code_example :=
       Some ("cursor.execute(" ++ dq "SELECT * FROM t WHERE id = ?" ++ ", (id,))");
     reference := None |}.

Definition eval_issue (path : string) : Issue :=
  {| severity := BLOCKING; category := SECURITY; file := path; line := None;
     title := "Unsafe eval() Usage";
     description := "Use of eval() detected - potential code injection";
     suggestion := Some "Use ast.literal_eval() or json.loads() instead";
     code_example := None; reference := None |}.

Definition shell_injection_issue (path : string) : Issue :=
  {| severity := BLOCKING; category := SECURITY; file := path; line := None;
     title := "Shell Injection Risk";
     description := "subprocess call with shell=True detected";
     suggestion := Some "Use shell=False and pass command as list";
     code_example :=
       Some ("subprocess.run([" ++ dq "ls" ++ ", " ++ dq "-la" ++ "], shell=False)");
     reference := None |}.

Definition add_issue_if (b : bool) (i : Issue) (r : ReviewResult) : ReviewResult :=
  if b then add_issue i r else r.

Definition _check_security_issues (f : Path) (content : string) (lines : list string)
    (r : ReviewResult) : ReviewResult :=
  let r := check_hardcoded_credentials (path_str f) 1 lines r in
  let r := add_issue_if (search security_patterns.sql_injection content)
             (sql_injection_issue (path_str f)) r in
  let r := add_issue_if (search_at_word_start security_patterns.eval_usage content)
             (eval_issue (path_str f)) r in
  add_issue_if (search security_patterns.shell_injection content)
    (shell_injection_issue (path_str f)) r.

Definition blocking_io_issue (path : string) : Issue :=
  {| severity := BLOCKING; category := ASYNC; file := path; line := None;
     title := "Blocking I/O in Async Function";
     description := "Using requests library in async function blocks event loop";
     suggestion := Some "Use aiohttp for async HTTP requests";
     code_example := Some "async with aiohttp.ClientSession() as session:
    async with session.get(url) as response:
        return await response.json()";
     reference :=
       Some "https://developers.home-assistant.io/docs/asyncio_working_with_async" |}.

Definition blocking_sleep_issue (path : string) : Issue :=
  {| severity := BLOCKING; category := ASYNC; file := path; line := None;
     title := "Blocking Sleep in Async Function";
     description := "Using time.sleep() in async function blocks event loop";
     suggestion := Some "Use asyncio.sleep() instead";
     code_example := Some "await asyncio.sleep(seconds)";
     reference := None |}.

Definition _check_ha_patterns (f : Path) (content : string) (lines : list string)
    (r : ReviewResult) : ReviewResult :=
  let r := add_issue_if (contains "async def" content
                         && search security_patterns.requests_in_async content)
             (blocking_io_issue (path_str f)) r in
  add_issue_if (contains "async def" content
                && search ha_patterns.blocking_sleep content)
    (blocking_sleep_issue (path_str f)) r.

(** ** Syntax tree detector *)

Definition missing_return_issue (path fname : string) (lineno : Z) : Issue :=
  {| severity := WARNING; category := QUALITY; file := path; line := Some lineno;
     title := "Missing Return Type Hint";
     description := "Function '" ++ fname ++ "' has no return type hint";
     suggestion := Some "Add type hints to all public functions";
     code_example := None; reference := None |}.

Definition broad_except_issue (path : string) (lineno : Z) : Issue :=
  {| severity := WARNING; category := QUALITY; file := path; line := Some lineno;
     title := "Broad Exception Catching";
     description := "Catching generic Exception or all exceptions";
     suggestion := Some "Catch specific exceptions when possible";
     code_example := None; reference := None |}.

(** The body of the loop over [ast.walk(tree)], for one node. *)
Definition check_node (path : string) (n : ast) (r : ReviewResult) : ReviewResult :=
  match kind_of n with
  | FunctionDef fname returns lineno =>
      match returns with
      | None => add_issue_if (negb (startswith fname "_"))
                  (missing_return_issue path fname lineno) r
      | Some _ => r
      end
  | ExceptHandler type lineno =>
      match type with
      | None => add_issue (broad_except_issue path lineno) r
      | Some (Name id) =>
          add_issue_if (String.eqb id "Exception") (broad_except_issue path lineno) r
      | Some OtherExpr => r
      end
  | OtherNode => r
  end.

Definition _check_ast_patterns (f : Path) (tree : ast) (lines : list string)
    (r : ReviewResult) : ReviewResult :=
  fold_left (fun acc n => check_node (path_str f) n acc) (ast_walk tree) r.

Definition syntax_error_issue (path : string) (lineno : option Z) (msg : string) : Issue :=
  {| severity := BLOCKING; category := QUALITY; file := path; line := lineno;
     title := "Syntax Error";
     description := "Python syntax error: " ++ msg;
     suggestion := None; code_example := None; reference := None |}.

Definition _review_python_file (env : Env) (f : Path) (st : Reviewer) : outcome :=
  catch any_Exception
    (match read_text env (path_str f) with
     | inr e => Raises e st
     | inl content =>
         let lines := split_newline content in
         let st := on_result (_check_security_issues f content lines) st in
         let st := on_result (_check_ha_patterns f content lines) st in
         match ast_parse env content with
         | Parsed tree => Returns (on_result (_check_ast_patterns f tree lines) st)
         | SyntaxError lineno msg =>
             Returns (on_result (add_issue (syntax_error_issue (path_str f) lineno msg)) st)
         | ParseFails e => Raises e st
         end
     end)
    (fun e st => print_err ("Error reviewing " ++ path_str f ++ ": " ++ str_exn e) st).

(** ** Descriptor detector *)

Definition required_fields : list string :=
  ["domain"; "name"; "version"; "codeowners"; "documentation"; "iot_class";
   "integration_type"].

Definition missing_field_issue (path field : string) : Issue :=
  {| severity := BLOCKING; category := QUALITY; file := path; line := None;
     title := "Missing Required Field: " ++ field;
     description := "manifest.json must include '" ++ field ++ "'";
     suggestion := None; code_example := None;
     reference :=
       Some "https://developers.home-assistant.io/docs/creating_integration_manifest" |}.

Definition config_flow_issue (path : string) : Issue :=
  {| severity := WARNING; category := PATTERN; file := path; line := None;
     title := "Config Flow Not Enabled";
     description := "New integrations should use config flow";
     suggestion := Some "Set 'config_flow: true' and implement config_flow.py";
     code_example := None; reference := None |}.

Definition invalid_json_issue (path what msg : string) : Issue :=
  {| severity := BLOCKING; category := QUALITY; file := path; line := None;
     title := "Invalid JSON";
     description := what ++ " has invalid JSON: " ++ msg;
     suggestion := None; code_example := None; reference := None |}.

(** The loop [for field in required_fields] of [_review_manifest]. *)
Fixpoint check_required_fields (path : string) (manifest : json) (fields : list string)
    (st : Reviewer) : outcome :=
  match fields with
  | [] => Returns st
  | field :: rest =>
      match py_in field manifest with
      | inr e => Raises e st
      | inl present =>
          check_required_fields path manifest rest
            (if present then st
             else on_result (add_issue (missing_field_issue path field)) st)
      end
  end.

(** [json.loads(file.read_text())] inside a [try]. *)
Definition load_json (env : Env) (path : string) (st : Reviewer)
    (k : json -> outcome) : outcome :=
  match read_text env path with
  | inr e => Raises e st
  | inl text =>
      match json_loads env text with
      | JsonDecodeError msg => Raises (Exn JSONDecodeError msg) st
      | JsonValue v => k v
      end
  end.

Definition _review_manifest (env : Env) (f : Path) (st : Reviewer) : outcome :=
  catch is_JSONDecodeError
    (load_json env (path_str f) st (fun manifest =>
       check_required_fields (path_str f) manifest required_fields st >>= fun st =>
       match py_get manifest "config_flow" (JBool false) with
       | inr e => Raises e st
       | inl flag =>
           Returns (if truthy flag then st
                    else on_result (add_issue (config_flow_issue (path_str f))) st)
       end))
    (fun e st =>
       on_result (add_issue (invalid_json_issue (path_str f) "manifest.json" (str_exn e))) st).

Definition _review_strings (env : Env) (f : Path) (st : Reviewer) : outcome :=
  catch is_JSONDecodeError
    (load_json env (path_str f) st (fun _ =>
       Returns (on_result (add_positive "âœ… strings.json is valid JSON") st)))
    (fun e st =>
       on_result (add_issue (invalid_json_issue (path_str f) "strings.json" (str_exn e))) st).

(** ** External tool adapter *)

Definition ruff_invocation : invocation :=
  {| argv := ["ruff"; "check"; "custom_components/"; "--quiet"]; timeout := None |}.

Definition mypy_invocation : invocation :=
  {| argv := ["mypy"; "custom_components/"]; timeout := None |}.

Definition pytest_invocation : invocation :=
  {| argv := ["pytest"; "tests/"; "--cov=custom_components"; "--cov-report=json";
              "--quiet"];
     timeout := None |}.

(** A [subprocess.run] call inside a [try]. *)
Definition run (env : Env) (inv : invocation) (st : Reviewer)
    (k : Z -> string -> outcome) : outcome :=
  match subprocess_run env inv with
  | Completed rc out => k rc out
  | RunRaises e => Raises e st
  | RunBlocks => Blocks
  end.

Definition linting_issue : Issue :=
  {| severity := WARNING; category := QUALITY; file := "multiple"; line := None;
     title := "Linting Errors";
     description := "Ruff linter found issues";
     suggestion := Some "Run: ruff check custom_components/ --fix";
     code_example := None; reference := None |}.

Definition _run_linter (env : Env) (st : Reviewer) : outcome :=
  catch is_FileNotFoundError
    (run env ruff_invocation st (fun returncode _ =>
       if (returncode =? 0)%Z
       then Returns (on_result (add_positive "âœ… Ruff linter passes with no errors") st)
       else Returns (on_result (add_issue linting_issue) st)))
    (fun _ st => print_err "Warning: Ruff not found, skipping lint check" st).

Definition type_check_issue (error_count : nat) : Issue :=
  {| severity := WARNING; category := QUALITY; file := "multiple"; line := None;
     title := "Type Check Errors (" ++ str_of_nat error_count ++ ")";
     description := "mypy found type checking issues";
     suggestion := Some "Run: mypy custom_components/";
     code_example := None; reference := None |}.

(** The number of lines of [stdout] that contain [error:]. *)
Definition count_error_lines (stdout : string) : nat :=
  length (filter (contains "error:") (split_newline stdout)).

Definition _run_type_checker (env : Env) (st : Reviewer) : outcome :=
  catch is_FileNotFoundError
    (run env mypy_invocation st (fun returncode stdout =>
       if (returncode =? 0)%Z
       then Returns (on_result (add_positive "âœ… Type checking passes with no errors") st)
       else
         let error_count := count_error_lines stdout in
         if (0 <? error_count)%nat
         then Returns (on_result (add_issue (type_check_issue error_count)) st)
         else Returns st))
    (fun _ st => print_err "Warning: mypy not found, skipping type check" st).

Definition coverage_warning (shown : string) : Issue :=
  {| severity := WARNING; category := TESTING; file := "tests/"; line := None;
     title := "Test Coverage Below Target";
     description := "Coverage is " ++ shown ++ "%, target is 80%";
     suggestion := Some "Add tests for uncovered code paths";
     code_example := None; reference := None |}.

Definition coverage_blocking (shown : string) : Issue :=
  {| severity := BLOCKING; category := TESTING; file := "tests/"; line := None;
     title := "Insufficient Test Coverage";
     description := "Coverage is " ++ shown ++ "%, minimum is 60%";
     suggestion := Some "Add comprehensive tests for new functionality";
     code_example := None; reference := None |}.

(** The conversion of a number to a [float] that a float format starts
    with: an [int] is rounded to the nearest binary64 number, and one that
    would round beyond the largest, from 2^1024 - 2^970 on, is refused. *)
Definition converts_to_float (p : number) : bool :=
  match p with
  | PyFloat _ => true
  | PyInt z => (Z.abs z <? 2 ^ 1024 - 2 ^ 970)%Z
  end.

(** [format(p, ".1f")]: the digits, or an [OverflowError]. *)
Definition format_1f (env : Env) (p : number) : string + exn :=
  if converts_to_float p then inl (fixed_1f env p)
  else inr (Exn OverflowError "int too large to convert to float").

(** The f-string of a branch is evaluated before the note or issue made of
    it is added. *)
Definition formatted (env : Env) (p : number) (k : string -> ReviewResult)
    : ReviewResult + exn :=
  match format_1f env p with
  | inl shown => inl (k shown)
  | inr e => inr e
  end.

(** What follows the assignment to [self.result.coverage_percent], for a
    number. *)
Definition classify_coverage (env : Env) (r : ReviewResult) : ReviewResult + exn :=
  let p := coverage_percent r in
  if ge_80 p then
    formatted env p (fun shown =>
      add_positive ("âœ… Excellent test coverage: " ++ shown ++ "%") r)
  else if ge_60 p then
    formatted env p (fun shown => add_issue (coverage_warning shown) r)
  else formatted env p (fun shown => add_issue (coverage_blocking shown) r).

(** [coverage_data[a][b]] *)
Definition subscript2 (v : json) (a b : string) : json + exn :=
  match subscript v a with
  | inl x => subscript x b
  | inr e => inr e
  end.

(** The handler of [_check_test_coverage]. *)
Definition could_not_check (e : exn) (st : Reviewer) : Reviewer :=
  print_err ("Warning: Could not check test coverage: " ++ str_exn e) st.

(** A return after the object [v] was assigned to the field: plain when
    [v] is an [int] or a [float]. *)
Definition returns_with (v : json) (st : Reviewer) : outcome :=
  match v with
  | JNum _ => Returns st
  | _ => ReturnsHolding v st
  end.

(** [_check_test_coverage].  The completed process of the test run is not
    looked at, only the summary file it leaves.  The value of
    [percent_covered] is assigned to the field before anything is done
    with it.  When it is no number, the first comparison raises a
    [TypeError] inside the [try]: the handler prints it, and the method
    returns with the object left in the field. *)
Definition _check_test_coverage (env : Env) (st : Reviewer) : outcome :=
  catch any_Exception
    (run env pytest_invocation st (fun _ _ =>
       let coverage_file := joinpath (root_path env) "coverage.json" in
       if path_exists env coverage_file then
         load_json env coverage_file st (fun coverage_data =>
           match subscript2 coverage_data "totals" "percent_covered" with
           | inr e => Raises e st
           | inl v =>
               match as_number v with
               | None =>
                   ReturnsHolding v
                     (could_not_check
                        (Exn TypeError
                           ("'>=' not supported between instances of '"
                            ++ type_name v ++ "' and 'int'")) st)
               | Some p =>
                   let st := on_result (set_coverage_percent p) st in
                   match classify_coverage env (result st) with
                   | inl r => returns_with v (on_result (fun _ => r) st)
                   | inr e => Raises e st
                   end
               end
           end)
       else Returns st))
    could_not_check.

(** ** Quality assessor *)

(** [_assess_quality_tier].  Its [has_config_flow] is a glob that is never
    iterated or read: it has no part in the tier. *)
Definition _assess_quality_tier (env : Env) (st : Reviewer) : Reviewer :=
  let has_tests := path_exists env (joinpath (root_path env) "tests") in
  let r := result st in
  on_result
    (set_quality_tier
       (if has_blocking_issues r then "Below Bronze"
        else if negb has_tests || lt_60 (coverage_percent r) then "Bronze (needs testing)"
        else if ge_80 (coverage_percent r) && (length (warnings r) =? 0)%nat then "Gold"
        else if ge_60 (coverage_percent r) then "Silver"
        else "Bronze"))
    st.

(** ** The run *)

Definition review_file (env : Env) (f : Path) (st : Reviewer) : outcome :=
  if String.eqb (suffix f) ".py" then _review_python_file env f st
  else if String.eqb (name f) "manifest.json" then _review_manifest env f st
  else if String.eqb (name f) "strings.json" then _review_strings env f st
  else Returns st.

Fixpoint review_each (env : Env) (files : list Path) (st : Reviewer) : outcome :=
  match files with
  | [] => Returns st
  | f :: rest => review_file env f st >>= review_each env rest
  end.

(** [_assess_quality_tier] with the object [v] in the field.  A [bool]
    compares as the number it equals.  Another object is not looked at when
    there is a blocking issue or no [tests] directory; otherwise the
    comparison with 60 raises a [TypeError], which nothing catches. *)
Definition _assess_quality_tier_holding (env : Env) (v : json) (st : Reviewer)
    : outcome :=
  let has_tests := path_exists env (joinpath (root_path env) "tests") in
  match as_number v with
  | Some _ => ReturnsHolding v (_assess_quality_tier env st)
  | None =>
      if has_blocking_issues (result st) then
        ReturnsHolding v (on_result (set_quality_tier "Below Bronze") st)
      else if negb has_tests then
        ReturnsHolding v (on_result (set_quality_tier "Bronze (needs testing)") st)
      else
        Raises (Exn TypeError
                  ("'<' not supported between instances of '"
                   ++ type_name v ++ "' and 'int'")) st
  end.

(** The last step of a run, after the phases ended with [o]. *)
Definition assess (env : Env) (o : outcome) : outcome :=
  match o with
  | Returns st => Returns (_assess_quality_tier env st)
  | ReturnsHolding v st => _assess_quality_tier_holding env v st
  | other => other
  end.

(** The files and the three tool phases of a run. *)
Definition phases (env : Env) (files : list Path) (st : Reviewer) : outcome :=
  review_each env files (on_result (set_files_reviewed (length files)) st)
  >>= _run_linter env
  >>= _run_type_checker env
  >>= _check_test_coverage env.

Definition review_files (env : Env) (files : list Path) (st : Reviewer) : outcome :=
  assess env (phases env files st).

(** ** The decision table of the specification

    The ordered rules of the quality assessor as the specification lists
    them: the first rule whose condition holds gives the tier, and the last
    tier is the one for no match. *)

Definition lt_80 (x : number) : bool :=
  match x with
  | PyInt z => (z <? 80)%Z
  | PyFloat f => (f <? 80)%float
  end.

Definition first_match (rules : list (bool * string)) (otherwise : string) : string :=
  match find fst rules with
  | Some (_, tier) => tier
  | None => otherwise
  end.

Definition decision_table (has_blocking has_tests : bool) (coverage : number)
    (warning_count : nat) : string :=
  first_match
    [ (has_blocking, "Below Bronze");
      (negb has_tests || lt_60 coverage, "Bronze (needs testing)");
      (ge_80 coverage && (warning_count =? 0)%nat, "Gold");
      (ge_60 coverage, "Silver") ]
    "Bronze".

(** ** Vocabulary of the properties *)

(** The two paths below the root that a run looks for. *)
Definition tests_dir (env : Env) : string := joinpath (root_path env) "tests".
Definition coverage_file (env : Env) : string := joinpath (root_path env) "coverage.json".

Definition tier_after (env : Env) (st : Reviewer) : string :=
  quality_tier (result (_assess_quality_tier env st)).

(** The coverage tool yields the percentage [p]: the test run completes and
    the summary it leaves holds the number [p] under
    [totals.percent_covered]. *)
Definition coverage_tool_yields (env : Env) (p : number) : Prop :=
  (exists rc out, subprocess_run env pytest_invocation = Completed rc out) /\
  path_exists env (coverage_file env) = true /\
  exists text data,
    read_text env (coverage_file env) = inl text /\
    json_loads env text = JsonValue data /\
    subscript2 data "totals" "percent_covered" = inl (JNum p).

(** A phase was skipped: it returned, [self.result] is as before, and one
    diagnostic went to [sys.stderr]. *)
Definition skipped (o : outcome) (st : Reviewer) : Prop :=
  exists st', o = Returns st' /\ result st' = result st /\
              exists msg, stderr st' = (stderr st ++ [msg])%list.

(** The numbers of the lines, counted from [i], that the credential rule
    reports. *)
Fixpoint credential_lines (path : string) (i : Z) (lines : list string) : list Z :=
  match lines with
  | [] => []
  | text :: rest =>
      if reports_credential path text
      then i :: credential_lines path (i + 1) rest
      else credential_lines path (i + 1) rest
  end.



(** What [_review_python_file] has in [self.result] when the text checks are
    done, before it parses. *)
Definition after_text_checks (f : Path) (content : string) (r : ReviewResult)
    : ReviewResult :=
  _check_ha_patterns f content (split_newline content)
    (_check_security_issues f content (split_newline content) r).

(** [P] holds of the state an outcome ends in, returned or raised. *)
Definition outcome_all (P : Reviewer -> Prop) (o : outcome) : Prop :=
  match o with
  | Returns st => P st
  | ReturnsHolding _ st => P st
  | Raises _ st => P st
  | Blocks => True
  end.

(** The recorded coverage of a state is [c]. *)
Definition coverage_is (c : number) (st : Reviewer) : Prop :=
  coverage_percent (result st) = c.

(** The issues of a bucket that carry the line number [i]. *)
Definition at_line (i : Z) (issues : list Issue) : list Issue :=
  filter (fun x => match line x with Some j => (j =? i)%Z | None => false end) issues.

Definition of_category (c : Category) (issues : list Issue) : list Issue :=
  filter (fun x => Category_eqb (category x) c) issues.

Definition of_severity (s : Severity) (issues : list Issue) : list Issue :=
  filter (fun x => Severity_eqb (severity x) s) issues.

(** From [r] to [r'] only blocking issues of other categories than quality
    were added. *)
Definition text_frame (r r' : ReviewResult) : Prop :=
  of_category QUALITY (blocking r') = of_category QUALITY (blocking r) /\
  warnings r' = warnings r /\ nitpicks r' = nitpicks r /\ positives r' = positives r.

(** The binary64 numbers 60 and 80 in the format of the float
    specification. *)
Definition sf60 : spec_float := S754_finite false 8444249301319680 (-47).
Definition sf80 : spec_float := S754_finite false 5629499534213120 (-46).

(** ** Sample worlds *)

Module Sample.

(** A checkout with a [tests] directory, no readable file and no tool. *)
Definition bare : Env :=
  {| root_path := ".";
     path_exists := fun p => String.eqb p "./tests";
     read_text := fun _ => inr (Exn OtherException "[Errno 2] No such file or directory");
     ast_parse := fun _ => Parsed (Node OtherNode []);
     json_loads := fun _ => JsonDecodeError "Expecting value: line 1 column 1 (char 0)";
     tools := fun _ => ToolMissing;
     fixed_1f := fun _ => "0.0" |}.

Definition with_exists (p : string -> bool) (env : Env) : Env :=
  {| root_path := root_path env; path_exists := p; read_text := read_text env;
     ast_parse := ast_parse env; json_loads := json_loads env; tools := tools env;
     fixed_1f := fixed_1f env |}.

Definition with_text (t : string) (env : Env) : Env :=
  {| root_path := root_path env; path_exists := path_exists env;
     read_text := fun _ => inl t;
     ast_parse := ast_parse env; json_loads := json_loads env; tools := tools env;
     fixed_1f := fixed_1f env |}.

Definition with_parse (p : parse_result) (env : Env) : Env :=
  {| root_path := root_path env; path_exists := path_exists env;
     read_text := read_text env;
     ast_parse := fun _ => p; json_loads := json_loads env; tools := tools env;
     fixed_1f := fixed_1f env |}.

Definition with_json (j : json_result) (env : Env) : Env :=
  {| root_path := root_path env; path_exists := path_exists env;
     read_text := read_text env;
     ast_parse := ast_parse env; json_loads := fun _ => j; tools := tools env;
     fixed_1f := fixed_1f env |}.

Definition with_tools (t : tool) (env : Env) : Env :=
  {| root_path := root_path env; path_exists := path_exists env;
     read_text := read_text env;
     ast_parse := ast_parse env; json_loads := json_loads env; tools := fun _ => t;
     fixed_1f := fixed_1f env |}.

Definition issue (s : Severity) : Issue :=
  {| severity := s; category := QUALITY; file := "a.py"; line := None;
     title := "sample"; description := ""; suggestion := None;
     code_example := None; reference := None |}.

(** A reviewer whose result holds the given buckets and coverage. *)
Definition reviewer (bs ws : list Issue) (coverage : number) : Reviewer :=
  {| result := set_coverage_percent coverage
                 (set_warnings ws (set_blocking bs new_ReviewResult));
     stderr := [] |}.

Definition api_py : Path :=
  {| path_str := "custom_components/hub/api.py"; name := "api.py"; suffix := ".py" |}.

Definition test_api_py : Path :=
  {| path_str := "tests/test_api.py"; name := "test_api.py"; suffix := ".py" |}.

Definition manifest_json : Path :=
  {| path_str := "custom_components/hub/manifest.json"; name := "manifest.json";
     suffix := ".json" |}.

Definition strings_json : Path :=
  {| path_str := "custom_components/hub/strings.json"; name := "strings.json";
     suffix := ".json" |}.

Definition password_line : string := "password = " ++ dq "abc123".
Definition commented_line : string := "# password = " ++ dq "abc123".

(** A text with a null byte, and what [ast.parse] raises on it. *)
Definition null_byte_text : string := "x = 1" ++ String "000" "".
Definition null_byte_error : exn :=
  Exn ValueError "source code string cannot contain null bytes".

(** The encodings of U+00A0 (no-break space), U+2003 (em space), U+00E9
    (e with acute accent) and U+017F (long s). *)
Definition no_break_space : string := String "194" (String "160" "").
Definition em_space : string := String "226" (String "128" (String "131" "")).
Definition e_acute : string := String "195" (String "169" "").
Definition long_s : string := String "197" (String "191" "").


Definition coverage_summary (p : number) : json :=
  JObj [("totals", JObj [("percent_covered", JNum p)])].

Definition with_format (shown : string) (env : Env) : Env :=
  {| root_path := root_path env; path_exists := path_exists env;
     read_text := read_text env;
     ast_parse := ast_parse env; json_loads := json_loads env; tools := tools env;
     fixed_1f := fun _ => shown |}.

(** A checkout whose test run leaves a summary with the percentage [p],
    which prints as [shown]. *)
Definition measured (p : number) (shown : string) : Env :=
  with_exists (fun _ => true)
    (with_text "" (with_json (JsonValue (coverage_summary p))
       (with_tools (ToolExits 0 "") (with_format shown bare)))).

(** What mypy prints for one error. *)
Definition mypy_output : string :=
  "custom_components/hub/api.py:3: error: Missing return statement  [return]"
  ++ String newline "Found 1 error in 1 file (checked 4 source files)"
  ++ String newline "".

End Sample.

(** ** Vocabulary of the further properties *)

(** A property of [self.result], as a property of the reviewer's state. *)
Definition result_is (P : ReviewResult -> Prop) (st : Reviewer) : Prop := P (result st).

(** The state an outcome ends in, returned or raised (the fresh state for
    a call that never returns). *)
Definition state_of (o : outcome) : Reviewer :=
  match o with
  | Returns st => st
  | ReturnsHolding _ st => st
  | Raises _ st => st
  | Blocks => new_Reviewer
  end.

(** [r'] holds everything [r] holds, in the same order, and maybe more
    after it. *)
Definition extends (r r' : ReviewResult) : Prop :=
  (exists l, blocking r' = (blocking r ++ l)%list) /\
  (exists l, warnings r' = (warnings r ++ l)%list) /\
  (exists l, nitpicks r' = (nitpicks r ++ l)%list) /\
  (exists l, positives r' = (positives r ++ l)%list).

(** Each bucket holds issues of its own severity only. *)
Definition sorted_by_severity (r : ReviewResult) : Prop :=
  Forall (fun i => severity i = BLOCKING) (blocking r) /\
  Forall (fun i => severity i = WARNING) (warnings r) /\
  Forall (fun i => severity i = NITPICK) (nitpicks r).

(** The nodes of a tree, parents before children, depth first. *)
Fixpoint nodes (t : ast) : list ast :=
  match t with
  | Node _ cs => t :: flat_map nodes cs
  end.

(** The nodes [_check_ast_patterns] reports: a function definition without
    return annotation whose name does not start with an underscore, and a
    handler without a type or with the type named [Exception]. *)
Definition reported_node (n : ast) : bool :=
  match kind_of n with
  | FunctionDef fname None _ => negb (startswith fname "_")
  | ExceptHandler None _ => true
  | ExceptHandler (Some (Name id)) _ => String.eqb id "Exception"
  | _ => false
  end.

(** The warning for a reported node. *)
Definition node_issue (path : string) (n : ast) : Issue :=
  match kind_of n with
  | FunctionDef fname _ lineno => missing_return_issue path fname lineno
  | ExceptHandler _ lineno => broad_except_issue path lineno
  | OtherNode => broad_except_issue path 0
  end.

(** ** Reports: [format_output] and [main] *)

Definition Severity_value (s : Severity) : string :=
  match s with
  | BLOCKING => "blocking"
  | WARNING => "warning"
  | NITPICK => "nitpick"
  end.

Definition Category_value (c : Category) : string :=
  match c with
  | SECURITY => "security"
  | QUALITY => "quality"
  | TESTING => "testing"
  | DOCUMENTATION => "documentation"
  | ASYNC => "async"
  | PATTERN => "pattern"
  end.

(** [str(z)] for an [int]. *)
Definition str_of_Z (z : Z) : string := NilZero.string_of_int (Z.to_int z).

(** [c * n] for a one-character text [c]. *)
Fixpoint times (c : ascii) (n : nat) : string :=
  match n with
  | O => EmptyString
  | S n' => String c (times c n')
  end.

(** [sep.join(pieces)] *)
Fixpoint join (sep : string) (pieces : list string) : string :=
  match pieces with
  | [] => EmptyString
  | [x] => x
  | x :: rest => x ++ sep ++ join sep rest
  end.

(** The texts of the report that do not depend on the result. *)
Module report_text.
Definition banner : string := "ðŸ¤– AUTOMATED CODE REVIEW".
Definition overall_changes_requested : string := "**Overall**: ðŸš« CHANGES REQUESTED".
Definition overall_comments : string := "**Overall**: âš ï¸  COMMENTS".
Definition overall_approved : string := "**Overall**: âœ… APPROVED".
Definition blocking_header : string := "ðŸš« BLOCKING ISSUES (".
Definition warnings_header : string := "âš ï¸  RECOMMENDED CHANGES (".
Definition nitpicks_header : string := "ðŸ’¡ NITPICKS (".
Definition positives_header : string := "âœ… WHAT'S WORKING WELL".
Definition verdict_failed : string := "âŒ REVIEW FAILED - Blocking issues must be resolved".
Definition verdict_warnings : string := "âš ï¸  REVIEW PASSED WITH WARNINGS".
Definition verdict_passed : string := "âœ… REVIEW PASSED".
End report_text.

(** The dictionary that [format_output] makes of an issue for [json.dumps]. *)
Definition issue_json (i : Issue) : json :=
  JObj [("severity", JStr (Severity_value (severity i)));
        ("category", JStr (Category_value (category i)));
        ("file", JStr (file i));
        ("line", match line i with Some z => JNum (PyInt z) | None => JNull end);
        ("title", JStr (title i));
        ("description", JStr (description i))].

(** The dictionary of the JSON report; [coverage] is the object in
    [result.coverage_percent]. *)
Definition report_json (r : ReviewResult) (coverage : json) : json :=
  JObj [("blocking", JArr (map issue_json (blocking r)));
        ("warnings", JArr (map issue_json (warnings r)));
        ("nitpicks", JArr (map issue_json (nitpicks r)));
        ("quality_tier", JStr (quality_tier r));
        ("coverage", coverage)].

(** [if issue.line:] and [if issue.suggestion:]: the value is there and is
    not zero, or not empty. *)
Definition line_shown (i : Issue) : list string :=
  match line i with
  | Some z => if (z =? 0)%Z then [] else ["   Line: " ++ str_of_Z z]
  | None => []
  end.

Definition optional_text (label : string) (v : option string) : list string :=
  match v with
  | Some t => if String.eqb t "" then [] else [label ++ t]
  | None => []
  end.

(** The lines of one blocking issue, numbered [i]. *)
Definition blocking_entry (i : nat) (issue : Issue) : list string :=
  [String newline (str_of_nat i ++ ". **" ++ title issue ++ "**");
   "   File: " ++ file issue]
  ++ line_shown issue
  ++ ["   Category: " ++ Category_value (category issue);
      "   " ++ description issue]
  ++ optional_text "   Suggestion: " (suggestion issue)
  ++ optional_text ("   Example:" ++ String newline "   ") (code_example issue).

(** The lines of one warning, numbered [i]. *)
Definition warning_entry (i : nat) (issue : Issue) : list string :=
  [String newline (str_of_nat i ++ ". **" ++ title issue ++ "**");
   "   File: " ++ file issue]
  ++ line_shown issue
  ++ ["   " ++ description issue]
  ++ optional_text "   Suggestion: " (suggestion issue).

Definition nitpick_entry (i : nat) (issue : Issue) : list string :=
  [str_of_nat i ++ ". " ++ title issue ++ " - " ++ file issue].

(** [for i, x in enumerate(xs, i): output.extend(entry(i, x))] *)
Fixpoint entries {A : Type} (entry : nat -> A -> list string) (i : nat) (xs : list A)
    : list string :=
  match xs with
  | [] => []
  | x :: rest => entry i x ++ entries entry (S i) rest
  end.

(** A section of the report: nothing for an empty list. *)
Definition report_section {A : Type} (xs : list A) (header : string)
    (body : list string) : list string :=
  match xs with
  | [] => []
  | _ => header :: times "-" 80 :: body ++ [""]
  end.

(** The three-way verdict of the report. *)
Definition verdict (r : ReviewResult) (failed with_warnings passed : string) : string :=
  if has_blocking_issues r then failed
  else if (0 <? length (warnings r))%nat then with_warnings
  else passed.

(** The list [output] of [format_output] when it is joined: the coverage
    line is there once its f-string has been evaluated. *)
Definition text_lines (env : Env) (r : ReviewResult) : list string :=
  [times "=" 80; report_text.banner; times "=" 80; "";
   verdict r report_text.overall_changes_requested report_text.overall_comments
     report_text.overall_approved;
   "**Quality Tier**: " ++ quality_tier r;
   "**Files Reviewed**: " ++ str_of_nat (files_reviewed r);
   "**Coverage**: " ++ fixed_1f env (coverage_percent r) ++ "%";
   ""]
  ++ report_section (blocking r)
       (report_text.blocking_header ++ str_of_nat (length (blocking r)) ++ ")")
       (entries blocking_entry 1 (blocking r))
  ++ report_section (warnings r)
       (report_text.warnings_header ++ str_of_nat (length (warnings r)) ++ ")")
       (entries warning_entry 1 (warnings r))
  ++ report_section (nitpicks r)
       (report_text.nitpicks_header ++ str_of_nat (length (nitpicks r)) ++ ")")
       (entries nitpick_entry 1 (nitpicks r))
  ++ report_section (positives r) report_text.positives_header
       (map (fun positive => "  " ++ positive) (positives r))
  ++ [times "=" 80; "SUMMARY"; times "=" 80;
      "Total Issues: " ++ str_of_nat (total_issues r);
      "  Blocking: " ++ str_of_nat (length (blocking r));
      "  Warnings: " ++ str_of_nat (length (warnings r));
      "  Nitpicks: " ++ str_of_nat (length (nitpicks r));
      "";
      verdict r report_text.verdict_failed report_text.verdict_warnings
        report_text.verdict_passed;
      ""].

(** [format(v, ".1f")] for the object in the field: a number is formatted
    as above, a text knows no format code [f], and the other objects take no
    format at all. *)
Definition format_object_1f (env : Env) (v : json) : string + exn :=
  match as_number v with
  | Some p => format_1f env p
  | None =>
      match v with
      | JStr _ => inr (Exn ValueError "Unknown format code 'f' for object of type 'str'")
      | _ => inr (Exn TypeError
                    ("unsupported format string passed to " ++ type_name v
                     ++ ".__format__"))
      end
  end.

(** [format_output]; [coverage] is the object in [result.coverage_percent]
    and [dumps] is [json.dumps] with [indent=2].  The text report formats
    the coverage while it collects its lines; an error of that leaves the
    function. *)
Definition format_output (env : Env) (dumps : json -> string + exn) (r : ReviewResult)
    (coverage : json) (format_type : string) : string + exn :=
  if String.eqb format_type "json" then dumps (report_json r coverage)
  else
    match format_object_1f env coverage with
    | inl _ => inl (join (String newline "") (text_lines env r))
    | inr e => inr e
    end.

(** The command line as [argparse] hands it over. *)
Record Args := mkArgs {
  files_arg : option (list string);   (* args.files *)
  full_arg : bool;                    (* args.full *)
  json_arg : bool                     (* args.json *)
}.

(** What [parser.parse_args()] does with the command line: it returns the
    arguments, or it ends the process itself, with status 0 after printing
    the help text to the output stream, or with status 2 after printing the
    usage and an error to the error stream. *)
Inductive parse_outcome :=
| Parsed_args (args : Args)
| Help_printed (text : string)
| Usage_error (text : string).

(** What [main] uses beside the reviewer's world: the parsed command line,
    [Path(f)], the recursive glob below [custom_components], and
    [json.dumps].  The two output streams take every text. *)
Record Shell := mkShell {
  parse_args : parse_outcome;
  as_path : string -> Path;
  rglob : string -> list Path;
  json_dumps : json -> string + exn
}.

(** How the script ends: with an exit status (the value [main] returns, or
    the one [argparse] exits with), after printing to the output stream and
    to the error stream; by an exception that leaves [main], after which the
    interpreter prints a traceback and the status is 1; or never. *)
Inductive main_outcome :=
| Exits (status : Z) (stdout : list string) (errors : list string)
| MainRaises (e : exn) (errors : list string)
| MainBlocks.

(** The exit status of the process. *)
Definition exit_status (o : main_outcome) : option Z :=
  match o with
  | Exits status _ _ => Some status
  | MainRaises _ _ => Some 1%Z
  | MainBlocks => None
  end.

(** The files [main] reviews: the named ones if any is named, else what
    the three globs find. *)
Definition files_to_review (sh : Shell) (args : Args) : list Path :=
  match files_arg args with
  | Some (f :: fs) => map (as_path sh) (f :: fs)
  | _ => (rglob sh "*.py" ++ rglob sh "manifest.json" ++ rglob sh "strings.json")%list
  end.

(** A run that returned: the object in the coverage field and the state. *)
Definition returned (o : outcome) : option (json * Reviewer) :=
  match o with
  | Returns st => Some (JNum (coverage_percent (result st)), st)
  | ReturnsHolding v st => Some (v, st)
  | _ => None
  end.

(** The method returned in the state [st'], with a number or with another
    object in the coverage field. *)
Definition returns_in (o : outcome) (st' : Reviewer) : Prop :=
  o = Returns st' \/ exists v, o = ReturnsHolding v st'.

(** The end of [main]: the report is formatted, printed, and the status
    tells whether there is a blocking issue. *)
Definition print_report (env : Env) (sh : Shell) (args : Args) (coverage : json)
    (st : Reviewer) : main_outcome :=
  match format_output env (json_dumps sh) (result st) coverage
          (if json_arg args then "json" else "text") with
  | inl report =>
      Exits (if has_blocking_issues (result st) then 1 else 0) [report] (stderr st)
  | inr e => MainRaises e (stderr st)
  end.

Definition main_with (env : Env) (sh : Shell) (args : Args) : main_outcome :=
  if negb (path_exists env (joinpath (root_path env) "custom_components")) then
    Exits 1 []
      ["Error: custom_components/ directory not found";
       "Run this script from the repository root"]
  else
    match review_files env (files_to_review sh args) new_Reviewer with
    | Returns st => print_report env sh args (JNum (coverage_percent (result st))) st
    | ReturnsHolding v st => print_report env sh args v st
    | Raises e st => MainRaises e (stderr st)
    | Blocks => MainBlocks
    end.

Definition main (env : Env) (sh : Shell) : main_outcome :=
  match parse_args sh with
  | Help_printed text => Exits 0 [text] []
  | Usage_error text => Exits 2 [] [text]
  | Parsed_args args => main_with env sh args
  end.

(** A sequence of appended positive notes. *)
Definition add_positives (notes : list string) (r : ReviewResult) : ReviewResult :=
  fold_left (fun acc note => add_positive note acc) notes r.

(** The state [st] after more issues, positive notes and diagnostics. *)
Definition grown (issues : list Issue) (notes errors : list string) (st : Reviewer)
    : Reviewer :=
  {| result := add_positives notes (add_issues issues (result st));
     stderr := (stderr st ++ errors)%list |}.

(** A return, or the raise of [e], in the state [st]. *)
Definition ends (ending : option exn) (st : Reviewer) : outcome :=
  match ending with
  | None => Returns st
  | Some e => Raises e st
  end.

(** A method that looks at nothing in the state: it adds the same issues,
    notes and diagnostics and ends the same way from every state. *)
Definition stateless (m : Reviewer -> outcome) : Prop :=
  exists issues notes errors ending,
    forall st, m st = ends ending (grown issues notes errors st).

(** A change of the result that only adds issues, the same ones to every
    result. *)
Definition appender (g : ReviewResult -> ReviewResult) : Prop :=
  exists issues, forall r, g r = add_issues issues r.

(** ** Sample command lines *)

Module SampleRun.

(** A shell whose globs find nothing. *)
Definition no_args : Args :=
  {| files_arg := None; full_arg := false; json_arg := false |}.

(** A shell with no argument on the command line, whose globs find
    nothing. *)
Definition empty_shell : Shell :=
  {| parse_args := Parsed_args no_args;
     as_path := fun f => {| path_str := f; name := f; suffix := "" |};
     rglob := fun _ => [];
     json_dumps := fun _ => inl "{}" |}.

(** A checkout with [custom_components] and [tests] but no tool and no
    coverage summary. *)
Definition checkout : Env :=
  Sample.with_exists
    (fun p => String.eqb p "./custom_components" || String.eqb p "./tests")
    Sample.bare.

End SampleRun.

(** * Properties *)

(** ** Comparisons of binary64 numbers with 60 and 80 *)

Section FloatOrder.

Lemma SFcompare_antisym (x y : spec_float) :
  SFcompare y x = option_map CompOpp (SFcompare x y).
Proof.
  destruct x as [sx|sx| |sx mx ex], y as [sy|sy| |sy my ey];
    cbv beta iota delta [SFcompare option_map];
    try reflexivity; try (destruct sx; reflexivity); try (destruct sy; reflexivity);
    try (destruct sx, sy; reflexivity).
  destruct sx, sy; try reflexivity;
    rewrite (Z.compare_antisym ey ex); destruct (ey ?= ex)%Z; simpl; try reflexivity;
    rewrite (ZC4 my mx); destruct (Pos.compare_cont Eq mx my); reflexivity.
Qed.

Lemma Prim2SF_60 : Prim2SF 60%float = sf60.
Proof. vm_compute. reflexivity. Qed.

Lemma Prim2SF_80 : Prim2SF 80%float = sf80.
Proof. vm_compute. reflexivity. Qed.

Lemma sf_lt_not_ge (x c : spec_float) : SFltb x c = true -> SFleb c x = false.
Proof.
  unfold SFltb, SFleb. rewrite (SFcompare_antisym x c).
  destruct (SFcompare x c) as [[ | | ]|]; simpl; congruence.
Qed.

Lemma sf_not_lt_ge (x c : spec_float) :
  SFcompare x c <> None -> SFltb x c = false -> SFleb c x = true.
Proof.
  unfold SFltb, SFleb. rewrite (SFcompare_antisym x c).
  destruct (SFcompare x c) as [[ | | ]|]; simpl; congruence.
Qed.

Lemma sf_lt_60_lt_80 (x : spec_float) : SFltb x sf60 = true -> SFltb x sf80 = true.
Proof.
  destruct x as [s|s| |s m e]; try destruct s;
    cbv beta iota delta [SFltb SFcompare sf60 sf80]; try congruence.
  destruct (Z.compare_spec e (-47)) as [->| |]; try discriminate; intros _.
  - reflexivity.
  - destruct (Z.compare_spec e (-46)); [lia | reflexivity | lia].
Qed.

Lemma float_comparable (f : float) :
  PrimFloat.is_nan f = false ->
  forall c, c <> S754_nan -> SFcompare (Prim2SF f) c <> None.
Proof.
  unfold PrimFloat.is_nan. rewrite FloatAxioms.eqb_spec.
  generalize (Prim2SF f). intros x H c Hc.
  destruct x as [s|s| |s m e], c as [s'|s'| |s' m' e'];
    cbv beta iota delta [negb SFeqb SFcompare] in *; congruence.
Qed.

Lemma float_not_lt_60 (f : float) :
  PrimFloat.is_nan f = false -> (f <? 60)%float = false -> (60 <=? f)%float = true.
Proof.
  intros Hn. rewrite FloatAxioms.ltb_spec, FloatAxioms.leb_spec, Prim2SF_60.
  apply sf_not_lt_ge. apply float_comparable; [assumption | discriminate].
Qed.

Lemma float_lt_60_not_ge_60 (f : float) :
  (f <? 60)%float = true -> (60 <=? f)%float = false.
Proof.
  rewrite FloatAxioms.ltb_spec, FloatAxioms.leb_spec, Prim2SF_60. apply sf_lt_not_ge.
Qed.

Lemma float_lt_80_not_ge_80 (f : float) :
  (f <? 80)%float = true -> (80 <=? f)%float = false.
Proof.
  rewrite FloatAxioms.ltb_spec, FloatAxioms.leb_spec, Prim2SF_80. apply sf_lt_not_ge.
Qed.

Lemma float_lt_60_not_ge_80 (f : float) :
  (f <? 60)%float = true -> (80 <=? f)%float = false.
Proof.
  intros H. apply float_lt_80_not_ge_80. revert H.
  rewrite !FloatAxioms.ltb_spec, Prim2SF_60, Prim2SF_80. apply sf_lt_60_lt_80.
Qed.

Lemma SFcompare_refl (x : spec_float) : x <> S754_nan -> SFcompare x x = Some Eq.
Proof.
  destruct x as [s|s| |s m e]; cbv beta iota delta [SFcompare]; try congruence.
  - destruct s; reflexivity.
  - intros _. rewrite Z.compare_refl, Pos.compare_cont_refl. destruct s; reflexivity.
Qed.

Lemma float_nan_not_ge (f c : float) :
  PrimFloat.is_nan f = true -> (c <=? f)%float = false.
Proof.
  unfold PrimFloat.is_nan. rewrite FloatAxioms.eqb_spec, FloatAxioms.leb_spec.
  generalize (Prim2SF f) (Prim2SF c). intros x y H.
  destruct x as [s|s| |s m e].
  - unfold SFeqb in H. rewrite SFcompare_refl in H by discriminate. discriminate.
  - unfold SFeqb in H. rewrite SFcompare_refl in H by discriminate. discriminate.
  - destruct y; reflexivity.
  - unfold SFeqb in H. rewrite SFcompare_refl in H by discriminate. discriminate.
Qed.

End FloatOrder.

(** The same facts for the numbers of the model. *)

Lemma not_lt_60_ge_60 (x : number) :
  is_nan x = false -> lt_60 x = false -> ge_60 x = true.
Proof.
  destruct x as [z|f]; simpl.
  - intros _ H. apply Z.ltb_ge in H. apply Z.leb_le. exact H.
  - apply float_not_lt_60.
Qed.

Lemma lt_60_not_ge_60 (x : number) : lt_60 x = true -> ge_60 x = false.
Proof.
  destruct x as [z|f]; simpl.
  - intros H. apply Z.ltb_lt in H. apply Z.leb_gt. exact H.
  - apply float_lt_60_not_ge_60.
Qed.

Lemma lt_60_not_ge_80 (x : number) : lt_60 x = true -> ge_80 x = false.
Proof.
  destruct x as [z|f]; simpl.
  - intros H. apply Z.ltb_lt in H. apply Z.leb_gt. lia.
  - apply float_lt_60_not_ge_80.
Qed.

Lemma lt_80_not_ge_80 (x : number) : lt_80 x = true -> ge_80 x = false.
Proof.
  destruct x as [z|f]; simpl.
  - intros H. apply Z.ltb_lt in H. apply Z.leb_gt. exact H.
  - apply float_lt_80_not_ge_80.
Qed.

Lemma nan_not_ge (x : number) : is_nan x = true -> ge_60 x = false /\ ge_80 x = false.
Proof.
  destruct x as [z|f]; simpl; [discriminate|].
  intros H. split; apply float_nan_not_ge; exact H.
Qed.

Lemma ge_80_not_lt_60 (x : number) : ge_80 x = true -> lt_60 x = false.
Proof.
  intros H. destruct (lt_60 x) eqn:E; [|reflexivity].
  apply lt_60_not_ge_80 in E. congruence.
Qed.

Lemma ge_60_not_lt_60 (x : number) : ge_60 x = true -> lt_60 x = false.
Proof.
  intros H. destruct (lt_60 x) eqn:E; [|reflexivity].
  apply lt_60_not_ge_60 in E. congruence.
Qed.

(** A coverage of at least 80 is one of at least 60. *)
Lemma ge_80_ge_60 (x : number) : ge_80 x = true -> ge_60 x = true.
Proof.
  intros H. apply not_lt_60_ge_60; [|apply ge_80_not_lt_60; exact H].
  destruct x as [z|f]; [reflexivity|]. simpl in *.
  destruct (PrimFloat.is_nan f) eqn:N; [|reflexivity].
  rewrite (float_nan_not_ge f 80 N) in H. discriminate.
Qed.

(** ** The characters of a text *)

Section Characters.

Lemma byte_inj (c d : ascii) : byte c = byte d -> c = d.
Proof.
  unfold byte. intros H. rewrite <- (ascii_N_embedding c), <- (ascii_N_embedding d), H.
  reflexivity.
Qed.

Lemma not_continuation (c : ascii) : (byte c < 128)%N -> is_continuation c = false.
Proof.
  intros H. unfold is_continuation. apply andb_false_iff. left. apply N.leb_gt. exact H.
Qed.

Lemma two_bytes_false_l (c1 c2 : ascii) : (byte c1 < 128)%N -> two_bytes c1 c2 = false.
Proof.
  intros H. unfold two_bytes. replace (192 <=? byte c1)%N with false; [reflexivity|].
  symmetry. apply N.leb_gt. lia.
Qed.

Lemma three_bytes_false_l (c1 c2 c3 : ascii) :
  (byte c1 < 128)%N -> three_bytes c1 c2 c3 = false.
Proof.
  intros H. unfold three_bytes. replace (224 <=? byte c1)%N with false; [reflexivity|].
  symmetry. apply N.leb_gt. lia.
Qed.

Lemma four_bytes_false_l (c1 c2 c3 c4 : ascii) :
  (byte c1 < 128)%N -> four_bytes c1 c2 c3 c4 = false.
Proof.
  intros H. unfold four_bytes. replace (240 <=? byte c1)%N with false; [reflexivity|].
  symmetry. apply N.leb_gt. lia.
Qed.

Lemma two_bytes_false_r (c1 c : ascii) : is_continuation c = false -> two_bytes c1 c = false.
Proof. intros H. unfold two_bytes. rewrite H, !andb_false_r. reflexivity. Qed.

Lemma three_bytes_false_r (c1 c2 c3 : ascii) :
  is_continuation c2 = false \/ is_continuation c3 = false -> three_bytes c1 c2 c3 = false.
Proof.
  intros [H | H]; unfold three_bytes; rewrite H, ?andb_false_r; reflexivity.
Qed.

Lemma four_bytes_false_r (c1 c2 c3 c4 : ascii) :
  is_continuation c2 = false \/ is_continuation c3 = false \/ is_continuation c4 = false ->
  four_bytes c1 c2 c3 c4 = false.
Proof.
  intros [H | [H | H]]; unfold four_bytes; rewrite H, ?andb_false_r; reflexivity.
Qed.

(** An ASCII byte is a character of its own, whatever follows. *)
Lemma characters_ascii (c : ascii) (s : string) :
  (byte c < 128)%N ->
  characters (String c s) = (byte c, String c EmptyString) :: characters s.
Proof.
  intros H.
  assert (P : point1 c = byte c).
  { unfold point1. apply N.ltb_lt in H. rewrite H. reflexivity. }
  destruct s as [|c2 [|c3 [|c4 s4]]]; cbn [characters];
    rewrite ?two_bytes_false_l, ?three_bytes_false_l, ?four_bytes_false_l by exact H;
    rewrite P; reflexivity.
Qed.

(** The characters before an ASCII byte do not depend on what follows
    it. *)
Lemma characters_before_ascii (c : ascii) (b : string) :
  (byte c < 128)%N ->
  forall a, characters (a ++ String c b) = (characters a ++ characters (String c b))%list.
Proof.
  intros H.
  assert (C : is_continuation c = false) by (apply not_continuation; exact H).
  assert (G : forall n (a : string), (String.length a <= n)%nat ->
              characters (a ++ String c b)
              = (characters a ++ characters (String c b))%list).
  { induction n as [|n IH]; intros a Hn.
    - destruct a; [reflexivity | simpl in Hn; lia].
    - destruct a as [|c1 a1]; [reflexivity|].
      assert (I1 : characters (a1 ++ String c b)
                   = (characters a1 ++ characters (String c b))%list)
        by (apply IH; simpl in Hn; lia).
      destruct a1 as [|c2 a2].
      { change (String c1 "" ++ String c b) with (String c1 (String c b)).
        cbn [characters]. rewrite (two_bytes_false_r c1 c C).
        destruct b as [|c3 [|c4 b4]]; cbn [characters app];
          rewrite ?three_bytes_false_r, ?four_bytes_false_r by auto;
          reflexivity. }
      assert (I2 : characters (a2 ++ String c b)
                   = (characters a2 ++ characters (String c b))%list)
        by (apply IH; simpl in Hn; lia).
      destruct a2 as [|c3 a3].
      { change (String c1 (String c2 "") ++ String c b)
          with (String c1 (String c2 (String c b))).
        change (String c2 "" ++ String c b) with (String c2 (String c b)) in I1.
        cbn [characters] in *. destruct (two_bytes c1 c2); [reflexivity|].
        rewrite (three_bytes_false_r c1 c2 c) by auto.
        destruct b as [|c4 b4]; cbn [characters app] in *;
          rewrite ?four_bytes_false_r by auto; rewrite I1; reflexivity. }
      assert (I3 : characters (a3 ++ String c b)
                   = (characters a3 ++ characters (String c b))%list)
        by (apply IH; simpl in Hn; lia).
      destruct a3 as [|c4 a4].
      { change (String c1 (String c2 (String c3 "")) ++ String c b)
          with (String c1 (String c2 (String c3 (String c b)))).
        change (String c2 (String c3 "") ++ String c b)
          with (String c2 (String c3 (String c b))) in I1.
        change (String c3 "" ++ String c b) with (String c3 (String c b)) in I2.
        cbn [characters] in *. destruct (two_bytes c1 c2); [rewrite I2; reflexivity|].
        destruct (three_bytes c1 c2 c3); [reflexivity|].
        rewrite (four_bytes_false_r c1 c2 c3 c) by auto.
        rewrite I1. reflexivity. }
      assert (I4 : characters (a4 ++ String c b)
                   = (characters a4 ++ characters (String c b))%list)
        by (apply IH; simpl in Hn; lia).
      change (String c1 (String c2 (String c3 (String c4 a4))) ++ String c b)
        with (String c1 (String c2 (String c3 (String c4 (a4 ++ String c b))))).
      change (String c2 (String c3 (String c4 a4)) ++ String c b)
        with (String c2 (String c3 (String c4 (a4 ++ String c b)))) in I1.
      change (String c3 (String c4 a4) ++ String c b)
        with (String c3 (String c4 (a4 ++ String c b))) in I2.
      change (String c4 a4 ++ String c b) with (String c4 (a4 ++ String c b)) in I3.
      cbn [characters app] in *.
      destruct (two_bytes c1 c2); [rewrite I2; reflexivity|].
      destruct (three_bytes c1 c2 c3); [rewrite I3; reflexivity|].
      destruct (four_bytes c1 c2 c3 c4); [rewrite I4; reflexivity|].
      rewrite I1. reflexivity. }
  intros a. apply (G (String.length a)). lia.
Qed.

Lemma code_points_ascii (c : ascii) (s : string) :
  (byte c < 128)%N -> code_points (String c s) = byte c :: code_points s.
Proof. intros H. unfold code_points. rewrite characters_ascii by exact H. reflexivity. Qed.

Lemma code_points_after_ascii (m s : string) :
  is_ascii m = true -> code_points (m ++ s) = (code_points m ++ code_points s)%list.
Proof.
  induction m as [|c m IH]; [reflexivity|]. simpl is_ascii.
  intros H. apply andb_true_iff in H. destruct H as (Hc & Hm). apply N.ltb_lt in Hc.
  change (String c m ++ s) with (String c (m ++ s)).
  rewrite !code_points_ascii by exact Hc. rewrite IH by exact Hm. reflexivity.
Qed.

(** An ASCII text inside a text is read as it is, between the characters
    before it and those after it. *)
Lemma code_points_around_ascii (a m b : string) :
  is_ascii m = true -> m <> EmptyString ->
  code_points (a ++ m ++ b)
  = (code_points a ++ code_points m ++ code_points b)%list.
Proof.
  intros Hm Hne. destruct m as [|c m]; [congruence|].
  simpl is_ascii in Hm. apply andb_true_iff in Hm. destruct Hm as (Hc & Hm).
  apply N.ltb_lt in Hc.
  change (a ++ String c m ++ b) with (a ++ String c (m ++ b)).
  unfold code_points at 1. rewrite characters_before_ascii by exact Hc.
  rewrite map_app. fold (code_points a). fold (code_points (String c (m ++ b))).
  rewrite !code_points_ascii by exact Hc.
  rewrite code_points_after_ascii by exact Hm. reflexivity.
Qed.

(** The bytes of the characters of a text are the text. *)
Lemma text_of_characters (s : string) : text_of (characters s) = s.
Proof.
  assert (G : forall n (s : string), (String.length s <= n)%nat ->
              text_of (characters s) = s).
  { induction n as [|n IH]; intros t Hn.
    - destruct t; [reflexivity | simpl in Hn; lia].
    - destruct t as [|c1 [|c2 [|c3 [|c4 t4]]]]; [reflexivity|reflexivity| | |].
      + cbn [characters]. destruct (two_bytes c1 c2); reflexivity.
      + assert (I1 := IH (String c2 (String c3 "")) ltac:(simpl in *; lia)).
        assert (I2 := IH (String c3 "") ltac:(simpl in *; lia)).
        cbn [characters] in *.
        destruct (two_bytes c1 c2); [cbn [text_of] in *; rewrite I2; reflexivity|].
        destruct (three_bytes c1 c2 c3); [reflexivity|].
        cbn [text_of] in *. rewrite I1. reflexivity.
      + assert (I1 := IH (String c2 (String c3 (String c4 t4))) ltac:(simpl in *; lia)).
        assert (I2 := IH (String c3 (String c4 t4)) ltac:(simpl in *; lia)).
        assert (I3 := IH (String c4 t4) ltac:(simpl in *; lia)).
        assert (I4 := IH t4 ltac:(simpl in *; lia)).
        cbn [characters] in *.
        destruct (two_bytes c1 c2); [cbn [text_of] in *; rewrite I2; reflexivity|].
        destruct (three_bytes c1 c2 c3); [cbn [text_of] in *; rewrite I3; reflexivity|].
        destruct (four_bytes c1 c2 c3 c4); [cbn [text_of] in *; rewrite I4; reflexivity|].
        cbn [text_of] in *. rewrite I1. reflexivity. }
  apply (G (String.length s)). lia.
Qed.

(** A character below 128 is an ASCII byte of the text. *)
Lemma ascii_point_is_byte (c : ascii) (s : string) :
  (byte c < 128)%N -> In (byte c) (code_points s) ->
  exists before after, s = before ++ String c after.
Proof.
  intros Hc.
  assert (P1 : forall d, point1 d = byte c -> d = c).
  { intros d. unfold point1. destruct (byte d <? 128)%N; [apply byte_inj | lia]. }
  assert (P2 : forall c1 c2, two_bytes c1 c2 = true -> point2 c1 c2 <> byte c).
  { intros c1 c2 T. unfold two_bytes in T. rewrite !andb_true_iff in T.
    destruct T as (_ & T). apply N.leb_le in T. lia. }
  assert (P3 : forall c1 c2 c3, three_bytes c1 c2 c3 = true -> point3 c1 c2 c3 <> byte c).
  { intros c1 c2 c3 T. unfold three_bytes in T. rewrite !andb_true_iff in T.
    destruct T as (_ & T). apply N.leb_le in T. lia. }
  assert (P4 : forall c1 c2 c3 c4, four_bytes c1 c2 c3 c4 = true ->
               point4 c1 c2 c3 c4 <> byte c).
  { intros c1 c2 c3 c4 T. unfold four_bytes in T. rewrite !andb_true_iff in T.
    destruct T as ((_ & T) & _). apply N.leb_le in T. lia. }
  assert (K : forall d t, (exists before after, t = before ++ String c after) ->
              exists before after, String d t = before ++ String c after).
  { intros d t (x & z & ->). exists (String d x), z. reflexivity. }
  assert (G : forall n (s : string), (String.length s <= n)%nat ->
              In (byte c) (code_points s) ->
              exists before after, s = before ++ String c after).
  { unfold code_points. induction n as [|n IH]; intros t Hn.
    - destruct t; [intros [] | simpl in Hn; lia].
    - destruct t as [|c1 t1]; [intros []|].
      assert (A : In (byte c) (map fst ((point1 c1, String c1 "") :: characters t1)) ->
                  exists before after, String c1 t1 = before ++ String c after).
      { intros [E | E].
        - apply P1 in E. subst c1. exists "", t1. reflexivity.
        - apply K. apply IH; [simpl in Hn; lia | exact E]. }
      destruct t1 as [|c2 t2]; [exact A|].
      cbn [characters]. destruct (two_bytes c1 c2) eqn:T2.
      { intros [E | E]; [exfalso; exact (P2 _ _ T2 E)|].
        apply K, K. apply IH; [simpl in Hn; lia | exact E]. }
      destruct t2 as [|c3 t3]; [exact A|].
      destruct (three_bytes c1 c2 c3) eqn:T3.
      { intros [E | E]; [exfalso; exact (P3 _ _ _ T3 E)|].
        apply K, K, K. apply IH; [simpl in Hn; lia | exact E]. }
      destruct t3 as [|c4 t4]; [exact A|].
      destruct (four_bytes c1 c2 c3 c4) eqn:T4; [|exact A].
      intros [E | E]; [exfalso; exact (P4 _ _ _ _ T4 E)|].
      apply K, K, K, K. apply IH; [simpl in Hn; lia | exact E]. }
  apply (G (String.length s)). lia.
Qed.

End Characters.

(** ** The matcher decides the language of an expression *)

Section Matcher.

Lemma string_app_nil_r (s : string) : s ++ EmptyString = s.
Proof. induction s as [|c s IH]; simpl; [reflexivity | rewrite IH; reflexivity]. Qed.

Lemma string_app_assoc (s t u : string) : (s ++ t) ++ u = s ++ (t ++ u).
Proof. induction s as [|c s IH]; simpl; [reflexivity | rewrite IH; reflexivity]. Qed.

Lemma string_app_empty (s t : string) :
  s ++ t = EmptyString -> s = EmptyString /\ t = EmptyString.
Proof. destruct s; simpl; [auto | discriminate]. Qed.

Lemma in_Seq_inv (a b : regex) (u : list N) :
  in_lang (Seq a b) u -> exists s t, u = (s ++ t)%list /\ in_lang a s /\ in_lang b t.
Proof. intros H. inversion H; subst. eauto. Qed.

Lemma in_Alt_inv (a b : regex) (u : list N) :
  in_lang (Alt a b) u -> in_lang a u \/ in_lang b u.
Proof. intros H. inversion H; subst; auto. Qed.

Lemma in_Cls_inv (p : N -> bool) (u : list N) :
  in_lang (Cls p) u -> exists c, u = [c] /\ p c = true.
Proof. intros H. inversion H; subst. eauto. Qed.

Lemma nullable_in_lang (r : regex) : nullable r = true <-> in_lang r [].
Proof.
  induction r as [| |p|a IHa b IHb|a IHa b IHb|a IHa]; simpl.
  - split; [discriminate | intros H; inversion H].
  - split; [constructor | reflexivity].
  - split; [discriminate | intros H; inversion H].
  - rewrite andb_true_iff, IHa, IHb. split.
    + intros (Ha & Hb). exact (in_Seq (s := []) Ha Hb).
    + intros H. apply in_Seq_inv in H. destruct H as (s & t & E & Ha & Hb).
      symmetry in E. apply app_eq_nil in E. destruct E as (-> & ->). auto.
  - rewrite orb_true_iff, IHa, IHb. split.
    + intros [H | H]; [apply in_Alt_l | apply in_Alt_r]; exact H.
    + apply in_Alt_inv.
  - split; [constructor | reflexivity].
Qed.

(** A non-empty text of a starred expression starts with a non-empty text
    of the expression. *)
Lemma in_Star_inv (a : regex) (u : list N) :
  in_lang (Star a) u ->
  forall c s, u = c :: s ->
  exists s1 s2, s = (s1 ++ s2)%list /\ in_lang a (c :: s1) /\ in_lang (Star a) s2.
Proof.
  intros H. remember (Star a) as r eqn:Er. revert a Er.
  induction H as [|p c0 Hp|a0 b s1 t1 Ha IHa Hb IHb|a0 b s1 Ha IHa|a0 b s1 Hb IHb
                  |a0|a0 s1 t1 Ha IHa Ht IHt];
    intros a Er; try discriminate.
  injection Er as ->. intros c s E. destruct s1 as [|c' s'].
  - simpl in E. exact (IHt a eq_refl c s E).
  - simpl in E. injection E as -> <-. exists s', t1. auto.
Qed.

Lemma deriv_in_lang (r : regex) (c : N) (s : list N) :
  in_lang (deriv c r) s <-> in_lang r (c :: s).
Proof.
  revert s. induction r as [| |p|a IHa b IHb|a IHa b IHb|a IHa]; intros s; simpl.
  - split; intros H; inversion H.
  - split; intros H; inversion H.
  - destruct (p c) eqn:E; split; intros H.
    + inversion H; subst. constructor. exact E.
    + apply in_Cls_inv in H. destruct H as (c' & [= -> ->] & _). constructor.
    + inversion H.
    + apply in_Cls_inv in H. destruct H as (c' & [= -> ->] & H). congruence.
  - assert (L : in_lang (Seq (deriv c a) b) s -> in_lang (Seq a b) (c :: s)).
    { intros H. apply in_Seq_inv in H. destruct H as (s1 & s2 & -> & H1 & H2).
      apply IHa in H1. exact (in_Seq H1 H2). }
    assert (R : in_lang (Seq a b) (c :: s) ->
                in_lang (Seq (deriv c a) b) s \/
                (in_lang a [] /\ in_lang (deriv c b) s)).
    { intros H. apply in_Seq_inv in H. destruct H as (s1 & s2 & E & H1 & H2).
      destruct s1 as [|c1 s1]; simpl in E.
      - right. subst s2. split; [exact H1 | apply IHb; exact H2].
      - injection E as <- ->. left. apply IHa in H1. exact (in_Seq H1 H2). }
    destruct (nullable a) eqn:N.
    + split.
      * intros H. apply in_Alt_inv in H. destruct H as [H | H]; [auto|].
        apply nullable_in_lang in N. apply IHb in H.
        exact (in_Seq (s := []) N H).
      * intros H. destruct (R H) as [H1 | (_ & H2)];
          [apply in_Alt_l | apply in_Alt_r]; assumption.
    + split; [exact L|].
      intros H. destruct (R H) as [H1 | (H1 & _)]; [exact H1|].
      apply nullable_in_lang in H1. congruence.
  - split; intros H; apply in_Alt_inv in H; destruct H as [H | H].
    + apply in_Alt_l. apply IHa. exact H.
    + apply in_Alt_r. apply IHb. exact H.
    + apply in_Alt_l. apply IHa. exact H.
    + apply in_Alt_r. apply IHb. exact H.
  - split.
    + intros H. apply in_Seq_inv in H. destruct H as (s1 & s2 & -> & H1 & H2).
      apply IHa in H1. exact (in_Star_cons H1 H2).
    + intros H. destruct (in_Star_inv a _ H c s eq_refl) as (s1 & s2 & -> & H1 & H2).
      apply IHa in H1. exact (in_Seq H1 H2).
Qed.

Lemma matches_in_lang (r : regex) (s : list N) :
  matches r s = true <-> in_lang r s.
Proof.
  revert r. induction s as [|c s IH]; intros r; simpl.
  - apply nullable_in_lang.
  - rewrite IH. apply deriv_in_lang.
Qed.

Lemma fullmatch_in_lang (r : regex) (s : string) :
  fullmatch r s = true <-> in_lang r (code_points s).
Proof. apply matches_in_lang. Qed.

Lemma in_Star_any (s : list N) : in_lang (Star any_char) s.
Proof.
  induction s as [|c s IH]; [constructor|].
  change (c :: s) with ([c] ++ s)%list.
  apply in_Star_cons; [constructor; reflexivity | exact IH].
Qed.

(** [search] finds the expression somewhere in the text. *)
Lemma search_in_lang (r : regex) (s : string) :
  search r s = true <->
  exists before found after,
    code_points s = (before ++ found ++ after)%list /\ in_lang r found.
Proof.
  unfold search. rewrite matches_in_lang. simpl. split.
  - intros H. apply in_Seq_inv in H. destruct H as (s1 & t1 & E1 & _ & H).
    apply in_Seq_inv in H. destruct H as (s2 & t2 & -> & H & _).
    exists s1, s2, t2. auto.
  - intros (s1 & s2 & s3 & -> & H).
    apply in_Seq; [apply in_Star_any|]. apply in_Seq; [exact H | apply in_Star_any].
Qed.

(** [search_at_word_start] finds it at the start of the text or after a
    character that is no word character. *)
Lemma search_at_word_start_in_lang (r : regex) (s : string) :
  search_at_word_start r s = true <->
  exists before found after,
    code_points s = (before ++ found ++ after)%list /\ in_lang r found /\
    (before = [] \/ exists b c, before = (b ++ [c])%list /\ is_word c = false).
Proof.
  unfold search_at_word_start. rewrite matches_in_lang. simpl. split.
  - intros H. apply in_Seq_inv in H. destruct H as (s1 & t1 & E1 & Hb & H).
    apply in_Seq_inv in H. destruct H as (s2 & t2 & -> & H & _).
    exists s1, s2, t2. repeat split; [exact E1 | exact H|].
    apply in_Alt_inv in Hb. destruct Hb as [Hb | Hb].
    + right. apply in_Seq_inv in Hb. destruct Hb as (b & l & -> & _ & Hl).
      apply in_Cls_inv in Hl. destruct Hl as (c & -> & Hc).
      exists b, c. split; [reflexivity|]. apply negb_true_iff. exact Hc.
    + left. inversion Hb. reflexivity.
  - intros (s1 & s2 & s3 & -> & H & Hb).
    apply in_Seq; [|apply in_Seq; [exact H | apply in_Star_any]].
    destruct Hb as [-> | (b & c & -> & Hc)].
    + apply in_Alt_r. constructor.
    + apply in_Alt_l. apply in_Seq; [apply in_Star_any|].
      constructor. apply negb_true_iff. exact Hc.
Qed.

End Matcher.

(** ** The aggregator *)

Section Aggregator.

Lemma add_issue_blocking (i : Issue) (r : ReviewResult) :
  blocking (add_issue i r) = (blocking r ++ of_severity BLOCKING [i])%list.
Proof.
  unfold add_issue, of_severity; destruct (severity i) eqn:E; simpl; rewrite E; simpl;
    auto using app_nil_r.
Qed.

Lemma add_issue_warnings (i : Issue) (r : ReviewResult) :
  warnings (add_issue i r) = (warnings r ++ of_severity WARNING [i])%list.
Proof.
  unfold add_issue, of_severity; destruct (severity i) eqn:E; simpl; rewrite E; simpl;
    auto using app_nil_r.
Qed.

Lemma add_issue_nitpicks (i : Issue) (r : ReviewResult) :
  nitpicks (add_issue i r) = (nitpicks r ++ of_severity NITPICK [i])%list.
Proof.
  unfold add_issue, of_severity; destruct (severity i) eqn:E; simpl; rewrite E; simpl;
    auto using app_nil_r.
Qed.

(** [add_issue] touches the three buckets only. *)
Lemma add_issue_frame (i : Issue) (r : ReviewResult) :
  positives (add_issue i r) = positives r /\
  coverage_percent (add_issue i r) = coverage_percent r /\
  quality_tier (add_issue i r) = quality_tier r /\
  files_reviewed (add_issue i r) = files_reviewed r.
Proof. unfold add_issue; destruct (severity i); simpl; auto. Qed.

Lemma of_severity_app (s : Severity) (l1 l2 : list Issue) :
  of_severity s (l1 ++ l2) = (of_severity s l1 ++ of_severity s l2)%list.
Proof. apply filter_app. Qed.

Lemma add_issues_buckets (issues : list Issue) (r : ReviewResult) :
  blocking (add_issues issues r) = (blocking r ++ of_severity BLOCKING issues)%list /\
  warnings (add_issues issues r) = (warnings r ++ of_severity WARNING issues)%list /\
  nitpicks (add_issues issues r) = (nitpicks r ++ of_severity NITPICK issues)%list.
Proof.
  revert r. induction issues as [|i rest IH]; intros r.
  - simpl. rewrite !app_nil_r. auto.
  - change (add_issues (i :: rest) r) with (add_issues rest (add_issue i r)).
    destruct (IH (add_issue i r)) as (Hb & Hw & Hn).
    rewrite Hb, Hw, Hn, add_issue_blocking, add_issue_warnings, add_issue_nitpicks.
    change (i :: rest) with ([i] ++ rest)%list.
    rewrite !of_severity_app, <- !app_assoc. auto.
Qed.

Lemma add_issues_frame (issues : list Issue) (r : ReviewResult) :
  positives (add_issues issues r) = positives r /\
  coverage_percent (add_issues issues r) = coverage_percent r /\
  quality_tier (add_issues issues r) = quality_tier r /\
  files_reviewed (add_issues issues r) = files_reviewed r.
Proof.
  revert r. induction issues as [|i rest IH]; intros r; [simpl; auto|].
  change (add_issues (i :: rest) r) with (add_issues rest (add_issue i r)).
  destruct (IH (add_issue i r)) as (H1 & H2 & H3 & H4).
  destruct (add_issue_frame i r) as (G1 & G2 & G3 & G4).
  rewrite H1, H2, H3, H4. auto.
Qed.

Lemma add_issues_app (l1 l2 : list Issue) (r : ReviewResult) :
  add_issues (l1 ++ l2) r = add_issues l2 (add_issues l1 r).
Proof. apply fold_left_app. Qed.

(** Every issue has exactly one of the three severities. *)
Lemma one_severity (i : Issue) :
  (length (of_severity BLOCKING [i]) + length (of_severity WARNING [i])
   + length (of_severity NITPICK [i]) = 1)%nat.
Proof. unfold of_severity; simpl; destruct (severity i); reflexivity. Qed.

Lemma severity_split_length (issues : list Issue) :
  (length (of_severity BLOCKING issues) + length (of_severity WARNING issues)
   + length (of_severity NITPICK issues) = length issues)%nat.
Proof.
  induction issues as [|i rest IH]; [reflexivity|].
  change (i :: rest) with ([i] ++ rest)%list.
  rewrite !of_severity_app, !length_app. pose proof (one_severity i). simpl length in *. lia.
Qed.

Lemma severity_split_perm (issues : list Issue) :
  Permutation
    (of_severity BLOCKING issues ++ of_severity WARNING issues
     ++ of_severity NITPICK issues)
    issues.
Proof.
  induction issues as [|i rest IH]; [constructor|].
  unfold of_severity in *; simpl. destruct (severity i); simpl.
  - constructor. exact IH.
  - symmetry. apply Permutation_cons_app. symmetry. exact IH.
  - symmetry. rewrite app_assoc. apply Permutation_cons_app.
    rewrite <- app_assoc. symmetry. exact IH.
Qed.

Lemma has_blocking_issues_iff (r : ReviewResult) :
  has_blocking_issues r = true <-> blocking r <> [].
Proof.
  unfold has_blocking_issues. destruct (blocking r) as [|i l]; cbn.
  - split; [discriminate | intros H; exfalso; apply H; reflexivity].
  - split; [intros _; discriminate | reflexivity].
Qed.

End Aggregator.

(** C5. After any sequence of [add_issue] calls, each bucket is the old
    bucket followed by the added issues of its severity in call order; every
    added issue has exactly one severity, so the three buckets partition the
    added issues; [total_issues] is the sum of the three bucket sizes and
    grows by the number of issues added; [has_blocking_issues] is true
    exactly when the blocking bucket is not empty. *)
Theorem add_issues_partition (issues : list Issue) (r : ReviewResult) :
  let r' := add_issues issues r in
  blocking r' = (blocking r ++ of_severity BLOCKING issues)%list /\
  warnings r' = (warnings r ++ of_severity WARNING issues)%list /\
  nitpicks r' = (nitpicks r ++ of_severity NITPICK issues)%list /\
  Forall (fun i => (length (of_severity BLOCKING [i]) + length (of_severity WARNING [i])
                    + length (of_severity NITPICK [i]) = 1)%nat) issues /\
  Permutation
    (of_severity BLOCKING issues ++ of_severity WARNING issues ++ of_severity NITPICK issues)
    issues /\
  Permutation
    (blocking (add_issues issues new_ReviewResult)
     ++ warnings (add_issues issues new_ReviewResult)
     ++ nitpicks (add_issues issues new_ReviewResult))
    issues /\
  total_issues r' = (length (blocking r') + length (warnings r') + length (nitpicks r'))%nat /\
  total_issues r' = (total_issues r + length issues)%nat /\
  (has_blocking_issues r' = true <-> blocking r' <> []) /\
  (has_blocking_issues r' = true <-> (0 < length (blocking r'))%nat).
Proof.
  intros r'. subst r'.
  destruct (add_issues_buckets issues r) as (Hb & Hw & Hn).
  destruct (add_issues_buckets issues new_ReviewResult) as (Hb0 & Hw0 & Hn0).
  repeat split; auto.
  - apply Forall_forall. intros i _. apply one_severity.
  - apply severity_split_perm.
  - rewrite Hb0, Hw0, Hn0. simpl. apply severity_split_perm.
  - unfold total_issues. rewrite Hb, Hw, Hn, !length_app.
    pose proof (severity_split_length issues). lia.
  - apply has_blocking_issues_iff.
  - apply has_blocking_issues_iff.
  - unfold has_blocking_issues. intros H. apply Nat.ltb_lt. exact H.
  - unfold has_blocking_issues. intros H. apply Nat.ltb_lt in H. exact H.
Qed.

(** ** Quality assessor *)

(** [_assess_quality_tier] writes the tier and nothing else. *)
Lemma assess_quality_tier_frame (env : Env) (st : Reviewer) :
  let st' := _assess_quality_tier env st in
  blocking (result st') = blocking (result st) /\
  warnings (result st') = warnings (result st) /\
  nitpicks (result st') = nitpicks (result st) /\
  positives (result st') = positives (result st) /\
  coverage_percent (result st') = coverage_percent (result st) /\
  files_reviewed (result st') = files_reviewed (result st) /\
  stderr st' = stderr st.
Proof. simpl. repeat split; reflexivity. Qed.

(** The tiers a coverage that is a number can get. *)
Lemma tier_after_of_number (env : Env) (st : Reviewer) :
  is_nan (coverage_percent (result st)) = false ->
  In (tier_after env st) ["Below Bronze"; "Bronze (needs testing)"; "Gold"; "Silver"].
Proof.
  intros Hnan. unfold tier_after, _assess_quality_tier. simpl.
  destruct (has_blocking_issues (result st)); [auto|].
  destruct (negb (path_exists env (joinpath (root_path env) "tests"))); simpl; [auto|].
  destruct (lt_60 (coverage_percent (result st))) eqn:Hlt; [auto|].
  rewrite (not_lt_60_ge_60 _ Hnan Hlt).
  destruct (ge_80 (coverage_percent (result st))
            && (length (warnings (result st)) =? 0)%nat); auto.
Qed.

(** C1. The tier [_assess_quality_tier] writes is the value of the ordered
    decision table on the four values it reads, first match wins: blocking
    gives Below Bronze; otherwise no tests or coverage under 60 gives Bronze
    (needs testing); otherwise coverage of at least 80 without warnings gives
    Gold; otherwise coverage of at least 60 gives Silver; otherwise Bronze.
    Coverage 85 without warnings or blocking and with tests is Gold; coverage
    70 with one warning is Silver; coverage 50 is Bronze (needs testing) also
    without blocking issues; a blocking issue gives Below Bronze whatever the
    coverage. *)
Theorem assess_quality_tier_decision_table (env : Env) (st : Reviewer) :
  let has_blocking := has_blocking_issues (result st) in
  let has_tests := path_exists env (tests_dir env) in
  let coverage := coverage_percent (result st) in
  let warning_count := length (warnings (result st)) in
  tier_after env st = decision_table has_blocking has_tests coverage warning_count /\
  (has_blocking = true -> tier_after env st = "Below Bronze") /\
  (has_blocking = false -> has_tests = false \/ lt_60 coverage = true ->
   tier_after env st = "Bronze (needs testing)") /\
  (has_blocking = false -> has_tests = true -> lt_60 coverage = false ->
   ge_80 coverage = true -> warning_count = 0%nat ->
   tier_after env st = "Gold") /\
  (has_blocking = false -> has_tests = true -> lt_60 coverage = false ->
   ge_80 coverage = false \/ warning_count <> 0%nat -> ge_60 coverage = true ->
   tier_after env st = "Silver") /\
  (has_blocking = false -> has_tests = true -> lt_60 coverage = false ->
   ge_80 coverage = false \/ warning_count <> 0%nat -> ge_60 coverage = false ->
   tier_after env st = "Bronze") /\
  tier_after Sample.bare (Sample.reviewer [] [] (PyFloat 85)) = "Gold" /\
  tier_after Sample.bare (Sample.reviewer [] [Sample.issue WARNING] (PyFloat 70)) = "Silver" /\
  (has_blocking = false -> coverage = PyFloat 50 ->
   tier_after env st = "Bronze (needs testing)") /\
  (blocking (result st) <> [] -> tier_after env st = "Below Bronze").
Proof.
  intros has_blocking has_tests coverage warning_count.
  assert (E : tier_after env st
              = decision_table has_blocking has_tests coverage warning_count).
  { unfold tier_after, _assess_quality_tier, decision_table, first_match.
    subst has_blocking has_tests coverage warning_count. unfold tests_dir. simpl.
    destruct (has_blocking_issues (result st)); simpl; [reflexivity|].
    destruct (negb (path_exists env (joinpath (root_path env) "tests"))
              || lt_60 (coverage_percent (result st))); simpl; [reflexivity|].
    destruct (ge_80 (coverage_percent (result st))
              && (length (warnings (result st)) =? 0)%nat); simpl; [reflexivity|].
    destruct (ge_60 (coverage_percent (result st))); reflexivity. }
  split; [exact E|]. rewrite E. unfold decision_table, first_match.
  repeat apply conj.
  - intros ->. reflexivity.
  - intros -> [-> | ->]; simpl; [reflexivity|]. rewrite orb_true_r. reflexivity.
  - intros -> -> -> -> ->. reflexivity.
  - intros -> -> -> H ->. simpl.
    destruct H as [-> | H]; simpl; [reflexivity|].
    apply Nat.eqb_neq in H. rewrite H, andb_false_r. reflexivity.
  - intros -> -> -> H ->. simpl.
    destruct H as [-> | H]; simpl; [reflexivity|].
    apply Nat.eqb_neq in H. rewrite H, andb_false_r. reflexivity.
  - reflexivity.
  - reflexivity.
  - intros -> ->. simpl. rewrite orb_true_r. reflexivity.
  - intros H. apply has_blocking_issues_iff in H. fold has_blocking in H.
    rewrite H. reflexivity.
Qed.

(** The table at work on a result with a blocking issue and full coverage. *)
Lemma assess_quality_tier_decision_table_witness :
  tier_after Sample.bare (Sample.reviewer [Sample.issue BLOCKING] [] (PyFloat 100))
  = "Below Bronze".
Proof.
  apply (proj1 (proj2 (assess_quality_tier_decision_table Sample.bare
                         (Sample.reviewer [Sample.issue BLOCKING] [] (PyFloat 100))))).
  reflexivity.
Defined.

(** C2, as stated, fails: with tests present, no blocking issue and a
    coverage that is not a number (NaN), rules 1 to 4 all fail and the tier
    is the plain Bronze. *)
Lemma assess_quality_tier_nan_is_bronze :
  tier_after Sample.bare (Sample.reviewer [] [] (PyFloat nan)) = "Bronze" /\
  ~ (forall env st, tier_after env st <> "Bronze").
Proof.
  assert (E : tier_after Sample.bare (Sample.reviewer [] [] (PyFloat nan)) = "Bronze")
    by reflexivity.
  split; [exact E|]. intros H. exact (H _ _ E).
Qed.

(** C2, amended. When the coverage is a number (not NaN), the tier is never
    the plain Bronze: whenever rules 1 and 2 do not fire, the coverage is at
    least 60 and the tier is Gold or Silver. *)
Theorem assess_quality_tier_never_bronze (env : Env) (st : Reviewer) :
  is_nan (coverage_percent (result st)) = false ->
  tier_after env st <> "Bronze" /\
  (has_blocking_issues (result st) = false ->
   path_exists env (tests_dir env) = true ->
   lt_60 (coverage_percent (result st)) = false ->
   ge_60 (coverage_percent (result st)) = true /\
   (tier_after env st = "Gold" \/ tier_after env st = "Silver")).
Proof.
  intros Hnan.
  unfold tier_after, _assess_quality_tier, tests_dir. simpl.
  destruct (has_blocking_issues (result st)); simpl.
  { split; [discriminate | discriminate]. }
  destruct (path_exists env (joinpath (root_path env) "tests")); simpl.
  2:{ split; [discriminate | discriminate]. }
  destruct (lt_60 (coverage_percent (result st))) eqn:Hlt; simpl.
  { split; [discriminate | discriminate]. }
  rewrite (not_lt_60_ge_60 _ Hnan Hlt).
  destruct (ge_80 (coverage_percent (result st))
            && (length (warnings (result st)) =? 0)%nat); simpl.
  - split; [discriminate | auto].
  - split; [discriminate | auto].
Qed.

Lemma assess_quality_tier_never_bronze_witness :
  tier_after Sample.bare (Sample.reviewer [] [Sample.issue WARNING] (PyFloat 70)) <> "Bronze".
Proof.
  apply (assess_quality_tier_never_bronze Sample.bare
           (Sample.reviewer [] [Sample.issue WARNING] (PyFloat 70))).
  reflexivity.
Defined.

(** ** External tool adapter *)

Section Tools.

Variable env : Env.
Variable st : Reviewer.

Lemma run_missing (inv : invocation) (k : Z -> string -> outcome) :
  tools env (argv inv) = ToolMissing ->
  exists e, is_FileNotFoundError e = true /\ run env inv st k = Raises e st.
Proof.
  intros H. unfold run, subprocess_run. rewrite H. eexists. split; cycle 1.
  - reflexivity.
  - reflexivity.
Qed.

Lemma run_exits (inv : invocation) (k : Z -> string -> outcome) (rc : Z) (out : string) :
  tools env (argv inv) = ToolExits rc out -> run env inv st k = k rc out.
Proof. intros H. unfold run, subprocess_run. rewrite H. reflexivity. Qed.

Lemma run_hangs (inv : invocation) (k : Z -> string -> outcome) :
  tools env (argv inv) = ToolHangs -> timeout inv = None -> run env inv st k = Blocks.
Proof. intros H T. unfold run, subprocess_run. rewrite H, T. reflexivity. Qed.

Lemma print_err_skipped (msg : string) : skipped (Returns (print_err msg st)) st.
Proof. exists (print_err msg st). repeat split. exists msg. reflexivity. Qed.

End Tools.

(** C3, as stated, fails: no checker is given a timeout, and a tool that
    does not exit is not skipped like an absent one: the phase never
    returns. *)
Lemma checkers_wait_without_timeout :
  timeout ruff_invocation = None /\
  timeout mypy_invocation = None /\
  timeout pytest_invocation = None /\
  _run_linter Sample.bare new_Reviewer
  = Returns (print_err "Warning: Ruff not found, skipping lint check" new_Reviewer) /\
  _run_linter (Sample.with_tools ToolHangs Sample.bare) new_Reviewer = Blocks /\
  _run_type_checker (Sample.with_tools ToolHangs Sample.bare) new_Reviewer = Blocks /\
  _check_test_coverage (Sample.with_tools ToolHangs Sample.bare) new_Reviewer = Blocks /\
  review_files (Sample.with_tools ToolHangs Sample.bare) [] new_Reviewer = Blocks.
Proof. repeat apply conj; reflexivity. Qed.

(** C3, amended. Each external checker (lint, type check, coverage) is run
    without a timeout and waits for its tool: a tool that never exits blocks
    the phase.  An absent executable makes the phase emit no issue of any
    severity and no positive note, only one diagnostic on the error stream,
    and return, so that the run continues. *)
Theorem external_checkers_skip_absent_tool (env : Env) (st : Reviewer) :
  (timeout ruff_invocation = None /\
   timeout mypy_invocation = None /\
   timeout pytest_invocation = None) /\
  (tools env (argv ruff_invocation) = ToolMissing -> skipped (_run_linter env st) st) /\
  (tools env (argv mypy_invocation) = ToolMissing -> skipped (_run_type_checker env st) st) /\
  (tools env (argv pytest_invocation) = ToolMissing ->
   skipped (_check_test_coverage env st) st) /\
  (tools env (argv ruff_invocation) = ToolHangs -> _run_linter env st = Blocks) /\
  (tools env (argv mypy_invocation) = ToolHangs -> _run_type_checker env st = Blocks) /\
  (tools env (argv pytest_invocation) = ToolHangs -> _check_test_coverage env st = Blocks).
Proof.
  split; [repeat split|]. repeat apply conj; intros H.
  - unfold _run_linter. destruct (run_missing env st ruff_invocation
      (fun returncode _ =>
         if (returncode =? 0)%Z
         then Returns (on_result (add_positive "âœ… Ruff linter passes with no errors") st)
         else Returns (on_result (add_issue linting_issue) st)) H) as (e & He & ->).
    simpl. rewrite He. apply print_err_skipped.
  - unfold _run_type_checker, run, subprocess_run. rewrite H. simpl.
    apply print_err_skipped.
  - unfold _check_test_coverage, run, subprocess_run. rewrite H. simpl.
    apply print_err_skipped.
  - unfold _run_linter. rewrite run_hangs by (exact H || reflexivity). reflexivity.
  - unfold _run_type_checker. rewrite run_hangs by (exact H || reflexivity). reflexivity.
  - unfold _check_test_coverage. rewrite run_hangs by (exact H || reflexivity). reflexivity.
Qed.

Lemma external_checkers_skip_absent_tool_witness :
  skipped (_run_linter Sample.bare new_Reviewer) new_Reviewer /\
  skipped (_run_type_checker Sample.bare new_Reviewer) new_Reviewer /\
  skipped (_check_test_coverage Sample.bare new_Reviewer) new_Reviewer /\
  _check_test_coverage (Sample.with_tools ToolHangs Sample.bare) new_Reviewer = Blocks.
Proof.
  pose proof (external_checkers_skip_absent_tool Sample.bare new_Reviewer)
    as (_ & L & T & C & _).
  pose proof (external_checkers_skip_absent_tool
                (Sample.with_tools ToolHangs Sample.bare) new_Reviewer)
    as (_ & _ & _ & _ & _ & _ & B).
  repeat apply conj; [apply L | apply T | apply C | apply B]; reflexivity.
Defined.

(** C4, as stated, fails: mypy is found and exits with status 2 without a
    line that contains the marker, and no issue is emitted. *)
Lemma type_checker_silent_without_marker :
  _run_type_checker (Sample.with_tools (ToolExits 2 "") Sample.bare) new_Reviewer
  = Returns new_Reviewer /\
  total_issues new_ReviewResult = 0%nat.
Proof. split; reflexivity. Qed.

(** C4, amended. When the type checker is found and exits non-zero, let n
    be the number of lines of its standard output that contain the marker
    [error:].  If n is positive, exactly one issue is emitted, a warning
    whose title carries n; if n is zero, nothing is emitted. *)
Theorem type_checker_nonzero_exit (env : Env) (st : Reviewer) (rc : Z) (out : string) :
  tools env (argv mypy_invocation) = ToolExits rc out ->
  rc <> 0%Z ->
  let n := length (filter (contains "error:") (split_newline out)) in
  (n <> 0%nat ->
   _run_type_checker env st = Returns (on_result (add_issue (type_check_issue n)) st) /\
   warnings (add_issue (type_check_issue n) (result st))
   = (warnings (result st) ++ [type_check_issue n])%list /\
   blocking (add_issue (type_check_issue n) (result st)) = blocking (result st) /\
   nitpicks (add_issue (type_check_issue n) (result st)) = nitpicks (result st) /\
   positives (add_issue (type_check_issue n) (result st)) = positives (result st) /\
   severity (type_check_issue n) = WARNING /\
   title (type_check_issue n) = "Type Check Errors (" ++ str_of_nat n ++ ")") /\
  (n = 0%nat -> _run_type_checker env st = Returns st).
Proof.
  intros H Hrc n.
  assert (E : _run_type_checker env st
              = if (0 <? n)%nat
                then Returns (on_result (add_issue (type_check_issue n)) st)
                else Returns st).
  { unfold _run_type_checker. erewrite run_exits by exact H.
    apply Z.eqb_neq in Hrc. rewrite Hrc. fold n.
    unfold count_error_lines. fold n. destruct (0 <? n)%nat; reflexivity. }
  split.
  - intros Hn. rewrite E. destruct n as [|n']; [congruence|]. repeat split.
  - intros ->. exact E.
Qed.

Lemma type_checker_nonzero_exit_witness :
  _run_type_checker (Sample.with_tools (ToolExits 1 Sample.mypy_output) Sample.bare)
    new_Reviewer
  = Returns (on_result (add_issue (type_check_issue 1)) new_Reviewer).
Proof.
  apply (type_checker_nonzero_exit
           (Sample.with_tools (ToolExits 1 Sample.mypy_output) Sample.bare)
           new_Reviewer 1 Sample.mypy_output).
  - reflexivity.
  - discriminate.
  - vm_compute. discriminate.
Defined.

(** ** Pattern detector *)

Section Credentials.

Variable path : string.

Lemma check_hardcoded_credentials_spec (lines : list string) (i : Z) (r : ReviewResult) :
  check_hardcoded_credentials path i lines r
  = add_issues (map (hardcoded_credential_issue path) (credential_lines path i lines)) r.
Proof.
  revert i r. induction lines as [|text rest IH]; intros i r; [reflexivity|].
  simpl. rewrite IH. destruct (reports_credential path text); reflexivity.
Qed.

Lemma credential_lines_ge (lines : list string) (i j : Z) :
  In j (credential_lines path i lines) -> (i <= j)%Z.
Proof.
  revert i. induction lines as [|text rest IH]; intros i; simpl; [tauto|].
  destruct (reports_credential path text); simpl.
  - intros [<- | H]; [lia | apply IH in H; lia].
  - intros H. apply IH in H. lia.
Qed.

Lemma credential_lines_before (lines : list string) (i j : Z) :
  (j < i)%Z -> filter (fun k => (k =? j)%Z) (credential_lines path i lines) = [].
Proof.
  intros Hlt.
  assert (H : forall k, In k (credential_lines path i lines) -> (k =? j)%Z = false).
  { intros k Hk. apply credential_lines_ge in Hk. apply Z.eqb_neq. lia. }
  induction (credential_lines path i lines) as [|k l IHl]; [reflexivity|].
  simpl. rewrite (H k (or_introl eq_refl)). apply IHl.
  intros k' Hk'. apply H. right. exact Hk'.
Qed.

(** The line at offset [n] is reported once if the rule reports its text,
    and not at all otherwise. *)
Lemma credential_lines_at (lines : list string) (i : Z) (n : nat) (text : string) :
  nth_error lines n = Some text ->
  filter (fun k => (k =? i + Z.of_nat n)%Z) (credential_lines path i lines)
  = if reports_credential path text then [(i + Z.of_nat n)%Z] else [].
Proof.
  revert i n. induction lines as [|t rest IH]; intros i n; [destruct n; discriminate|].
  destruct n as [|n]; simpl nth_error.
  - intros [= ->]. simpl. rewrite Z.add_0_r.
    destruct (reports_credential path text); simpl.
    + rewrite Z.eqb_refl, credential_lines_before by lia. reflexivity.
    + apply credential_lines_before. lia.
  - intros H. simpl credential_lines.
    replace (i + Z.of_nat (S n))%Z with (i + 1 + Z.of_nat n)%Z by lia.
    destruct (reports_credential path t); simpl.
    + replace (i =? i + 1 + Z.of_nat n)%Z with false by (symmetry; apply Z.eqb_neq; lia).
      apply IH. exact H.
    + apply IH. exact H.
Qed.

Lemma at_line_credentials (i : Z) (ks : list Z) :
  at_line i (map (hardcoded_credential_issue path) ks)
  = map (hardcoded_credential_issue path) (filter (fun k => (k =? i)%Z) ks).
Proof.
  induction ks as [|k ks IH]; [reflexivity|].
  unfold at_line in *. simpl. destruct (k =? i)%Z; simpl; rewrite IH; reflexivity.
Qed.

Lemma of_severity_credentials (ks : list Z) :
  of_severity BLOCKING (map (hardcoded_credential_issue path) ks)
  = map (hardcoded_credential_issue path) ks /\
  of_severity WARNING (map (hardcoded_credential_issue path) ks) = [] /\
  of_severity NITPICK (map (hardcoded_credential_issue path) ks) = [].
Proof.
  induction ks as [|k ks (IH1 & IH2 & IH3)]; [repeat split|].
  unfold of_severity in *. simpl. rewrite IH1, IH2, IH3. repeat split.
Qed.

End Credentials.

Lemma at_line_app (i : Z) (l1 l2 : list Issue) :
  at_line i (l1 ++ l2) = (at_line i l1 ++ at_line i l2)%list.
Proof. apply filter_app. Qed.

(** An issue without a line number, added or not, changes no bucket at any
    line, and a blocking one changes the blocking bucket only. *)
Lemma add_issue_if_no_line (b : bool) (x : Issue) (r : ReviewResult) (i : Z) :
  line x = None -> severity x = BLOCKING ->
  at_line i (blocking (add_issue_if b x r)) = at_line i (blocking r) /\
  warnings (add_issue_if b x r) = warnings r /\
  nitpicks (add_issue_if b x r) = nitpicks r.
Proof.
  intros Hl Hs. destruct b; simpl; [|auto].
  unfold add_issue. rewrite Hs. simpl. rewrite at_line_app.
  unfold at_line at 2. simpl. rewrite Hl, app_nil_r. auto.
Qed.

(** What [_check_security_issues] leaves at line [i]: the credential issue
    of that line if the rule reports it. *)
Lemma check_security_issues_at_line (f : Path) (content : string) (lines : list string)
    (r : ReviewResult) (i : Z) :
  let r' := _check_security_issues f content lines r in
  at_line i (blocking r')
  = (at_line i (blocking r)
     ++ map (hardcoded_credential_issue (path_str f))
          (filter (fun k => (k =? i)%Z) (credential_lines (path_str f) 1 lines)))%list /\
  warnings r' = warnings r /\
  nitpicks r' = nitpicks r.
Proof.
  unfold _check_security_issues.
  set (r1 := check_hardcoded_credentials (path_str f) 1 lines r).
  set (r2 := add_issue_if _ (sql_injection_issue _) r1).
  set (r3 := add_issue_if _ (eval_issue _) r2).
  simpl.
  destruct (add_issue_if_no_line (search security_patterns.shell_injection content)
              (shell_injection_issue (path_str f)) r3 i eq_refl eq_refl) as (A3 & W3 & N3).
  destruct (add_issue_if_no_line
              (search_at_word_start security_patterns.eval_usage content)
              (eval_issue (path_str f)) r2 i eq_refl eq_refl) as (A2 & W2 & N2).
  destruct (add_issue_if_no_line (search security_patterns.sql_injection content)
              (sql_injection_issue (path_str f)) r1 i eq_refl eq_refl) as (A1 & W1 & N1).
  fold r2 in A1, W1, N1. fold r3 in A2, W2, N2.
  rewrite A3, W3, N3, A2, W2, N2, A1, W1, N1.
  unfold r1. rewrite check_hardcoded_credentials_spec.
  destruct (add_issues_buckets
              (map (hardcoded_credential_issue (path_str f))
                 (credential_lines (path_str f) 1 lines)) r) as (Hb & Hw & Hn).
  destruct (of_severity_credentials (path_str f)
              (credential_lines (path_str f) 1 lines)) as (S1 & S2 & S3).
  rewrite Hb, Hw, Hn, S1, S2, S3, !app_nil_r, at_line_app, at_line_credentials. auto.
Qed.

(** C6. In a file whose path does not hold the test marker, a line that
    matches the credential pattern and does not begin with the comment
    marker yields exactly one issue carrying its line number, blocking and
    of category security; the same text after a comment marker, or in a file
    whose path holds the test marker, yields none.  The text
    [password = "abc123"] matches the pattern, commented or not. *)
Theorem hardcoded_credential_rule (f : Path) (content : string) (lines : list string)
    (r : ReviewResult) (n : nat) (text : string) :
  nth_error lines n = Some text ->
  search security_patterns.hardcoded_key text = true ->
  let i := (Z.of_nat n + 1)%Z in
  let r' := _check_security_issues f content lines r in
  let is_test_path := contains "test" (lower (path_str f)) in
  let is_comment := startswith (strip text) "#" in
  (is_test_path = false -> is_comment = false ->
   at_line i (blocking r')
   = (at_line i (blocking r) ++ [hardcoded_credential_issue (path_str f) i])%list /\
   at_line i (warnings r') = at_line i (warnings r) /\
   at_line i (nitpicks r') = at_line i (nitpicks r) /\
   severity (hardcoded_credential_issue (path_str f) i) = BLOCKING /\
   category (hardcoded_credential_issue (path_str f) i) = SECURITY /\
   line (hardcoded_credential_issue (path_str f) i) = Some i) /\
  (is_test_path = true \/ is_comment = true ->
   at_line i (blocking r') = at_line i (blocking r) /\
   at_line i (warnings r') = at_line i (warnings r) /\
   at_line i (nitpicks r') = at_line i (nitpicks r)) /\
  search security_patterns.hardcoded_key Sample.password_line = true /\
  search security_patterns.hardcoded_key Sample.commented_line = true /\
  startswith (strip Sample.password_line) "#" = false /\
  startswith (strip Sample.commented_line) "#" = true.
Proof.
  intros Hnth Hsearch i r' is_test_path is_comment.
  destruct (check_security_issues_at_line f content lines r i) as (Hb & Hw & Hn).
  fold r' in Hb, Hw, Hn.
  assert (F : filter (fun k => (k =? i)%Z) (credential_lines (path_str f) 1 lines)
              = if reports_credential (path_str f) text then [i] else []).
  { unfold i. replace (Z.of_nat n + 1)%Z with (1 + Z.of_nat n)%Z by lia.
    apply credential_lines_at. exact Hnth. }
  rewrite F in Hb. rewrite Hb, Hw, Hn.
  unfold reports_credential. rewrite Hsearch. fold is_test_path is_comment.
  repeat apply conj; try reflexivity.
  - intros -> ->. repeat split.
  - intros [-> | ->]; simpl; rewrite ?andb_false_r, app_nil_r; repeat split.
Qed.

Lemma hardcoded_credential_rule_witness :
  at_line 2 (blocking (_check_security_issues Sample.api_py ""
                         ["import os"; Sample.password_line] new_ReviewResult))
  = [hardcoded_credential_issue "custom_components/hub/api.py" 2] /\
  at_line 2 (blocking (_check_security_issues Sample.api_py ""
                         ["import os"; Sample.commented_line] new_ReviewResult))
  = [] /\
  at_line 2 (blocking (_check_security_issues Sample.test_api_py ""
                         ["import os"; Sample.password_line] new_ReviewResult))
  = [].
Proof.
  repeat apply conj.
  - apply (hardcoded_credential_rule Sample.api_py ""
             ["import os"; Sample.password_line] new_ReviewResult 1 Sample.password_line eq_refl);
      reflexivity.
  - apply (proj1 (proj2 (hardcoded_credential_rule Sample.api_py ""
             ["import os"; Sample.commented_line] new_ReviewResult 1 Sample.commented_line
             eq_refl eq_refl))).
    right. reflexivity.
  - apply (proj1 (proj2 (hardcoded_credential_rule Sample.test_api_py ""
             ["import os"; Sample.password_line] new_ReviewResult 1 Sample.password_line
             eq_refl eq_refl))).
    left. reflexivity.
Defined.

(** The credential pattern on some lines. *)
Example hardcoded_key_examples :
  map (search security_patterns.hardcoded_key)
    [Sample.password_line; "API_KEY = 'abc-123'"; "api-key='x'";
     "my_secret  =  'hunter2'  # note"; "password = abc123"; "password = ''";
     "token: 'abc'"; "api key = 'x'"]
  = [true; true; true; true; false; false; false; false].
Proof. vm_compute. reflexivity. Qed.

(** The rule on text outside ASCII: white space of Unicode before the
    comment marker and around the equals sign, letters of Unicode in the
    quoted value, and the long s that [re.IGNORECASE] takes for an s. *)
Example unicode_examples :
  map (reports_credential "custom_components/hub/api.py")
    [Sample.no_break_space ++ Sample.commented_line;
     Sample.em_space ++ Sample.commented_line;
     Sample.no_break_space ++ Sample.password_line;
     "password" ++ Sample.no_break_space ++ "=" ++ Sample.em_space ++ "'abc123'";
     "password = '" ++ Sample.e_acute ++ "'";
     "pa" ++ Sample.long_s ++ "sword = 'abc123'";
     "password = '" ++ Sample.no_break_space ++ "'"]
  = [false; false; true; true; true; true; false] /\
  strip (Sample.em_space ++ " # note " ++ Sample.no_break_space) = "# note" /\
  code_points ("a" ++ Sample.e_acute ++ Sample.em_space) = [97; 233; 8195]%N.
Proof. vm_compute. repeat split. Qed.

Example text_examples :
  split_newline ("a" ++ String newline ("b" ++ String newline "")) = ["a"; "b"; ""] /\
  strip "   # note  " = "# note" /\
  lower "Tests/Test_API.py" = "tests/test_api.py" /\
  contains "test" (lower "custom_components/hub/Latest.py") = true /\
  str_of_nat 12 = "12".
Proof. repeat split. Qed.

(** ** Syntax tree detector *)

(** No error in one Python file leaves [_review_python_file]. *)
Lemma review_python_file_returns (env : Env) (f : Path) (st : Reviewer) :
  exists st', _review_python_file env f st = Returns st'.
Proof.
  unfold _review_python_file. destruct (read_text env (path_str f)) as [content|e].
  - cbv zeta. destruct (ast_parse env content); simpl; eauto.
  - simpl. eauto.
Qed.

Lemma of_category_app (c : Category) (l1 l2 : list Issue) :
  of_category c (l1 ++ l2) = (of_category c l1 ++ of_category c l2)%list.
Proof. apply filter_app. Qed.

(** A blocking issue of another category than quality leaves the quality
    issues of the blocking bucket, and the other buckets, as they are. *)
Lemma add_issue_if_other_category (b : bool) (x : Issue) (r : ReviewResult) :
  severity x = BLOCKING -> Category_eqb (category x) QUALITY = false ->
  text_frame r (add_issue_if b x r).
Proof.
  intros Hs Hc. unfold text_frame. destruct b; simpl; [|auto].
  unfold add_issue. rewrite Hs. simpl. rewrite of_category_app.
  unfold of_category at 2. simpl. rewrite Hc, app_nil_r. auto.
Qed.

Lemma text_frame_trans (r1 r2 r3 : ReviewResult) :
  text_frame r1 r2 -> text_frame r2 r3 -> text_frame r1 r3.
Proof.
  unfold text_frame. intros (A1 & A2 & A3 & A4) (B1 & B2 & B3 & B4).
  repeat split; congruence.
Qed.

Lemma check_hardcoded_credentials_category (path : string) (lines : list string)
    (i : Z) (r : ReviewResult) :
  text_frame r (check_hardcoded_credentials path i lines r).
Proof.
  revert i r. induction lines as [|text rest IH]; intros i r;
    [unfold text_frame; simpl; auto|].
  simpl. eapply text_frame_trans; [|apply IH].
  apply (add_issue_if_other_category (reports_credential path text)
           (hardcoded_credential_issue path i) r); reflexivity.
Qed.

(** The text checks add blocking issues of the categories security and async
    only. *)
Lemma after_text_checks_frame (f : Path) (content : string) (r : ReviewResult) :
  text_frame r (after_text_checks f content r).
Proof.
  unfold after_text_checks, _check_ha_patterns, _check_security_issues.
  repeat (eapply text_frame_trans;
          [|apply add_issue_if_other_category; reflexivity]).
  apply check_hardcoded_credentials_category.
Qed.

(** C7, as stated, fails: a text with a null byte does not parse, since
    [ast.parse] raises a [ValueError] on it, and no issue is emitted.  The
    error is caught with every other error of the file and printed to the
    error stream. *)
Lemma parse_failure_without_issue :
  _review_python_file
    (Sample.with_parse (ParseFails Sample.null_byte_error)
       (Sample.with_text Sample.null_byte_text Sample.bare))
    Sample.api_py new_Reviewer
  = Returns
      (print_err
         ("Error reviewing custom_components/hub/api.py: "
          ++ "source code string cannot contain null bytes")
         new_Reviewer) /\
  total_issues new_ReviewResult = 0%nat.
Proof. split; vm_compute; reflexivity. Qed.

(** C7, amended. When the parser rejects the text of a file with a
    [SyntaxError], [_review_python_file] adds to what the text checks found
    exactly one issue: blocking, of category quality, with the line number
    and the message of the parser.  It is the only new blocking issue of
    category quality; the warning and nitpick buckets, where the checks on
    the syntax tree put their issues, are untouched, and no tree enters the
    result.  When the parser fails with another exception, no issue is
    emitted for the failure: the result is the one of the text checks, and
    the error is printed to the error stream. *)
Theorem syntax_error_single_issue (env : Env) (f : Path) (st : Reviewer)
    (content : string) :
  read_text env (path_str f) = inl content ->
  let r1 := after_text_checks f content (result st) in
  (forall lineno msg, ast_parse env content = SyntaxError lineno msg ->
     let issue := syntax_error_issue (path_str f) lineno msg in
     exists st',
       _review_python_file env f st = Returns st' /\
       result st' = add_issue issue r1 /\
       blocking (result st') = (blocking r1 ++ [issue])%list /\
       of_category QUALITY (blocking (result st'))
       = (of_category QUALITY (blocking (result st)) ++ [issue])%list /\
       warnings (result st') = warnings (result st) /\
       nitpicks (result st') = nitpicks (result st) /\
       positives (result st') = positives (result st) /\
       stderr st' = stderr st /\
       severity issue = BLOCKING /\
       category issue = QUALITY /\
       line issue = lineno /\
       description issue = "Python syntax error: " ++ msg) /\
  (forall e, ast_parse env content = ParseFails e ->
     exists st',
       _review_python_file env f st = Returns st' /\
       result st' = r1 /\
       of_category QUALITY (blocking (result st'))
       = of_category QUALITY (blocking (result st)) /\
       warnings (result st') = warnings (result st) /\
       nitpicks (result st') = nitpicks (result st) /\
       positives (result st') = positives (result st) /\
       stderr st'
       = (stderr st
          ++ [("Error reviewing " ++ path_str f ++ ": " ++ str_exn e)%string])%list).
Proof.
  intros Hread r1.
  destruct (after_text_checks_frame f content (result st)) as (Hq & Hw & Hn & Hp).
  fold r1 in Hq, Hw, Hn, Hp. split.
  - intros lineno msg Hparse issue.
    exists (on_result (fun _ => add_issue issue r1) st).
    repeat apply conj; try reflexivity.
    + unfold _review_python_file. rewrite Hread. simpl. rewrite Hparse. reflexivity.
    + simpl. rewrite of_category_app, Hq. reflexivity.
    + simpl. exact Hw.
    + simpl. exact Hn.
    + simpl. exact Hp.
  - intros e Hparse.
    exists (print_err ("Error reviewing " ++ path_str f ++ ": " ++ str_exn e)
              (on_result (fun _ => r1) st)).
    repeat apply conj; try reflexivity; try assumption.
    unfold _review_python_file. rewrite Hread. simpl. rewrite Hparse. reflexivity.
Qed.

Lemma syntax_error_single_issue_witness :
  exists st',
    _review_python_file
      (Sample.with_parse (SyntaxError (Some 3%Z) "invalid syntax")
         (Sample.with_text "def f(:" Sample.bare))
      Sample.api_py new_Reviewer = Returns st' /\
    blocking (result st')
    = [syntax_error_issue "custom_components/hub/api.py" (Some 3%Z) "invalid syntax"] /\
    warnings (result st') = [].
Proof.
  destruct (proj1 (syntax_error_single_issue
                     (Sample.with_parse (SyntaxError (Some 3%Z) "invalid syntax")
                        (Sample.with_text "def f(:" Sample.bare))
                     Sample.api_py new_Reviewer "def f(:" eq_refl)
              (Some 3%Z) "invalid syntax" eq_refl)
    as (st' & Hrun & _ & Hb & _ & Hw & _).
  exists st'. repeat apply conj; [exact Hrun | exact Hb | exact Hw].
Defined.

(** ** Descriptor detector *)



(** The loop over the required fields adds blocking issues only. *)
Lemma check_required_fields_frame (path : string) (manifest : json)
    (fields : list string) (st : Reviewer) :
  outcome_all
    (fun st' => warnings (result st') = warnings (result st) /\
                nitpicks (result st') = nitpicks (result st) /\
                positives (result st') = positives (result st) /\
                stderr st' = stderr st)
    (check_required_fields path manifest fields st).
Proof.
  revert st. induction fields as [|field rest IH]; intros st; simpl; [auto|].
  destruct (py_in field manifest) as [[|]|e]; [apply IH| |simpl; auto].
  pose proof (IH (on_result (add_issue (missing_field_issue path field)) st)) as K.
  destruct (check_required_fields path manifest rest _); exact K.
Qed.

Lemma check_required_fields_sequence (path : string) (manifest : json)
    (fields : list string) (st : Reviewer) :
  (exists b, py_in "" manifest = inl b) ->
  exists st', check_required_fields path manifest fields st = Returns st'.
Proof.
  intros Hin. revert st. induction fields as [|field rest IH]; intros st; simpl; [eauto|].
  destruct manifest; simpl in *; try (destruct Hin; discriminate); apply IH.
Qed.

(** A manifest that parses to something else than an object makes
    [_review_manifest] raise an exception its [except] clause does not
    handle, after it has added nothing but blocking issues. *)
Lemma review_manifest_not_an_object (env : Env) (f : Path) (st : Reviewer)
    (text : string) (v : json) :
  read_text env (path_str f) = inl text ->
  json_loads env text = JsonValue v ->
  (forall members, v <> JObj members) ->
  exists e st', _review_manifest env f st = Raises e st' /\
                (class e = TypeError \/ class e = AttributeError) /\
                warnings (result st') = warnings (result st) /\
                nitpicks (result st') = nitpicks (result st) /\
                positives (result st') = positives (result st) /\
                stderr st' = stderr st.
Proof.
  intros Hread Hjson Hno. unfold _review_manifest, load_json. rewrite Hread, Hjson.
  pose proof (check_required_fields_frame (path_str f) v required_fields st) as F.
  destruct v as [|b|n|s|items|members].
  - eexists _, _. split; [reflexivity | auto].
  - eexists _, _. split; [reflexivity | auto].
  - eexists _, _. split; [reflexivity | auto].
  - destruct (check_required_fields_sequence (path_str f) (JStr s) required_fields st)
      as (st' & E); [simpl; eauto|].
    rewrite E in F |- *. eexists _, _. split; [reflexivity | auto].
  - destruct (check_required_fields_sequence (path_str f) (JArr items) required_fields st)
      as (st' & E); [simpl; eauto|].
    rewrite E in F |- *. eexists _, _. split; [reflexivity | auto].
  - exfalso. exact (Hno members eq_refl).
Qed.




(** ** Coverage *)

(** What [classify_coverage] adds for a number that formats. *)
Lemma classify_coverage_converts (env : Env) (r : ReviewResult) :
  converts_to_float (coverage_percent r) = true ->
  let p := coverage_percent r in
  let shown := fixed_1f env p in
  classify_coverage env r
  = inl (if ge_80 p then
           add_positive ("âœ… Excellent test coverage: " ++ shown ++ "%") r
         else if ge_60 p then add_issue (coverage_warning shown) r
         else add_issue (coverage_blocking shown) r).
Proof.
  intros H p shown. unfold classify_coverage, formatted, format_1f.
  rewrite H. subst shown p.
  destruct (ge_80 (coverage_percent r)); [reflexivity|].
  destruct (ge_60 (coverage_percent r)); reflexivity.
Qed.

Lemma classify_coverage_overflow (env : Env) (r : ReviewResult) :
  converts_to_float (coverage_percent r) = false ->
  classify_coverage env r = inr (Exn OverflowError "int too large to convert to float").
Proof.
  intros H. unfold classify_coverage, formatted, format_1f. rewrite H.
  destruct (ge_80 (coverage_percent r)); [reflexivity|].
  destruct (ge_60 (coverage_percent r)); reflexivity.
Qed.

(** The coverage phase after a summary that holds the number [p]. *)
Lemma check_test_coverage_number (env : Env) (st : Reviewer) (p : number) :
  coverage_tool_yields env p ->
  _check_test_coverage env st
  = match classify_coverage env (set_coverage_percent p (result st)) with
    | inl r' => Returns (on_result (fun _ => r') st)
    | inr e => Returns (could_not_check e (on_result (set_coverage_percent p) st))
    end.
Proof.
  intros ((rc & out & Hrun) & Hex & text & data & Hread & Hjson & Hsub).
  unfold _check_test_coverage, run, load_json. rewrite Hrun.
  unfold coverage_file in Hex, Hread. rewrite Hex, Hread, Hjson, Hsub.
  cbn [as_number]. cbv zeta.
  change (result (on_result (set_coverage_percent p) st))
    with (set_coverage_percent p (result st)).
  destruct (classify_coverage env (set_coverage_percent p (result st))); reflexivity.
Qed.

(** C9, as stated, fails: the summary holds the percentage 10^400, an int
    that converts to no float.  It is recorded, and nothing is emitted: the
    f-string of the positive note raises, and the error goes to the error
    stream. *)
Lemma huge_coverage_emits_nothing :
  _check_test_coverage (Sample.measured (PyInt (10 ^ 400)) "") new_Reviewer
  = Returns
      (could_not_check (Exn OverflowError "int too large to convert to float")
         (on_result (set_coverage_percent (PyInt (10 ^ 400))) new_Reviewer)) /\
  ge_80 (PyInt (10 ^ 400)) = true /\
  positives (set_coverage_percent (PyInt (10 ^ 400)) new_ReviewResult) = [] /\
  total_issues (set_coverage_percent (PyInt (10 ^ 400)) new_ReviewResult) = 0%nat.
Proof. repeat apply conj; vm_compute; reflexivity. Qed.

(** C9, amended. When the coverage tool yields the percentage p,
    [_check_test_coverage] records p in [coverage_percent] whatever its
    class.  If p formats with one decimal (a float, or an int that converts
    to a float), it emits exactly one thing: for p of at least 80 a positive
    note; for p from 60 up to 80 a warning of category testing (below
    target); for p under 60 a blocking issue of category testing
    (insufficient coverage).  If p is an int too large for a float, it emits
    nothing and prints the error to the error stream. *)
Theorem coverage_recorded_and_classified (env : Env) (st : Reviewer) (p : number) :
  coverage_tool_yields env p ->
  let shown := fixed_1f env p in
  let r := result st in
  (converts_to_float p = true ->
   exists st',
     _check_test_coverage env st = Returns st' /\
     coverage_percent (result st') = p /\
     stderr st' = stderr st /\
     (length (positives (result st')) + total_issues (result st')
      = length (positives r) + total_issues r + 1)%nat /\
     (ge_80 p = true ->
      positives (result st')
      = (positives r ++ [("âœ… Excellent test coverage: " ++ shown ++ "%")%string])%list /\
      blocking (result st') = blocking r /\
      warnings (result st') = warnings r /\
      nitpicks (result st') = nitpicks r) /\
     (ge_60 p = true -> lt_80 p = true ->
      warnings (result st') = (warnings r ++ [coverage_warning shown])%list /\
      blocking (result st') = blocking r /\
      nitpicks (result st') = nitpicks r /\
      positives (result st') = positives r /\
      category (coverage_warning shown) = TESTING /\
      title (coverage_warning shown) = "Test Coverage Below Target") /\
     (lt_60 p = true ->
      blocking (result st') = (blocking r ++ [coverage_blocking shown])%list /\
      warnings (result st') = warnings r /\
      nitpicks (result st') = nitpicks r /\
      positives (result st') = positives r /\
      category (coverage_blocking shown) = TESTING /\
      title (coverage_blocking shown) = "Insufficient Test Coverage")) /\
  (converts_to_float p = false ->
   exists st',
     _check_test_coverage env st = Returns st' /\
     result st' = set_coverage_percent p r /\
     stderr st'
     = (stderr st
        ++ ["Warning: Could not check test coverage: int too large to convert to float"])%list).
Proof.
  intros Y shown r. pose proof (check_test_coverage_number env st p Y) as E. split.
  - intros Hc.
    rewrite (classify_coverage_converts env (set_coverage_percent p (result st)) Hc) in E.
    cbv zeta in E. cbn [coverage_percent set_coverage_percent] in E.
    fold shown in E. eexists. split; [exact E|].
    cbn [result on_result stderr]. fold r.
    destruct (ge_80 p) eqn:H80; [|destruct (ge_60 p) eqn:H60].
    + repeat apply conj; try reflexivity.
      * unfold total_issues. simpl. rewrite length_app. simpl. lia.
      * intros _. repeat split.
      * intros _ H. apply lt_80_not_ge_80 in H. congruence.
      * intros H. apply lt_60_not_ge_80 in H. congruence.
    + repeat apply conj; try reflexivity.
      * unfold total_issues. simpl. rewrite length_app. simpl. lia.
      * discriminate.
      * intros _ _. repeat split.
      * intros H. apply lt_60_not_ge_60 in H. congruence.
    + repeat apply conj; try reflexivity.
      * unfold total_issues. simpl. rewrite length_app. simpl. lia.
      * discriminate.
      * discriminate.
      * intros _. repeat split.
  - intros Hc.
    rewrite (classify_coverage_overflow env (set_coverage_percent p (result st)) Hc) in E.
    eexists. split; [exact E|]. split; reflexivity.
Qed.

Lemma coverage_recorded_and_classified_witness :
  exists st',
    _check_test_coverage (Sample.measured (PyFloat 72.5) "72.5") new_Reviewer
    = Returns st' /\
    coverage_percent (result st') = PyFloat 72.5 /\
    warnings (result st') = [coverage_warning "72.5"] /\
    blocking (result st') = [].
Proof.
  assert (Y : coverage_tool_yields (Sample.measured (PyFloat 72.5) "72.5") (PyFloat 72.5)).
  { split; [exists 0%Z, ""; reflexivity|]. split; [reflexivity|].
    exists "", (Sample.coverage_summary (PyFloat 72.5)). repeat split. }
  destruct (proj1 (coverage_recorded_and_classified (Sample.measured (PyFloat 72.5) "72.5")
                     new_Reviewer (PyFloat 72.5) Y) eq_refl)
    as (st' & Hrun & Hcov & _ & _ & _ & Hwarn & _).
  destruct (Hwarn eq_refl eq_refl) as (Hw & Hb & _).
  exists st'. repeat apply conj; [exact Hrun | exact Hcov | exact Hw | exact Hb].
Defined.

(** ** The recorded coverage through a run *)

Section CoverageKept.

Variable c : number.

Lemma outcome_all_bind (m : outcome) (k : Reviewer -> outcome) :
  outcome_all (coverage_is c) m ->
  (forall st, coverage_is c st -> outcome_all (coverage_is c) (k st)) ->
  outcome_all (coverage_is c) (m >>= k).
Proof.
  destruct m; simpl; auto.
  intros H Hk. specialize (Hk _ H). destruct (k st); exact Hk.
Qed.

Lemma outcome_all_catch (handles : exn -> bool) (m : outcome)
    (handler : exn -> Reviewer -> Reviewer) :
  outcome_all (coverage_is c) m ->
  (forall e st, coverage_is c st -> coverage_is c (handler e st)) ->
  outcome_all (coverage_is c) (catch handles m handler).
Proof. destruct m; simpl; auto. destruct (handles e); simpl; auto. Qed.

Lemma coverage_is_add_issue (i : Issue) (st : Reviewer) :
  coverage_is c st -> coverage_is c (on_result (add_issue i) st).
Proof.
  unfold coverage_is. simpl. destruct (add_issue_frame i (result st)) as (_ & -> & _).
  auto.
Qed.

Lemma coverage_of_add_issue_if (b : bool) (i : Issue) (r : ReviewResult) :
  coverage_percent (add_issue_if b i r) = coverage_percent r.
Proof. destruct b; simpl; [apply add_issue_frame | reflexivity]. Qed.

Lemma coverage_of_text_checks (f : Path) (content : string) (lines : list string)
    (r : ReviewResult) :
  coverage_percent (_check_ha_patterns f content lines
                      (_check_security_issues f content lines r))
  = coverage_percent r.
Proof.
  unfold _check_ha_patterns, _check_security_issues.
  rewrite !coverage_of_add_issue_if, check_hardcoded_credentials_spec.
  apply add_issues_frame.
Qed.

Lemma coverage_of_check_node (path : string) (n : ast) (r : ReviewResult) :
  coverage_percent (check_node path n r) = coverage_percent r.
Proof.
  unfold check_node. destruct (kind_of n) as [fname [e|] l|[[id|]|] l|];
    try reflexivity; try apply coverage_of_add_issue_if; apply add_issue_frame.
Qed.

Lemma coverage_of_ast_patterns (f : Path) (tree : ast) (lines : list string)
    (r : ReviewResult) :
  coverage_percent (_check_ast_patterns f tree lines r) = coverage_percent r.
Proof.
  unfold _check_ast_patterns. generalize (ast_walk tree). intros nodes. revert r.
  induction nodes as [|n rest IH]; intros r; [reflexivity|].
  simpl. rewrite IH. apply coverage_of_check_node.
Qed.

Lemma coverage_is_text_checks (f : Path) (content : string) (lines : list string)
    (st : Reviewer) :
  coverage_is c st ->
  coverage_is c (on_result (_check_ha_patterns f content lines)
                   (on_result (_check_security_issues f content lines) st)).
Proof.
  unfold coverage_is, on_result. cbn [result]. rewrite coverage_of_text_checks. auto.
Qed.

Lemma review_python_file_keeps (env : Env) (f : Path) (st : Reviewer) :
  coverage_is c st -> outcome_all (coverage_is c) (_review_python_file env f st).
Proof.
  intros H. unfold _review_python_file. apply outcome_all_catch; [|auto].
  destruct (read_text env (path_str f)) as [content|e]; [|exact H].
  cbv zeta. destruct (ast_parse env content) as [tree|lineno msg|e]; unfold outcome_all.
  - apply (coverage_is_text_checks f content (split_newline content)) in H.
    revert H. unfold coverage_is, on_result. cbn [result].
    rewrite coverage_of_ast_patterns. auto.
  - apply coverage_is_add_issue. apply coverage_is_text_checks. exact H.
  - apply coverage_is_text_checks. exact H.
Qed.

Lemma check_required_fields_keeps (path : string) (manifest : json)
    (fields : list string) (st : Reviewer) :
  coverage_is c st ->
  outcome_all (coverage_is c) (check_required_fields path manifest fields st).
Proof.
  revert st. induction fields as [|field rest IH]; intros st H; [exact H|].
  simpl. destruct (py_in field manifest) as [[|]|e]; [apply IH; exact H| |exact H].
  apply IH. apply coverage_is_add_issue. exact H.
Qed.

Lemma load_json_keeps (env : Env) (path : string) (st : Reviewer) (k : json -> outcome) :
  coverage_is c st ->
  (forall v, outcome_all (coverage_is c) (k v)) ->
  outcome_all (coverage_is c) (load_json env path st k).
Proof.
  intros H Hk. unfold load_json. destruct (read_text env path) as [text|e]; [|exact H].
  destruct (json_loads env text); [apply Hk | exact H].
Qed.

Lemma review_manifest_keeps (env : Env) (f : Path) (st : Reviewer) :
  coverage_is c st -> outcome_all (coverage_is c) (_review_manifest env f st).
Proof.
  intros H. unfold _review_manifest.
  apply outcome_all_catch; [|intros; apply coverage_is_add_issue; assumption].
  apply load_json_keeps; [exact H|]. intros manifest.
  apply outcome_all_bind; [apply check_required_fields_keeps; exact H|].
  intros st1 H1. destruct (py_get manifest "config_flow" (JBool false)) as [flag|e];
    [|exact H1].
  destruct (truthy flag); [exact H1 | apply coverage_is_add_issue; exact H1].
Qed.

Lemma review_strings_keeps (env : Env) (f : Path) (st : Reviewer) :
  coverage_is c st -> outcome_all (coverage_is c) (_review_strings env f st).
Proof.
  intros H. unfold _review_strings.
  apply outcome_all_catch; [|intros; apply coverage_is_add_issue; assumption].
  apply load_json_keeps; [exact H|]. intros _. exact H.
Qed.

Lemma review_each_keeps (env : Env) (files : list Path) (st : Reviewer) :
  coverage_is c st -> outcome_all (coverage_is c) (review_each env files st).
Proof.
  revert st. induction files as [|f rest IH]; intros st H; [exact H|].
  simpl. apply outcome_all_bind; [|exact IH].
  unfold review_file.
  destruct (String.eqb (suffix f) ".py"); [apply review_python_file_keeps; exact H|].
  destruct (String.eqb (name f) "manifest.json"); [apply review_manifest_keeps; exact H|].
  destruct (String.eqb (name f) "strings.json"); [apply review_strings_keeps; exact H|].
  exact H.
Qed.

Lemma run_keeps (env : Env) (inv : invocation) (st : Reviewer)
    (k : Z -> string -> outcome) :
  coverage_is c st ->
  (forall rc out, outcome_all (coverage_is c) (k rc out)) ->
  outcome_all (coverage_is c) (run env inv st k).
Proof.
  intros H Hk. unfold run. destruct (subprocess_run env inv); simpl; auto.
Qed.

Lemma run_linter_keeps (env : Env) (st : Reviewer) :
  coverage_is c st -> outcome_all (coverage_is c) (_run_linter env st).
Proof.
  intros H. unfold _run_linter. apply outcome_all_catch; [|auto].
  apply run_keeps; [exact H|]. intros rc _.
  destruct (rc =? 0)%Z; [exact H | apply coverage_is_add_issue; exact H].
Qed.

Lemma run_type_checker_keeps (env : Env) (st : Reviewer) :
  coverage_is c st -> outcome_all (coverage_is c) (_run_type_checker env st).
Proof.
  intros H. unfold _run_type_checker. apply outcome_all_catch; [|auto].
  apply run_keeps; [exact H|]. intros rc out.
  destruct (rc =? 0)%Z; [exact H|].
  destruct (0 <? count_error_lines out)%nat;
    [apply coverage_is_add_issue; exact H | exact H].
Qed.

End CoverageKept.

(** ** The steps of a run that returns *)

Lemma bind_returns (m : outcome) (k : Reviewer -> outcome) (s : Reviewer) :
  m >>= k = Returns s -> exists s0, m = Returns s0 /\ k s0 = Returns s.
Proof.
  destruct m as [s0|v s0|e s0|]; simpl; try discriminate.
  - eauto.
  - destruct (k s0); discriminate.
Qed.

Lemma phases_returns (env : Env) (files : list Path) (st s : Reviewer) :
  phases env files st = Returns s ->
  exists s1 s2 s3,
    review_each env files (on_result (set_files_reviewed (length files)) st)
    = Returns s1 /\
    _run_linter env s1 = Returns s2 /\
    _run_type_checker env s2 = Returns s3 /\
    _check_test_coverage env s3 = Returns s.
Proof.
  unfold phases. intros H.
  apply bind_returns in H. destruct H as (s3 & H & H4).
  apply bind_returns in H. destruct H as (s2 & H & H3).
  apply bind_returns in H. destruct H as (s1 & H1 & H2).
  exists s1, s2, s3. auto.
Qed.

(** With an object held in the field, the last step returns holding it or
    raises. *)
Lemma assess_holding_not_returns (env : Env) (v : json) (st st' : Reviewer) :
  _assess_quality_tier_holding env v st <> Returns st'.
Proof.
  unfold _assess_quality_tier_holding. destruct (as_number v); [discriminate|].
  destruct (has_blocking_issues (result st)); [discriminate|].
  destruct (negb (path_exists env (joinpath (root_path env) "tests"))); discriminate.
Qed.

Lemma review_files_returns_inv (env : Env) (files : list Path) (st st' : Reviewer) :
  review_files env files st = Returns st' ->
  exists s,
    review_each env files (on_result (set_files_reviewed (length files)) st)
    >>= _run_linter env >>= _run_type_checker env >>= _check_test_coverage env
    = Returns s /\
    st' = _assess_quality_tier env s.
Proof.
  fold (phases env files st). unfold review_files.
  destruct (phases env files st) as [s|v s|e s|]; simpl; try discriminate.
  - intros [= <-]. eauto.
  - intros H. exfalso. exact (assess_holding_not_returns env v s st' H).
Qed.

(** Without a summary file the coverage phase changes nothing in
    [self.result]. *)
Lemma check_test_coverage_without_summary (env : Env) (st : Reviewer) :
  path_exists env (coverage_file env) = false ->
  match tools env (argv pytest_invocation) with
  | ToolMissing => skipped (_check_test_coverage env st) st
  | ToolExits _ _ => _check_test_coverage env st = Returns st
  | ToolHangs => _check_test_coverage env st = Blocks
  end.
Proof.
  intros Hex. unfold _check_test_coverage, run, subprocess_run.
  destruct (tools env (argv pytest_invocation)); simpl.
  - apply print_err_skipped.
  - unfold coverage_file in Hex. rewrite Hex. reflexivity.
  - reflexivity.
Qed.

(** C10. When the coverage phase runs and no summary file exists after it,
    the phase emits no issue and no positive note and leaves
    [coverage_percent] as it was, which is the initial 0.0 in a run; it
    returns unless the test runner never exits.  A run that ends without a
    blocking issue is then tiered Bronze (needs testing). *)
Theorem unmeasured_coverage_needs_testing (env : Env) :
  path_exists env (coverage_file env) = false ->
  coverage_percent new_ReviewResult = PyFloat 0 /\
  (forall st st', _check_test_coverage env st = Returns st' ->
     result st' = result st) /\
  (forall st, tools env (argv pytest_invocation) <> ToolHangs ->
     exists st', _check_test_coverage env st = Returns st') /\
  (forall files st', review_files env files new_Reviewer = Returns st' ->
     coverage_percent (result st') = PyFloat 0 /\
     (has_blocking_issues (result st') = false ->
      quality_tier (result st') = "Bronze (needs testing)")).
Proof.
  intros Hex.
  assert (Hphase : forall st st', _check_test_coverage env st = Returns st' ->
                                  result st' = result st).
  { intros st st' H. pose proof (check_test_coverage_without_summary env st Hex) as W.
    destruct (tools env (argv pytest_invocation)).
    - destruct W as (s & Hs & Hr & _). congruence.
    - congruence.
    - congruence. }
  repeat apply conj.
  - reflexivity.
  - exact Hphase.
  - intros st Hh. pose proof (check_test_coverage_without_summary env st Hex) as W.
    destruct (tools env (argv pytest_invocation)).
    + destruct W as (s & Hs & _). exists s. exact Hs.
    + exists st. exact W.
    + congruence.
  - intros files st' Hrun. apply review_files_returns_inv in Hrun.
    destruct Hrun as (s4 & Hrun & ->). apply phases_returns in Hrun.
    destruct Hrun as (s1 & s2 & s3 & E1 & E2 & E3 & E4).
    pose proof (review_each_keeps (PyFloat 0) env files
                  (on_result (set_files_reviewed (length files)) new_Reviewer) eq_refl)
      as K1.
    rewrite E1 in K1.
    pose proof (run_linter_keeps (PyFloat 0) env s1 K1) as K2. rewrite E2 in K2.
    pose proof (run_type_checker_keeps (PyFloat 0) env s2 K2) as K3. rewrite E3 in K3.
    apply Hphase in E4.
    simpl in K3. unfold coverage_is in K3. rewrite <- E4 in K3.
    destruct (assess_quality_tier_frame env s4) as (Hb & _ & _ & _ & Hc & _).
    split; [rewrite Hc; exact K3|].
    unfold has_blocking_issues. rewrite Hb. fold (has_blocking_issues (result s4)).
    intros Hnb. unfold _assess_quality_tier. simpl. rewrite Hnb, K3. simpl.
    rewrite orb_true_r. reflexivity.
Qed.

Lemma unmeasured_coverage_needs_testing_witness :
  coverage_percent new_ReviewResult = PyFloat 0 /\
  exists st',
    review_files (Sample.with_tools (ToolExits 0 "") Sample.bare) [] new_Reviewer
    = Returns st' /\
    quality_tier (result st') = "Bronze (needs testing)".
Proof.
  destruct (unmeasured_coverage_needs_testing
              (Sample.with_tools (ToolExits 0 "") Sample.bare) eq_refl)
    as (H0 & _ & _ & Hrun).
  split; [exact H0|]. eexists. split; [reflexivity|].
  apply (Hrun [] _ eq_refl). reflexivity.
Defined.

(** ** Further facts about a run *)

(** [ast.walk] yields every node of the tree: the fuel of [ast_walk] is
    never used up. *)
Lemma walk_queue_length (fuel : nat) (todo : list ast) :
  (list_sum (map node_count todo) <= fuel)%nat ->
  length (walk_queue fuel todo) = list_sum (map node_count todo).
Proof.
  revert todo. induction fuel as [|fuel IH]; intros todo Hle.
  - destruct todo as [|[k cs] rest]; [reflexivity | simpl in Hle; lia].
  - destruct todo as [|[k cs] rest]; [reflexivity|].
    simpl in *. rewrite IH; rewrite map_app, list_sum_app; lia.
Qed.

Lemma ast_walk_length (t : ast) : length (ast_walk t) = node_count t.
Proof.
  unfold ast_walk. rewrite walk_queue_length; simpl; lia.
Qed.

(** [classify_coverage] leaves the recorded coverage as it is. *)
Lemma classify_coverage_keeps_percent (env : Env) (r r' : ReviewResult) :
  classify_coverage env r = inl r' -> coverage_percent r' = coverage_percent r.
Proof.
  unfold classify_coverage, formatted.
  destruct (format_1f env (coverage_percent r)) as [shown|e].
  - destruct (ge_80 (coverage_percent r)); [intros [= <-]; reflexivity|].
    destruct (ge_60 (coverage_percent r)); intros [= <-]; apply add_issue_frame.
  - destruct (ge_80 (coverage_percent r)); [discriminate|].
    destruct (ge_60 (coverage_percent r)); discriminate.
Qed.

(** A coverage that is not at least 60 and that formats is reported as a
    blocking issue. *)
Lemma classify_coverage_blocks (env : Env) (r r' : ReviewResult) :
  classify_coverage env r = inl r' ->
  ge_60 (coverage_percent r) = false ->
  has_blocking_issues r' = true.
Proof.
  unfold classify_coverage, formatted. intros H H60.
  assert (H80 : ge_80 (coverage_percent r) = false).
  { destruct (ge_80 (coverage_percent r)) eqn:E; [|reflexivity].
    apply ge_80_ge_60 in E. congruence. }
  rewrite H80, H60 in H.
  destruct (format_1f env (coverage_percent r)) as [shown|e]; [|discriminate].
  injection H as <-. apply has_blocking_issues_iff. simpl.
  intros E. apply app_eq_nil in E. destruct E as (_ & E). discriminate.
Qed.

Lemma classify_coverage_fails (env : Env) (r : ReviewResult) (e : exn) :
  classify_coverage env r = inr e -> converts_to_float (coverage_percent r) = false.
Proof.
  intros H. destruct (converts_to_float (coverage_percent r)) eqn:Hc; [|reflexivity].
  rewrite (classify_coverage_converts env r Hc) in H. discriminate.
Qed.

(** What the coverage phase can leave in [self.result] when it returns with
    a number in the field: nothing new; a recorded number and its note or
    issue; or a recorded int too large for a float and nothing else. *)
Lemma check_test_coverage_result (env : Env) (st st' : Reviewer) :
  _check_test_coverage env st = Returns st' ->
  result st' = result st \/
  exists p,
    classify_coverage env (set_coverage_percent p (result st)) = inl (result st') \/
    (converts_to_float p = false /\ result st' = set_coverage_percent p (result st)).
Proof.
  unfold _check_test_coverage, run, load_json.
  destruct (subprocess_run env pytest_invocation) as [rc out|e|]; simpl;
    [|intros [= <-]; auto|discriminate].
  destruct (path_exists env (joinpath (root_path env) "coverage.json"));
    [|intros [= <-]; auto].
  destruct (read_text env (joinpath (root_path env) "coverage.json")) as [text|e];
    simpl; [|intros [= <-]; auto].
  destruct (json_loads env text) as [data|msg]; simpl; [|intros [= <-]; auto].
  destruct (subscript2 data "totals" "percent_covered") as [v|e];
    simpl; [|intros [= <-]; auto].
  destruct (as_number v) as [p|] eqn:Hv; simpl; [|discriminate].
  destruct (classify_coverage env (set_coverage_percent p (result st))) as [r'|e] eqn:C;
    simpl.
  - destruct v; simpl; try discriminate. intros [= <-]. right. exists p. left.
    exact C.
  - intros [= <-]. right. exists p. right. split; [|reflexivity].
    apply (classify_coverage_fails env _ e C).
Qed.

(** In a run, the plain Bronze is out of reach for every coverage, NaN
    included: a coverage that is not at least 60 and no int was reported as
    a blocking issue by the coverage phase. *)
Lemma review_files_never_bronze (env : Env) (files : list Path) (st' : Reviewer) :
  review_files env files new_Reviewer = Returns st' ->
  quality_tier (result st') <> "Bronze".
Proof.
  intros Hrun. apply review_files_returns_inv in Hrun.
  destruct Hrun as (s4 & Hrun & ->). apply phases_returns in Hrun.
  destruct Hrun as (s1 & s2 & s3 & E1 & E2 & E3 & E4).
  pose proof (review_each_keeps (PyFloat 0) env files
                (on_result (set_files_reviewed (length files)) new_Reviewer) eq_refl)
    as K1.
  rewrite E1 in K1.
  pose proof (run_linter_keeps (PyFloat 0) env s1 K1) as K2. rewrite E2 in K2.
  pose proof (run_type_checker_keeps (PyFloat 0) env s2 K2) as K3. rewrite E3 in K3.
  fold (tier_after env s4).
  simpl in K3. unfold coverage_is in K3.
  destruct (is_nan (coverage_percent (result s4))) eqn:Hnan.
  2:{ pose proof (tier_after_of_number env s4 Hnan) as T. intros B. rewrite B in T.
      simpl in T. intuition discriminate. }
  apply check_test_coverage_result in E4. destruct E4 as [E | (p & [E | (Hc & E)])].
  - rewrite E, K3 in Hnan. discriminate.
  - pose proof (classify_coverage_keeps_percent env _ _ E) as Hp. simpl in Hp.
    rewrite Hp in Hnan. destruct (nan_not_ge p Hnan) as (H60 & H80).
    assert (Hb : has_blocking_issues (result s4) = true)
      by (apply (classify_coverage_blocks env _ _ E); exact H60).
    unfold tier_after, _assess_quality_tier. simpl. rewrite Hb. discriminate.
  - rewrite E in Hnan. simpl in Hnan. destruct p; simpl in *; discriminate.
Qed.

(** * Further properties *)

(** ** What every phase keeps

    The phases of a run change [self.result] through [add_issue], through an
    appended positive note and through the assignment of the coverage only:
    a property of the result that these three keep is kept by every phase,
    whether the phase returns or raises. *)

Section RunInvariant.

Variable P : ReviewResult -> Prop.
Hypothesis P_add_issue : forall i r, P r -> P (add_issue i r).
Hypothesis P_add_positive : forall s r, P r -> P (add_positive s r).
Hypothesis P_set_coverage : forall p r, P r -> P (set_coverage_percent p r).

Lemma kept_bind (m : outcome) (k : Reviewer -> outcome) :
  outcome_all (result_is P) m ->
  (forall st, result_is P st -> outcome_all (result_is P) (k st)) ->
  outcome_all (result_is P) (m >>= k).
Proof.
  destruct m; simpl; auto.
  intros H Hk. specialize (Hk _ H). destruct (k st); exact Hk.
Qed.

Lemma kept_catch (handles : exn -> bool) (m : outcome)
    (handler : exn -> Reviewer -> Reviewer) :
  outcome_all (result_is P) m ->
  (forall e st, result_is P st -> result_is P (handler e st)) ->
  outcome_all (result_is P) (catch handles m handler).
Proof. destruct m; simpl; auto. destruct (handles e); simpl; auto. Qed.

Lemma kept_on_add_issue (i : Issue) (st : Reviewer) :
  result_is P st -> result_is P (on_result (add_issue i) st).
Proof. unfold result_is. simpl. auto. Qed.

Lemma kept_on_add_positive (s : string) (st : Reviewer) :
  result_is P st -> result_is P (on_result (add_positive s) st).
Proof. unfold result_is. simpl. auto. Qed.

Lemma kept_add_issue_if (b : bool) (i : Issue) (r : ReviewResult) :
  P r -> P (add_issue_if b i r).
Proof. destruct b; simpl; auto. Qed.

Lemma kept_hardcoded (path : string) (lines : list string) (i : Z) (r : ReviewResult) :
  P r -> P (check_hardcoded_credentials path i lines r).
Proof.
  revert i r. induction lines as [|text rest IH]; intros i r H; [exact H|].
  simpl. apply IH. destruct (reports_credential path text); auto.
Qed.

Lemma kept_security (f : Path) (content : string) (lines : list string)
    (r : ReviewResult) :
  P r -> P (_check_security_issues f content lines r).
Proof.
  intros H. unfold _check_security_issues.
  repeat apply kept_add_issue_if. apply kept_hardcoded. exact H.
Qed.

Lemma kept_ha (f : Path) (content : string) (lines : list string) (r : ReviewResult) :
  P r -> P (_check_ha_patterns f content lines r).
Proof. intros H. unfold _check_ha_patterns. repeat apply kept_add_issue_if. exact H. Qed.

Lemma kept_check_node (path : string) (n : ast) (r : ReviewResult) :
  P r -> P (check_node path n r).
Proof.
  intros H. unfold check_node.
  destruct (kind_of n) as [fname [e|] l|[[id|]|] l|]; auto using kept_add_issue_if.
Qed.

Lemma kept_ast (f : Path) (tree : ast) (lines : list string) (r : ReviewResult) :
  P r -> P (_check_ast_patterns f tree lines r).
Proof.
  unfold _check_ast_patterns. generalize (ast_walk tree). intros ns. revert r.
  induction ns as [|n rest IH]; intros r H; [exact H|].
  simpl. apply IH. apply kept_check_node. exact H.
Qed.

Lemma kept_python_file (env : Env) (f : Path) (st : Reviewer) :
  result_is P st -> outcome_all (result_is P) (_review_python_file env f st).
Proof.
  intros H. unfold _review_python_file. apply kept_catch; [|auto].
  destruct (read_text env (path_str f)) as [content|e]; [|exact H].
  cbv zeta. destruct (ast_parse env content) as [tree|lineno msg|e];
    unfold outcome_all, result_is, on_result; cbn [result].
  - apply kept_ast, kept_ha, kept_security. exact H.
  - apply P_add_issue, kept_ha, kept_security. exact H.
  - apply kept_ha, kept_security. exact H.
Qed.

Lemma kept_required_fields (path : string) (manifest : json) (fields : list string)
    (st : Reviewer) :
  result_is P st ->
  outcome_all (result_is P) (check_required_fields path manifest fields st).
Proof.
  revert st. induction fields as [|field rest IH]; intros st H; [exact H|].
  simpl. destruct (py_in field manifest) as [[|]|e]; [apply IH; exact H| |exact H].
  apply IH. apply kept_on_add_issue. exact H.
Qed.

Lemma kept_load_json (env : Env) (path : string) (st : Reviewer) (k : json -> outcome) :
  result_is P st ->
  (forall v, outcome_all (result_is P) (k v)) ->
  outcome_all (result_is P) (load_json env path st k).
Proof.
  intros H Hk. unfold load_json. destruct (read_text env path) as [text|e]; [|exact H].
  destruct (json_loads env text); [apply Hk | exact H].
Qed.

Lemma kept_manifest (env : Env) (f : Path) (st : Reviewer) :
  result_is P st -> outcome_all (result_is P) (_review_manifest env f st).
Proof.
  intros H. unfold _review_manifest.
  apply kept_catch; [|intros; apply kept_on_add_issue; assumption].
  apply kept_load_json; [exact H|]. intros manifest.
  apply kept_bind; [apply kept_required_fields; exact H|].
  intros st1 H1. destruct (py_get manifest "config_flow" (JBool false)) as [flag|e];
    [|exact H1].
  destruct (truthy flag); [exact H1 | apply kept_on_add_issue; exact H1].
Qed.

Lemma kept_strings (env : Env) (f : Path) (st : Reviewer) :
  result_is P st -> outcome_all (result_is P) (_review_strings env f st).
Proof.
  intros H. unfold _review_strings.
  apply kept_catch; [|intros; apply kept_on_add_issue; assumption].
  apply kept_load_json; [exact H|]. intros _. apply kept_on_add_positive. exact H.
Qed.

Lemma kept_review_file (env : Env) (f : Path) (st : Reviewer) :
  result_is P st -> outcome_all (result_is P) (review_file env f st).
Proof.
  intros H. unfold review_file.
  destruct (String.eqb (suffix f) ".py"); [apply kept_python_file; exact H|].
  destruct (String.eqb (name f) "manifest.json"); [apply kept_manifest; exact H|].
  destruct (String.eqb (name f) "strings.json"); [apply kept_strings; exact H|].
  exact H.
Qed.

Lemma kept_review_each (env : Env) (files : list Path) (st : Reviewer) :
  result_is P st -> outcome_all (result_is P) (review_each env files st).
Proof.
  revert st. induction files as [|f rest IH]; intros st H; [exact H|].
  simpl. apply kept_bind; [apply kept_review_file; exact H | exact IH].
Qed.

Lemma kept_run (env : Env) (inv : invocation) (st : Reviewer)
    (k : Z -> string -> outcome) :
  result_is P st ->
  (forall rc out, outcome_all (result_is P) (k rc out)) ->
  outcome_all (result_is P) (run env inv st k).
Proof. intros H Hk. unfold run. destruct (subprocess_run env inv); simpl; auto. Qed.

Lemma kept_linter (env : Env) (st : Reviewer) :
  result_is P st -> outcome_all (result_is P) (_run_linter env st).
Proof.
  intros H. unfold _run_linter. apply kept_catch; [|auto].
  apply kept_run; [exact H|]. intros rc _.
  destruct (rc =? 0)%Z; [apply kept_on_add_positive | apply kept_on_add_issue]; exact H.
Qed.

Lemma kept_type_checker (env : Env) (st : Reviewer) :
  result_is P st -> outcome_all (result_is P) (_run_type_checker env st).
Proof.
  intros H. unfold _run_type_checker. apply kept_catch; [|auto].
  apply kept_run; [exact H|]. intros rc out.
  destruct (rc =? 0)%Z; [apply kept_on_add_positive; exact H|].
  destruct (0 <? count_error_lines out)%nat; [apply kept_on_add_issue; exact H | exact H].
Qed.

Lemma kept_classify (env : Env) (r r' : ReviewResult) :
  P r -> classify_coverage env r = inl r' -> P r'.
Proof.
  intros H. unfold classify_coverage, formatted.
  destruct (format_1f env (coverage_percent r)) as [shown|e].
  - destruct (ge_80 (coverage_percent r)); [intros [= <-]; auto|].
    destruct (ge_60 (coverage_percent r)); intros [= <-]; auto.
  - destruct (ge_80 (coverage_percent r)); [discriminate|].
    destruct (ge_60 (coverage_percent r)); discriminate.
Qed.

Lemma kept_coverage (env : Env) (st : Reviewer) :
  result_is P st -> outcome_all (result_is P) (_check_test_coverage env st).
Proof.
  intros H. unfold _check_test_coverage. apply kept_catch; [|auto].
  apply kept_run; [exact H|]. intros _ _. cbv zeta.
  destruct (path_exists env (joinpath (root_path env) "coverage.json")); [|exact H].
  apply kept_load_json; [exact H|]. intros data.
  destruct (subscript2 data "totals" "percent_covered") as [v|e]; [|exact H].
  destruct (as_number v) as [p|]; [|exact H].
  cbv zeta.
  destruct (classify_coverage env (result (on_result (set_coverage_percent p) st)))
    as [r'|e] eqn:C.
  - assert (Hr : P r').
    { apply (kept_classify env _ r' (P_set_coverage p _ H)). exact C. }
    destruct v; exact Hr.
  - unfold outcome_all, result_is, on_result. cbn [result].
    apply P_set_coverage. exact H.
Qed.

(** The files and the three tool phases, as [review_files] chains them. *)
Lemma kept_phases (env : Env) (files : list Path) (st : Reviewer) :
  result_is P st ->
  outcome_all (result_is P)
    (review_each env files st >>= _run_linter env >>= _run_type_checker env
     >>= _check_test_coverage env).
Proof.
  intros H. repeat apply kept_bind;
    auto using kept_review_each, kept_linter, kept_type_checker, kept_coverage.
Qed.

(** The last step keeps what a change of the tier keeps. *)
Lemma kept_assess (env : Env) (o : outcome) :
  (forall t r, P r -> P (set_quality_tier t r)) ->
  outcome_all (result_is P) o -> outcome_all (result_is P) (assess env o).
Proof.
  intros Ht. destruct o as [st|v st|e st|]; simpl; auto.
  - intros H. apply Ht. exact H.
  - intros H. unfold _assess_quality_tier_holding.
    destruct (as_number v); [apply Ht; exact H|].
    destruct (has_blocking_issues (result st)); [apply Ht; exact H|].
    destruct (negb (path_exists env (joinpath (root_path env) "tests")));
      [apply Ht; exact H | exact H].
Qed.

(** A run as a whole, from the state that counts its files. *)
Lemma kept_review_files (env : Env) (files : list Path) (st : Reviewer) :
  (forall t r, P r -> P (set_quality_tier t r)) ->
  result_is P (on_result (set_files_reviewed (length files)) st) ->
  outcome_all (result_is P) (review_files env files st).
Proof.
  intros Ht H. unfold review_files, phases. apply kept_assess; [exact Ht|].
  apply kept_phases. exact H.
Qed.

End RunInvariant.

(** ** A run as a whole *)

Lemma review_files_raises_inv (env : Env) (files : list Path) (st st' : Reviewer)
    (e : exn) :
  review_files env files st = Raises e st' ->
  review_each env files (on_result (set_files_reviewed (length files)) st)
  >>= _run_linter env >>= _run_type_checker env >>= _check_test_coverage env
  = Raises e st' \/
  exists v,
    review_each env files (on_result (set_files_reviewed (length files)) st)
    >>= _run_linter env >>= _run_type_checker env >>= _check_test_coverage env
    = ReturnsHolding v st'.
Proof.
  fold (phases env files st). unfold review_files.
  destruct (phases env files st) as [s|v s|e0 s|]; simpl; try discriminate.
  - unfold _assess_quality_tier_holding. destruct (as_number v); [discriminate|].
    destruct (has_blocking_issues (result s)); [discriminate|].
    destruct (negb (path_exists env (joinpath (root_path env) "tests")));
      [discriminate|].
    intros [= _ <-]. right. eauto.
  - intros [= <- <-]. left. reflexivity.
Qed.

(** A run that returns with a blocking issue has assigned Below Bronze,
    also with an object in the coverage field. *)
Lemma returned_blocking_tier (env : Env) (files : list Path) (st st' : Reviewer) :
  returns_in (review_files env files st) st' ->
  blocking (result st') <> [] -> quality_tier (result st') = "Below Bronze".
Proof.
  assert (T : forall s, blocking (result (_assess_quality_tier env s)) <> [] ->
              quality_tier (result (_assess_quality_tier env s)) = "Below Bronze").
  { intros s Hb. unfold _assess_quality_tier in *. simpl in *.
    apply has_blocking_issues_iff in Hb. rewrite Hb. reflexivity. }
  intros [H | (v & H)] Hb.
  - apply review_files_returns_inv in H. destruct H as (s & _ & ->). apply T. exact Hb.
  - unfold review_files in H.
    destruct (phases env files st) as [s|v0 s|e s|]; simpl in H; try discriminate.
    unfold _assess_quality_tier_holding in H. destruct (as_number v0).
    + injection H as _ <-. apply T. exact Hb.
    + destruct (has_blocking_issues (result s)) eqn:B.
      * injection H as _ <-. reflexivity.
      * destruct (negb (path_exists env (joinpath (root_path env) "tests")));
          [|discriminate].
        injection H as _ <-. simpl in Hb. apply has_blocking_issues_iff in Hb.
        congruence.
Qed.

Lemma extends_refl (r : ReviewResult) : extends r r.
Proof. repeat split; exists []; rewrite app_nil_r; reflexivity. Qed.

Lemma extends_add_issue (r0 : ReviewResult) (i : Issue) (r : ReviewResult) :
  extends r0 r -> extends r0 (add_issue i r).
Proof.
  intros ((b & Hb) & (w & Hw) & (n & Hn) & (p & Hp)).
  unfold extends, add_issue. destruct (severity i); simpl; rewrite ?Hb, ?Hw, ?Hn, ?Hp;
    repeat split; rewrite <- ?app_assoc; eauto.
Qed.

Lemma extends_add_positive (r0 : ReviewResult) (s : string) (r : ReviewResult) :
  extends r0 r -> extends r0 (add_positive s r).
Proof.
  intros ((b & Hb) & (w & Hw) & (n & Hn) & (p & Hp)).
  unfold extends. simpl. rewrite Hp, <- app_assoc. repeat split; eauto.
Qed.

Lemma extends_set_coverage (r0 : ReviewResult) (p : number) (r : ReviewResult) :
  extends r0 r -> extends r0 (set_coverage_percent p r).
Proof. unfold extends. simpl. auto. Qed.

(** X1. A run only appends: when [review_files] returns or raises, every
    bucket and the positive notes of the state it started from are still
    there, in the same order, at the front of the final ones.  Nothing a
    detector or a tool phase recorded is removed or reordered later; so a
    blocking issue present at the start leaves the run Below Bronze. *)
Theorem review_files_only_appends (env : Env) (files : list Path) (st : Reviewer) :
  (forall st', returns_in (review_files env files st) st' ->
     extends (result st) (result st') /\
     (blocking (result st) <> [] -> quality_tier (result st') = "Below Bronze")) /\
  (forall e st', review_files env files st = Raises e st' ->
     extends (result st) (result st')).
Proof.
  pose proof (kept_review_files (extends (result st)) (extends_add_issue (result st))
                (extends_add_positive (result st)) (extends_set_coverage (result st))
                env files st (fun _ _ H => H) (extends_refl (result st))) as K.
  split.
  - intros st' H.
    assert (E : extends (result st) (result st')).
    { destruct H as [H | (v & H)]; rewrite H in K; exact K. }
    split; [exact E|].
    intros Hne. apply (returned_blocking_tier env files st st' H).
    destruct E as ((l & Hb) & _). rewrite Hb.
    intros E. apply app_eq_nil in E. destruct E as (E & _). exact (Hne E).
  - intros e st' H. rewrite H in K. exact K.
Qed.

Lemma review_files_only_appends_witness :
  quality_tier
    (result (state_of
               (review_files (Sample.measured (PyFloat 99) "99.0") []
                  (Sample.reviewer [Sample.issue BLOCKING] [] (PyFloat 0)))))
  = "Below Bronze".
Proof.
  apply (proj1 (review_files_only_appends (Sample.measured (PyFloat 99) "99.0") []
                  (Sample.reviewer [Sample.issue BLOCKING] [] (PyFloat 0)))).
  - left. vm_compute. reflexivity.
  - discriminate.
Defined.

Lemma sorted_add_issue (i : Issue) (r : ReviewResult) :
  sorted_by_severity r -> sorted_by_severity (add_issue i r).
Proof.
  intros (Hb & Hw & Hn). unfold sorted_by_severity, add_issue.
  destruct (severity i) eqn:E; simpl; repeat split; auto;
    apply Forall_app; split; auto.
Qed.

(** X2. Each bucket holds issues of its own severity only, and a run keeps
    it so: if the three buckets are sorted by severity before
    [review_files], as they are in a fresh [ReviewResult], they are sorted
    when it returns.  So the run had a blocking issue exactly when its result
    holds an issue of severity blocking in any bucket. *)
Theorem review_files_keeps_buckets_sorted (env : Env) (files : list Path)
    (st st' : Reviewer) :
  sorted_by_severity (result st) ->
  returns_in (review_files env files st) st' ->
  sorted_by_severity (result st') /\
  (has_blocking_issues (result st') = true <->
   exists i, In i (blocking (result st') ++ warnings (result st') ++ nitpicks (result st'))
             /\ severity i = BLOCKING).
Proof.
  intros Hs H.
  pose proof (kept_review_files sorted_by_severity sorted_add_issue
                (fun _ _ H => H) (fun _ _ H => H)
                env files st (fun _ _ H => H) Hs) as K.
  assert (S' : sorted_by_severity (result st')).
  { destruct H as [H | (v & H)]; rewrite H in K; exact K. }
  split; [exact S'|].
  destruct S' as (Hb & Hw & Hn). rewrite has_blocking_issues_iff. split.
  - intros Hne. destruct (blocking (result st')) as [|i l] eqn:E;
      [congruence|].
    exists i. split; [left; reflexivity|]. inversion Hb; assumption.
  - intros (i & Hin & Hsev) E. rewrite E in Hin. simpl in Hin.
    apply in_app_or in Hin. destruct Hin as [Hin | Hin].
    + rewrite Forall_forall in Hw. apply Hw in Hin. congruence.
    + rewrite Forall_forall in Hn. apply Hn in Hin. congruence.
Qed.

Lemma review_files_keeps_buckets_sorted_witness :
  sorted_by_severity
    (result (state_of
               (review_files (Sample.with_tools (ToolExits 1 Sample.mypy_output) Sample.bare)
                  [] new_Reviewer))).
Proof.
  apply (review_files_keeps_buckets_sorted
           (Sample.with_tools (ToolExits 1 Sample.mypy_output) Sample.bare) []
           new_Reviewer).
  - repeat split; constructor.
  - left. vm_compute. reflexivity.
Defined.

(** X3. [files_reviewed] counts every file handed to [review_files], also
    the ones of no reviewed kind and the ones that could not be read: when
    the run returns, it is the length of the list. *)
Theorem review_files_counts_files (env : Env) (files : list Path) (st st' : Reviewer) :
  returns_in (review_files env files st) st' ->
  files_reviewed (result st') = length files.
Proof.
  intros H.
  pose proof (kept_review_files (fun r => files_reviewed r = length files)
                (fun i r H => eq_trans (proj2 (proj2 (proj2 (add_issue_frame i r)))) H)
                (fun _ _ H => H) (fun _ _ H => H)
                env files st (fun _ _ H => H) eq_refl) as K.
  destruct H as [H | (v & H)]; rewrite H in K; exact K.
Qed.

Lemma review_files_counts_files_witness :
  files_reviewed
    (result (state_of
               (review_files Sample.bare
                  [Sample.api_py;
                   {| path_str := "README.md"; name := "README.md"; suffix := ".md" |}]
                  new_Reviewer)))
  = 2%nat.
Proof.
  apply (review_files_counts_files Sample.bare
           [Sample.api_py;
            {| path_str := "README.md"; name := "README.md"; suffix := ".md" |}]
           new_Reviewer).
  left. vm_compute. reflexivity.
Defined.

Lemma length_zero_nil (A : Type) (l : list A) : (length l =? 0)%nat = true <-> l = [].
Proof. destruct l; simpl; split; congruence. Qed.

Lemma no_blocking_iff (r : ReviewResult) :
  has_blocking_issues r = false <-> blocking r = [].
Proof. unfold has_blocking_issues. destruct (blocking r); cbn; split; congruence. Qed.

Lemma tier_gold_iff (env : Env) (st : Reviewer) :
  tier_after env st = "Gold" <->
  blocking (result st) = [] /\ path_exists env (tests_dir env) = true /\
  ge_80 (coverage_percent (result st)) = true /\ warnings (result st) = [].
Proof.
  unfold tier_after, _assess_quality_tier, tests_dir. simpl.
  rewrite <- no_blocking_iff.
  destruct (has_blocking_issues (result st)).
  { split; [discriminate|]. intros (H & _). discriminate. }
  destruct (path_exists env (joinpath (root_path env) "tests")); simpl.
  2:{ split; [discriminate|]. intros (_ & H & _). discriminate. }
  destruct (ge_80 (coverage_percent (result st))) eqn:H80.
  - rewrite (ge_80_not_lt_60 _ H80). simpl.
    destruct (length (warnings (result st)) =? 0)%nat eqn:W.
    + apply length_zero_nil in W. split; [|reflexivity]. intros _. auto.
    + assert (warnings (result st) <> []).
      { intros E. apply length_zero_nil in E. congruence. }
      destruct (ge_60 (coverage_percent (result st))); split; try discriminate;
        intros (_ & _ & _ & E); contradiction.
  - destruct (lt_60 (coverage_percent (result st))); simpl;
      [|destruct (ge_60 (coverage_percent (result st)))];
      split; try discriminate; intros (_ & _ & E & _); discriminate.
Qed.

Lemma tier_silver_iff (env : Env) (st : Reviewer) :
  tier_after env st = "Silver" <->
  blocking (result st) = [] /\ path_exists env (tests_dir env) = true /\
  ge_60 (coverage_percent (result st)) = true /\
  (ge_80 (coverage_percent (result st)) = false \/ warnings (result st) <> []).
Proof.
  unfold tier_after, _assess_quality_tier, tests_dir. simpl.
  rewrite <- no_blocking_iff.
  destruct (has_blocking_issues (result st)).
  { split; [discriminate|]. intros (H & _). discriminate. }
  destruct (path_exists env (joinpath (root_path env) "tests")); simpl.
  2:{ split; [discriminate|]. intros (_ & H & _). discriminate. }
  destruct (ge_60 (coverage_percent (result st))) eqn:H60.
  - rewrite (ge_60_not_lt_60 _ H60). simpl.
    destruct (ge_80 (coverage_percent (result st))); simpl.
    + destruct (length (warnings (result st)) =? 0)%nat eqn:W.
      * apply length_zero_nil in W. split; [discriminate|].
        intros (_ & _ & _ & [E | E]); [discriminate | contradiction].
      * split; [|reflexivity]. intros _. repeat split.
        right. intros E. apply length_zero_nil in E. congruence.
    + split; [|reflexivity]. intros _. auto.
  - destruct (lt_60 (coverage_percent (result st))); simpl;
      [|destruct (ge_80 (coverage_percent (result st)) && _)];
      split; try discriminate; intros (_ & _ & E & _); discriminate.
Qed.

(** X4. Read backwards, the tier tells what the result holds.  Below Bronze
    is assigned exactly when there is a blocking issue; Gold exactly when
    there is none, the tests directory exists, the coverage is at least 80
    and there is no warning; Silver exactly when there is no blocking issue,
    the tests directory exists, the coverage is at least 60, and it is under
    80 or there is a warning.  A warning never costs more than the step from
    Gold to Silver. *)
Theorem tier_after_characterised (env : Env) (st : Reviewer) :
  let r := result st in
  (tier_after env st = "Below Bronze" <-> blocking r <> []) /\
  (tier_after env st = "Gold" <->
   blocking r = [] /\ path_exists env (tests_dir env) = true /\
   ge_80 (coverage_percent r) = true /\ warnings r = []) /\
  (tier_after env st = "Silver" <->
   blocking r = [] /\ path_exists env (tests_dir env) = true /\
   ge_60 (coverage_percent r) = true /\
   (ge_80 (coverage_percent r) = false \/ warnings r <> [])) /\
  (tier_after env st = "Gold" ->
   forall w, tier_after env (on_result (set_warnings (w :: warnings r)) st) = "Silver").
Proof.
  intros r. split; [|split; [|split]].
  - unfold tier_after, _assess_quality_tier. simpl. fold r.
    rewrite <- has_blocking_issues_iff.
    destruct (has_blocking_issues r); [split; reflexivity|].
    split; [|discriminate].
    destruct (negb _ || lt_60 _); [discriminate|].
    destruct (ge_80 _ && _); [discriminate|].
    destruct (ge_60 _); discriminate.
  - apply tier_gold_iff.
  - apply tier_silver_iff.
  - intros H w. apply tier_gold_iff in H. destruct H as (H1 & H2 & H3 & H4).
    apply tier_silver_iff. simpl. repeat split; auto using ge_80_ge_60.
    right. discriminate.
Qed.

Lemma tier_after_characterised_witness :
  tier_after Sample.bare
    (on_result (set_warnings [Sample.issue WARNING])
       (Sample.reviewer [] [] (PyFloat 91.5)))
  = "Silver".
Proof.
  apply (proj2 (proj2 (proj2 (tier_after_characterised Sample.bare
                                (Sample.reviewer [] [] (PyFloat 91.5)))))).
  reflexivity.
Defined.

(** The state after a coverage phase that measured [p]. *)
Lemma measured_state (env : Env) (st s : Reviewer) (p : number) :
  coverage_tool_yields env p ->
  _check_test_coverage env st = Returns s ->
  coverage_percent (result s) = p /\
  (ge_60 p = false -> converts_to_float p = true ->
   has_blocking_issues (result s) = true).
Proof.
  intros Y. rewrite (check_test_coverage_number env st p Y).
  destruct (classify_coverage env (set_coverage_percent p (result st))) as [r'|e] eqn:C;
    intros [= <-]; simpl.
  - split; [exact (classify_coverage_keeps_percent env _ _ C)|].
    intros H60 _. exact (classify_coverage_blocks env _ _ C H60).
  - split; [reflexivity|]. intros _ Hc.
    apply classify_coverage_fails in C. simpl in C. congruence.
Qed.

(** X5. In a run whose coverage was measured as p, the final
    [coverage_percent] is p, and the tier agrees with the coverage phase.
    A coverage that is not at least 60 (under 60, or NaN) ends Below Bronze
    whenever it formats with one decimal, because the phase reported it as a
    blocking issue, and Below Bronze or Bronze (needs testing) in any case.
    A coverage that is not at least 80 never ends Gold.  The tier Bronze
    (needs testing) means that the tests directory is missing, or that the
    coverage is an int under 60 that converts to no float. *)
Theorem measured_coverage_in_run (env : Env) (files : list Path) (st st' : Reviewer)
    (p : number) :
  coverage_tool_yields env p ->
  review_files env files st = Returns st' ->
  coverage_percent (result st') = p /\
  (ge_60 p = false -> converts_to_float p = true ->
   quality_tier (result st') = "Below Bronze") /\
  (ge_60 p = false ->
   In (quality_tier (result st')) ["Below Bronze"; "Bronze (needs testing)"]) /\
  (ge_80 p = false -> quality_tier (result st') <> "Gold") /\
  (quality_tier (result st') = "Bronze (needs testing)" ->
   path_exists env (tests_dir env) = false \/
   (lt_60 p = true /\ converts_to_float p = false)).
Proof.
  intros Y H. apply review_files_returns_inv in H. destruct H as (s & Hrun & ->).
  apply bind_returns in Hrun. destruct Hrun as (s3 & _ & Hrun).
  destruct (measured_state env s3 s p Y Hrun) as (Hp & Hblock).
  fold (tier_after env s). clear Hrun. split; [exact Hp|]. split; [|split; [|split]].
  - intros H60 Hc. unfold tier_after, _assess_quality_tier. simpl.
    rewrite (Hblock H60 Hc). reflexivity.
  - intros H60. unfold tier_after, _assess_quality_tier. simpl. rewrite Hp.
    destruct (has_blocking_issues (result s)) eqn:B; [left; reflexivity|].
    destruct (negb (path_exists env (joinpath (root_path env) "tests"))); simpl;
      [right; left; reflexivity|].
    destruct (lt_60 p) eqn:L; [right; left; reflexivity|].
    destruct (is_nan p) eqn:N.
    + destruct p as [z|f]; [discriminate N|].
      discriminate (Hblock H60 eq_refl).
    + rewrite (not_lt_60_ge_60 p N L) in H60. discriminate H60.
  - intros H80 G. apply tier_gold_iff in G. destruct G as (_ & _ & G & _).
    rewrite Hp in G. congruence.
  - unfold tier_after, _assess_quality_tier, tests_dir. simpl. rewrite Hp.
    destruct (has_blocking_issues (result s)) eqn:B; [intros H; discriminate H|].
    destruct (path_exists env (joinpath (root_path env) "tests")); [|left; reflexivity].
    simpl. destruct (lt_60 p) eqn:L.
    + intros _. right. split; [reflexivity|].
      destruct (converts_to_float p) eqn:Hc; [|reflexivity].
      discriminate (Hblock (lt_60_not_ge_60 p L) eq_refl).
    + destruct (ge_80 p && _); [intros H; discriminate H|].
      destruct (ge_60 p); intros H; discriminate H.
Qed.

Lemma measured_coverage_in_run_witness :
  quality_tier
    (result (state_of (review_files (Sample.measured (PyFloat 42) "42.0") []
                         new_Reviewer)))
  = "Below Bronze".
Proof.
  assert (Y : coverage_tool_yields (Sample.measured (PyFloat 42) "42.0") (PyFloat 42)).
  { split; [exists 0%Z, ""; reflexivity|]. split; [reflexivity|].
    exists "", (Sample.coverage_summary (PyFloat 42)). repeat split. }
  apply (proj1 (proj2 (measured_coverage_in_run (Sample.measured (PyFloat 42) "42.0") []
                         new_Reviewer _ (PyFloat 42) Y ltac:(vm_compute; reflexivity)))).
  - reflexivity.
  - reflexivity.
Defined.

Lemma fresh_run_tier (env : Env) (files : list Path) (st' : Reviewer) :
  review_files env files new_Reviewer = Returns st' ->
  In (quality_tier (result st'))
    ["Below Bronze"; "Bronze (needs testing)"; "Gold"; "Silver"].
Proof.
  intros Hrun. apply review_files_returns_inv in Hrun. destruct Hrun as (s & Hrun & ->).
  apply phases_returns in Hrun. destruct Hrun as (s1 & s2 & s3 & E1 & E2 & E3 & E4).
  pose proof (review_each_keeps (PyFloat 0) env files
                (on_result (set_files_reviewed (length files)) new_Reviewer) eq_refl)
    as K1.
  rewrite E1 in K1.
  pose proof (run_linter_keeps (PyFloat 0) env s1 K1) as K2. rewrite E2 in K2.
  pose proof (run_type_checker_keeps (PyFloat 0) env s2 K2) as K3. rewrite E3 in K3.
  simpl in K3. unfold coverage_is in K3. fold (tier_after env s).
  destruct (is_nan (coverage_percent (result s))) eqn:Hnan;
    [|apply tier_after_of_number; exact Hnan].
  apply check_test_coverage_result in E4. destruct E4 as [E | (p & [E | (Hc & E)])].
  - rewrite E, K3 in Hnan. discriminate.
  - pose proof (classify_coverage_keeps_percent env _ _ E) as Hp. simpl in Hp.
    rewrite Hp in Hnan. destruct (nan_not_ge p Hnan) as (H60 & _).
    unfold tier_after, _assess_quality_tier. simpl.
    rewrite (classify_coverage_blocks env _ _ E H60). left. reflexivity.
  - rewrite E in Hnan. simpl in Hnan. destruct p; simpl in *; discriminate.
Qed.

(** ** Substrings and searches *)

Lemma prefix_split (p s : string) :
  String.prefix p s = true <-> exists rest, s = p ++ rest.
Proof.
  revert s. induction p as [|c p IH]; intros s.
  - split; [intros _; exists s; reflexivity | intros _; destruct s; reflexivity].
  - destruct s as [|d s]; [split; [discriminate | intros (r & E); discriminate]|].
    simpl. destruct (Ascii.ascii_dec c d) as [<- | N].
    + rewrite IH. split; intros (r & E); exists r; congruence.
    + split; [discriminate | intros (r & E); congruence].
Qed.

Lemma contains_of_prefix (needle s : string) :
  String.prefix needle s = true -> contains needle s = true.
Proof. intros H. destruct s; cbn [contains]; rewrite H; reflexivity. Qed.

Lemma contains_split (needle s : string) :
  contains needle s = true <-> exists before after, s = before ++ needle ++ after.
Proof.
  split.
  - induction s as [|c s IH]; cbn [contains].
    + destruct (String.prefix needle "") eqn:E; [|discriminate].
      intros _. apply prefix_split in E. destruct E as (r & E).
      exists "", r. exact E.
    + destruct (String.prefix needle (String c s)) eqn:E.
      * intros _. apply prefix_split in E. destruct E as (r & E).
        exists "", r. exact E.
      * intros H. destruct (IH H) as (b & a & ->). exists (String c b), a. reflexivity.
  - intros (b & a & ->). induction b as [|c b IH].
    + apply contains_of_prefix. apply prefix_split. exists a. reflexivity.
    + change (String c b ++ needle ++ a) with (String c (b ++ needle ++ a)).
      cbn [contains]. destruct (String.prefix needle (String c (b ++ needle ++ a)));
        [reflexivity | exact IH].
Qed.

(** An expression that matches an ASCII text is found in every text that
    holds it. *)
Lemma search_found (r : regex) (found before after : string) :
  is_ascii found = true -> found <> EmptyString ->
  fullmatch r found = true -> search r (before ++ found ++ after) = true.
Proof.
  intros Ha Hne H. apply search_in_lang.
  exists (code_points before), (code_points found), (code_points after).
  split; [apply code_points_around_ascii; assumption | apply fullmatch_in_lang; exact H].
Qed.

Lemma search_alt (a b : regex) (s : string) :
  search (Alt a b) s = true <-> search a s = true \/ search b s = true.
Proof.
  rewrite !search_in_lang. split.
  - intros (x & y & z & E & H). apply in_Alt_inv in H.
    destruct H as [H | H]; [left | right]; exists x, y, z; auto.
  - intros [(x & y & z & E & H) | (x & y & z & E & H)]; exists x, y, z;
      split; auto; [apply in_Alt_l | apply in_Alt_r]; exact H.
Qed.

(** A literal ASCII character is found exactly in the texts that hold its
    byte. *)
Lemma search_chr (c : ascii) (s : string) :
  (byte c < 128)%N ->
  search (chr c) s = true <-> contains (String c "") s = true.
Proof.
  intros Hc. rewrite search_in_lang, contains_split. split.
  - intros (x & y & z & E & H). apply in_Cls_inv in H. destruct H as (d & -> & Hd).
    apply N.eqb_eq in Hd. subst d.
    apply (ascii_point_is_byte c s Hc). rewrite E. apply in_or_app. right. left.
    reflexivity.
  - intros (x & z & ->). exists (code_points x), [byte c], (code_points z).
    split.
    + rewrite (code_points_around_ascii x (String c "") z);
        [rewrite (code_points_ascii c "" Hc); reflexivity | | discriminate].
      simpl. apply N.ltb_lt in Hc. rewrite Hc. reflexivity.
    + constructor. apply N.eqb_refl.
Qed.

(** ** The text checks, file by file *)

Lemma add_issue_if_blocking (b : bool) (x : Issue) (r : ReviewResult) :
  severity x = BLOCKING ->
  blocking (add_issue_if b x r) = (blocking r ++ if b then [x] else [])%list /\
  warnings (add_issue_if b x r) = warnings r /\
  nitpicks (add_issue_if b x r) = nitpicks r /\
  positives (add_issue_if b x r) = positives r.
Proof.
  intros Hs. destruct b; simpl; [|rewrite app_nil_r; auto].
  unfold add_issue. rewrite Hs. auto.
Qed.

(** X8. The SQL rule of [_check_security_issues] fires on every file that
    holds a percent sign anywhere: its pattern is an alternation whose second
    branch is the percent sign alone.  The pattern is found exactly when the
    text holds a percent sign or the call pattern of the first branch, and a
    file with a percent sign gets the blocking issue Potential SQL
    Injection. *)
Theorem sql_rule_fires_on_percent (f : Path) (content : string) (lines : list string)
    (r : ReviewResult) :
  (search security_patterns.sql_injection content = true <->
   search (seqs [alts [ilit "execute"; ilit "executemany"; ilit "query"];
                 spaces; chr "("; spaces; quote; Star dot; chr "{"]) content = true
   \/ contains "%" content = true) /\
  (contains "%" content = true ->
   In (sql_injection_issue (path_str f))
     (blocking (_check_security_issues f content lines r))).
Proof.
  assert (E : search security_patterns.sql_injection content = true <->
              search (seqs [alts [ilit "execute"; ilit "executemany"; ilit "query"];
                            spaces; chr "("; spaces; quote; Star dot; chr "{"])
                content = true
              \/ contains "%" content = true).
  { unfold security_patterns.sql_injection.
    rewrite search_alt, search_chr by (vm_compute; reflexivity). reflexivity. }
  split; [exact E|].
  intros H. unfold _check_security_issues.
  set (r1 := check_hardcoded_credentials (path_str f) 1 lines r).
  destruct (add_issue_if_blocking (search security_patterns.shell_injection content)
              (shell_injection_issue (path_str f))
              (add_issue_if (search_at_word_start security_patterns.eval_usage content)
                 (eval_issue (path_str f))
                 (add_issue_if (search security_patterns.sql_injection content)
                    (sql_injection_issue (path_str f)) r1)) eq_refl) as (-> & _).
  destruct (add_issue_if_blocking
              (search_at_word_start security_patterns.eval_usage content)
              (eval_issue (path_str f))
              (add_issue_if (search security_patterns.sql_injection content)
                 (sql_injection_issue (path_str f)) r1) eq_refl) as (-> & _).
  destruct (add_issue_if_blocking (search security_patterns.sql_injection content)
              (sql_injection_issue (path_str f)) r1 eq_refl) as (-> & _).
  replace (search security_patterns.sql_injection content) with true
    by (symmetry; apply E; right; exact H).
  rewrite !in_app_iff. left. left. right. left. reflexivity.
Qed.

Lemma sql_rule_fires_on_percent_witness :
  In (sql_injection_issue "custom_components/hub/api.py")
    (blocking (_check_security_issues Sample.api_py "share = 100 * part % total"
                 ["share = 100 * part % total"] new_ReviewResult)).
Proof.
  apply (sql_rule_fires_on_percent Sample.api_py "share = 100 * part % total"
           ["share = 100 * part % total"] new_ReviewResult).
  reflexivity.
Defined.

(** X9. [_check_ha_patterns] looks at the file as a whole.  A file without
    the text [async def] is left alone.  A file that holds [async def] and,
    anywhere, [time.sleep(] gets the blocking issue Blocking Sleep in Async
    Function, whether or not the call is inside the async function.  The
    check adds at most two issues, all blocking, of category async and
    without a line number, and touches no other bucket. *)
Theorem check_ha_patterns_whole_file (f : Path) (content : string) (lines : list string)
    (r : ReviewResult) :
  let r' := _check_ha_patterns f content lines r in
  (contains "async def" content = false -> r' = r) /\
  (contains "async def" content = true -> contains "time.sleep(" content = true ->
   In (blocking_sleep_issue (path_str f)) (blocking r')) /\
  (exists added,
     blocking r' = (blocking r ++ added)%list /\
     (length added <= 2)%nat /\
     Forall (fun i => severity i = BLOCKING /\ category i = ASYNC /\ line i = None) added) /\
  warnings r' = warnings r /\ nitpicks r' = nitpicks r /\ positives r' = positives r.
Proof.
  intros r'. unfold r', _check_ha_patterns.
  set (b1 := contains "async def" content
             && search security_patterns.requests_in_async content).
  set (b2 := contains "async def" content && search ha_patterns.blocking_sleep content).
  destruct (add_issue_if_blocking b2 (blocking_sleep_issue (path_str f))
              (add_issue_if b1 (blocking_io_issue (path_str f)) r) eq_refl)
    as (B2 & W2 & N2 & P2).
  destruct (add_issue_if_blocking b1 (blocking_io_issue (path_str f)) r eq_refl)
    as (B1 & W1 & N1 & P1).
  split; [|split; [|split]].
  - intros H. unfold b1, b2. rewrite H. reflexivity.
  - intros Ha Hs. rewrite B2. apply in_or_app. right.
    replace b2 with true; [left; reflexivity|].
    unfold b2. rewrite Ha. simpl. symmetry.
    apply contains_split in Hs. destruct Hs as (x & z & ->).
    apply search_found; [reflexivity | discriminate | reflexivity].
  - exists ((if b1 then [blocking_io_issue (path_str f)] else [])
            ++ (if b2 then [blocking_sleep_issue (path_str f)] else []))%list.
    rewrite B2, B1, <- app_assoc. split; [reflexivity|].
    destruct b1, b2; simpl; split; auto; repeat constructor.
  - rewrite W2, W1, N2, N1, P2, P1. auto.
Qed.

Lemma check_ha_patterns_whole_file_witness :
  In (blocking_sleep_issue "custom_components/hub/api.py")
    (blocking (_check_ha_patterns Sample.api_py
                 "def wait(): time.sleep(1); async def go(): pass" [] new_ReviewResult)).
Proof.
  apply (check_ha_patterns_whole_file Sample.api_py
           "def wait(): time.sleep(1); async def go(): pass" [] new_ReviewResult);
    reflexivity.
Defined.

Lemma credential_lines_test_path (path : string) (lines : list string) (i : Z) :
  contains "test" (lower path) = true -> credential_lines path i lines = [].
Proof.
  intros H. revert i. induction lines as [|text rest IH]; intros i; [reflexivity|].
  simpl. unfold reports_credential. rewrite H. simpl.
  destruct (search security_patterns.hardcoded_key text); apply IH.
Qed.

Lemma credential_lines_sorted (path : string) (lines : list string) (i : Z) :
  StronglySorted Z.lt (credential_lines path i lines) /\
  Forall (fun k => (i <= k < i + Z.of_nat (length lines))%Z) (credential_lines path i lines).
Proof.
  revert i. induction lines as [|text rest IH]; intros i; [split; constructor|].
  destruct (IH (i + 1)%Z) as (S1 & B1).
  assert (B : Forall (fun k => (i + 1 <= k < i + Z.of_nat (length (text :: rest)))%Z)
                (credential_lines path (i + 1) rest)).
  { eapply Forall_impl; [|exact B1]. intros k Hk. cbv beta in *. clear - Hk. simpl length in *. lia. }
  simpl credential_lines. destruct (reports_credential path text).
  - split.
    + constructor; [exact S1|]. eapply Forall_impl; [|exact B]. intros k Hk. cbv beta in *. clear - Hk. simpl length in *. lia.
    + constructor; [clear; simpl length; lia|].
      eapply Forall_impl; [|exact B]. intros k Hk. cbv beta in *. clear - Hk. simpl length in *. lia.
  - split; [exact S1|]. eapply Forall_impl; [|exact B]. intros k Hk. cbv beta in *. clear - Hk. simpl length in *. lia.
Qed.

(** X10. The credential rule over a whole file.  A file whose path holds
    [test] in any letter case gets no credential issue, whatever its lines
    hold.  Any other file gets at most one credential issue per line, and
    the issues come in the order of the lines, each with the number of its
    line counted from 1. *)
Theorem credential_rule_over_file (path : string) (lines : list string)
    (r : ReviewResult) :
  let r' := check_hardcoded_credentials path 1 lines r in
  (contains "test" (lower path) = true -> r' = r) /\
  (exists ks,
     blocking r' = (blocking r ++ map (hardcoded_credential_issue path) ks)%list /\
     StronglySorted Z.lt ks /\
     Forall (fun k => (1 <= k <= Z.of_nat (length lines))%Z) ks /\
     (length ks <= length lines)%nat) /\
  warnings r' = warnings r /\ nitpicks r' = nitpicks r /\ positives r' = positives r.
Proof.
  intros r'. unfold r'. rewrite check_hardcoded_credentials_spec.
  set (ks := credential_lines path 1 lines).
  destruct (add_issues_buckets (map (hardcoded_credential_issue path) ks) r)
    as (Hb & Hw & Hn).
  destruct (add_issues_frame (map (hardcoded_credential_issue path) ks) r) as (Hp & _).
  destruct (of_severity_credentials path ks) as (S1 & S2 & S3).
  rewrite S1 in Hb. rewrite S2, app_nil_r in Hw. rewrite S3, app_nil_r in Hn.
  destruct (credential_lines_sorted path lines 1) as (Hs & Hr). fold ks in Hs, Hr.
  split; [|split; [|auto]].
  - intros H. unfold ks. rewrite credential_lines_test_path by exact H. reflexivity.
  - exists ks. split; [exact Hb|]. split; [exact Hs|]. split.
    + eapply Forall_impl; [|exact Hr]. intros k Hk. cbv beta in *. clear - Hk. lia.
    + clear -ks. unfold ks. generalize 1%Z. induction lines as [|t l IH]; intros i;
        [apply Nat.le_refl|].
      simpl. destruct (reports_credential path t); simpl; [apply le_n_S | apply le_S];
        apply IH.
Qed.

Lemma credential_rule_over_file_witness :
  check_hardcoded_credentials "tests/test_api.py" 1
    ["import os"; Sample.password_line; Sample.password_line] new_ReviewResult
  = new_ReviewResult.
Proof.
  apply (credential_rule_over_file "tests/test_api.py"
           ["import os"; Sample.password_line; Sample.password_line] new_ReviewResult).
  reflexivity.
Defined.

(** ** The walk over the syntax tree *)

Lemma walk_queue_perm (fuel : nat) (todo : list ast) :
  (list_sum (map node_count todo) <= fuel)%nat ->
  Permutation (walk_queue fuel todo) (flat_map nodes todo).
Proof.
  revert todo. induction fuel as [|fuel IH]; intros todo Hle.
  - destruct todo as [|[k cs] rest]; [constructor | simpl in Hle; lia].
  - destruct todo as [|[k cs] rest]; [constructor|].
    simpl walk_queue. simpl flat_map. constructor.
    rewrite IH by (simpl in Hle; rewrite map_app, list_sum_app; lia).
    rewrite flat_map_app. apply Permutation_app_comm.
Qed.

Lemma check_node_reported (path : string) (n : ast) (r : ReviewResult) :
  check_node path n r = add_issue_if (reported_node n) (node_issue path n) r.
Proof.
  unfold check_node, reported_node, node_issue.
  destruct (kind_of n) as [fname [e|] l|[[id|]|] l|]; reflexivity.
Qed.

Lemma node_issue_is_warning (path : string) (n : ast) :
  severity (node_issue path n) = WARNING /\ category (node_issue path n) = QUALITY.
Proof. unfold node_issue. destruct (kind_of n); split; reflexivity. Qed.

Lemma check_nodes_warnings (path : string) (ns : list ast) (r : ReviewResult) :
  let r' := fold_left (fun acc n => check_node path n acc) ns r in
  warnings r' = (warnings r ++ map (node_issue path) (filter reported_node ns))%list /\
  blocking r' = blocking r /\ nitpicks r' = nitpicks r /\ positives r' = positives r.
Proof.
  revert r. induction ns as [|n rest IH]; intros r; simpl.
  - rewrite app_nil_r. auto.
  - destruct (IH (check_node path n r)) as (Hw & Hb & Hn & Hp).
    rewrite Hw, Hb, Hn, Hp, check_node_reported.
    destruct (reported_node n); simpl; [|auto].
    unfold add_issue. rewrite (proj1 (node_issue_is_warning path n)). simpl.
    rewrite <- app_assoc. auto.
Qed.

(** X12. [_check_ast_patterns] adds one warning of category quality for
    every reported node (a function definition without return annotation
    whose name does not start with an underscore; a handler without a type
    or with the type named [Exception]), in the order of the walk, with the
    node's line number, and nothing else: the number of warnings added is
    the number of reported nodes of the tree, and the other buckets stay as
    they are. *)
Theorem check_ast_patterns_warns_per_node (f : Path) (tree : ast) (lines : list string)
    (r : ReviewResult) :
  let r' := _check_ast_patterns f tree lines r in
  warnings r'
  = (warnings r
     ++ map (node_issue (path_str f)) (filter reported_node (ast_walk tree)))%list /\
  length (warnings r')
  = (length (warnings r) + length (filter reported_node (nodes tree)))%nat /\
  Forall (fun n => severity (node_issue (path_str f) n) = WARNING /\
                   category (node_issue (path_str f) n) = QUALITY)
    (ast_walk tree) /\
  blocking r' = blocking r /\ nitpicks r' = nitpicks r /\ positives r' = positives r.
Proof.
  intros r'. unfold r', _check_ast_patterns.
  destruct (check_nodes_warnings (path_str f) (ast_walk tree) r) as (Hw & Hb & Hn & Hp).
  split; [exact Hw|]. split; [|split; [|auto]].
  - rewrite Hw, length_app, length_map. f_equal.
    apply Permutation_length.
    assert (P : Permutation (ast_walk tree) (nodes tree)).
    { unfold ast_walk. rewrite walk_queue_perm by (simpl; lia).
      simpl. rewrite app_nil_r. reflexivity. }
    clear -P. induction P; simpl; auto.
    + destruct (reported_node x); auto.
    + destruct (reported_node x), (reported_node y); auto. constructor.
    + etransitivity; eassumption.
  - apply Forall_forall. intros n _. apply node_issue_is_warning.
Qed.

(** ** Files that cannot be read or decoded *)





(** ** The lint and type check phases *)

(** X15. Whatever ruff and mypy do, [_run_linter] and [_run_type_checker]
    leave the blocking and nitpick buckets as they are and add at most one
    entry, a warning or a positive note.  Lint and type errors alone can
    therefore never make a run Below Bronze.  A linter that exits non-zero
    gives the warning Linting Errors whatever it printed. *)
Theorem lint_and_type_check_never_block (env : Env) (st : Reviewer) :
  (forall o, o = _run_linter env st \/ o = _run_type_checker env st ->
     outcome_all
       (fun st' =>
          blocking (result st') = blocking (result st) /\
          nitpicks (result st') = nitpicks (result st) /\
          (length (warnings (result st')) + length (positives (result st'))
           <= length (warnings (result st)) + length (positives (result st)) + 1)%nat)
       o) /\
  (forall rc out, tools env (argv ruff_invocation) = ToolExits rc out -> rc <> 0%Z ->
     _run_linter env st = Returns (on_result (add_issue linting_issue) st)).
Proof.
  split.
  - intros o [-> | ->].
    + unfold _run_linter, run, subprocess_run.
      destruct (tools env (argv ruff_invocation)) as [|rc out|]; simpl; auto.
      * repeat split. lia.
      * destruct (rc =? 0)%Z; simpl; repeat split; rewrite ?length_app; simpl; lia.
    + unfold _run_type_checker, run, subprocess_run.
      destruct (tools env (argv mypy_invocation)) as [|rc out|]; simpl; auto.
      * repeat split. lia.
      * destruct (rc =? 0)%Z; [|destruct (0 <? count_error_lines out)%nat];
          simpl; repeat split; rewrite ?length_app; simpl; lia.
  - intros rc out H Hrc. unfold _run_linter, run, subprocess_run. rewrite H.
    apply Z.eqb_neq in Hrc. rewrite Hrc. reflexivity.
Qed.

Lemma lint_and_type_check_never_block_witness :
  _run_linter (Sample.with_tools (ToolExits 1 "E501 line too long") Sample.bare)
    new_Reviewer
  = Returns (on_result (add_issue linting_issue) new_Reviewer).
Proof.
  apply (proj2 (lint_and_type_check_never_block
                  (Sample.with_tools (ToolExits 1 "E501 line too long") Sample.bare)
                  new_Reviewer) 1%Z "E501 line too long").
  - reflexivity.
  - discriminate.
Defined.

(** ** The report and the exit status *)





Lemma tier_below_bronze_iff (env : Env) (st : Reviewer) :
  tier_after env st = "Below Bronze" <-> has_blocking_issues (result st) = true.
Proof.
  unfold tier_after, _assess_quality_tier. simpl.
  destruct (has_blocking_issues (result st)); [split; reflexivity|].
  split; [|discriminate].
  destruct (negb _ || lt_60 _); [intros H; discriminate H|].
  destruct (ge_80 _ && _); [intros H; discriminate H|].
  destruct (ge_60 _); intros H; discriminate H.
Qed.

(** ** Counting the error lines of the type checker *)

Lemma split_newline_app (a b : string) :
  split_newline (a ++ String newline b) = (split_newline a ++ split_newline b)%list.
Proof.
  induction a as [|c a IH]; simpl.
  - reflexivity.
  - destruct (Ascii.eqb c newline); [rewrite IH; reflexivity|].
    rewrite IH. destruct (split_newline a) as [|h t] eqn:E; [|reflexivity].
    destruct a; simpl in E; [discriminate|].
    destruct (Ascii.eqb a newline); [discriminate|].
    destruct (split_newline a0); discriminate.
Qed.

Lemma split_newline_single (s : string) :
  contains (String newline "") s = false -> split_newline s = [s].
Proof.
  induction s as [|c s IH]; [reflexivity|].
  cbn [contains String.prefix].
  destruct (Ascii.ascii_dec newline c) as [<- | N].
  - destruct s; discriminate.
  - intros H. cbn [split_newline]. replace (Ascii.eqb c newline) with false
      by (symmetry; apply Ascii.eqb_neq; congruence).
    rewrite IH by exact H. reflexivity.
Qed.

(** X18. The error count of the type checker is a count of lines: over an
    output made of two parts with a line break between them it is the sum of
    the counts of the parts; a line counts once however often it holds the
    marker; and the count never exceeds the number of lines.  The marker is
    found anywhere in a line, so a line of the form [note: ... error: ...]
    counts too. *)
Theorem count_error_lines_by_line (a b : string) :
  count_error_lines (a ++ String newline b)
  = (count_error_lines a + count_error_lines b)%nat /\
  (count_error_lines a <= length (split_newline a))%nat /\
  (contains (String newline "") a = false ->
   count_error_lines a = if contains "error:" a then 1%nat else 0%nat).
Proof.
  unfold count_error_lines. split; [|split].
  - rewrite split_newline_app, filter_app, length_app. reflexivity.
  - apply filter_length_le.
  - intros H. rewrite split_newline_single by exact H. simpl.
    destruct (contains "error:" a); reflexivity.
Qed.

Lemma count_error_lines_by_line_witness :
  count_error_lines "a.py:1: error: X  a.py:1: error: Y" = 1%nat.
Proof.
  apply (proj2 (proj2 (count_error_lines_by_line
                         "a.py:1: error: X  a.py:1: error: Y" ""))).
  reflexivity.
Defined.

(** ** The detectors look at the file, not at the result so far *)

Section Stateless.

Lemma add_issue_positive_comm (i : Issue) (note : string) (r : ReviewResult) :
  add_issue i (add_positive note r) = add_positive note (add_issue i r).
Proof. unfold add_issue. destruct (severity i); reflexivity. Qed.

Lemma add_issues_positive_comm (l : list Issue) (note : string) (r : ReviewResult) :
  add_issues l (add_positive note r) = add_positive note (add_issues l r).
Proof.
  revert r. induction l as [|i l IH]; intros r; [reflexivity|].
  change (add_issues (i :: l) ?x) with (add_issues l (add_issue i x)).
  rewrite add_issue_positive_comm. apply IH.
Qed.

Lemma add_issues_positives_comm (l : list Issue) (notes : list string)
    (r : ReviewResult) :
  add_issues l (add_positives notes r) = add_positives notes (add_issues l r).
Proof.
  revert r. induction notes as [|n notes IH]; intros r; [reflexivity|].
  change (add_positives (n :: notes) ?x) with (add_positives notes (add_positive n x)).
  rewrite IH, add_issues_positive_comm. reflexivity.
Qed.

Lemma add_positives_app (p1 p2 : list string) (r : ReviewResult) :
  add_positives (p1 ++ p2) r = add_positives p2 (add_positives p1 r).
Proof. apply fold_left_app. Qed.

Lemma grown_grown (l1 l2 : list Issue) (p1 p2 e1 e2 : list string) (st : Reviewer) :
  grown l2 p2 e2 (grown l1 p1 e1 st) = grown (l1 ++ l2) (p1 ++ p2) (e1 ++ e2) st.
Proof.
  unfold grown. simpl.
  rewrite add_issues_positives_comm, add_issues_app, add_positives_app, app_assoc.
  reflexivity.
Qed.

Lemma grown_nothing (st : Reviewer) : grown [] [] [] st = st.
Proof. destruct st. unfold grown. simpl. rewrite app_nil_r. reflexivity. Qed.

Lemma stateless_returns : stateless Returns.
Proof. exists [], [], [], None. intros st. rewrite grown_nothing. reflexivity. Qed.

Lemma stateless_raises (e : exn) : stateless (Raises e).
Proof. exists [], [], [], (Some e). intros st. rewrite grown_nothing. reflexivity. Qed.

Lemma stateless_on_result (g : ReviewResult -> ReviewResult) :
  appender g -> stateless (fun st => Returns (on_result g st)).
Proof.
  intros (l & Hl). exists l, [], [], None. intros st.
  unfold grown, on_result. simpl. rewrite Hl, app_nil_r. reflexivity.
Qed.

Lemma stateless_on_result_raises (g : ReviewResult -> ReviewResult) (e : exn) :
  appender g -> stateless (fun st => Raises e (on_result g st)).
Proof.
  intros (l & Hl). exists l, [], [], (Some e). intros st.
  unfold grown, on_result. simpl. rewrite Hl, app_nil_r. reflexivity.
Qed.

Lemma stateless_add_positive (note : string) :
  stateless (fun st => Returns (on_result (add_positive note) st)).
Proof.
  exists [], [note], [], None. intros st.
  unfold grown, on_result. simpl. rewrite app_nil_r. reflexivity.
Qed.

Lemma stateless_print_err (msg : string) :
  stateless (fun st => Returns (print_err msg st)).
Proof. exists [], [], [msg], None. intros st. reflexivity. Qed.

Lemma stateless_bind (m k : Reviewer -> outcome) :
  stateless m -> stateless k -> stateless (fun st => m st >>= k).
Proof.
  intros (l1 & p1 & e1 & [x|] & H1) (l2 & p2 & e2 & end2 & H2).
  - exists l1, p1, e1, (Some x). intros st. rewrite H1. reflexivity.
  - exists (l1 ++ l2)%list, (p1 ++ p2)%list, (e1 ++ e2)%list, end2.
    intros st. rewrite H1. simpl. rewrite H2, grown_grown. reflexivity.
Qed.

Lemma stateless_catch (handles : exn -> bool) (m : Reviewer -> outcome)
    (handler : exn -> Reviewer -> Reviewer) :
  stateless m ->
  (forall e, stateless (fun st => Returns (handler e st))) ->
  stateless (fun st => catch handles (m st) handler).
Proof.
  intros (l1 & p1 & e1 & [x|] & H1) Hh.
  - destruct (handles x) eqn:Hx.
    + destruct (Hh x) as (l2 & p2 & e2 & end2 & H2).
      exists (l1 ++ l2)%list, (p1 ++ p2)%list, (e1 ++ e2)%list, end2.
      intros st. rewrite H1. simpl. rewrite Hx, H2, grown_grown. reflexivity.
    + exists l1, p1, e1, (Some x). intros st. rewrite H1. simpl. rewrite Hx. reflexivity.
  - exists l1, p1, e1, None. intros st. rewrite H1. reflexivity.
Qed.

Lemma stateless_ext (m m' : Reviewer -> outcome) :
  (forall st, m st = m' st) -> stateless m -> stateless m'.
Proof.
  intros E (l & p & e & x & H). exists l, p, e, x. intros st. rewrite <- E. apply H.
Qed.

Lemma appender_id : appender (fun r => r).
Proof. exists []. reflexivity. Qed.

Lemma appender_add_issue (i : Issue) : appender (add_issue i).
Proof. exists [i]. reflexivity. Qed.

Lemma appender_add_issue_if (b : bool) (i : Issue) : appender (add_issue_if b i).
Proof. destruct b; [apply appender_add_issue | apply appender_id]. Qed.

Lemma appender_compose (g h : ReviewResult -> ReviewResult) :
  appender g -> appender h -> appender (fun r => h (g r)).
Proof.
  intros (lg & Hg) (lh & Hh). exists (lg ++ lh)%list. intros r.
  rewrite Hh, Hg, add_issues_app. reflexivity.
Qed.

Lemma appender_security (f : Path) (content : string) (lines : list string) :
  appender (_check_security_issues f content lines).
Proof.
  unfold _check_security_issues.
  repeat (apply (appender_compose _ (add_issue_if _ _)); [|apply appender_add_issue_if]).
  exists (map (hardcoded_credential_issue (path_str f))
            (credential_lines (path_str f) 1 lines)).
  intros r. apply check_hardcoded_credentials_spec.
Qed.

Lemma appender_ha (f : Path) (content : string) (lines : list string) :
  appender (_check_ha_patterns f content lines).
Proof.
  unfold _check_ha_patterns.
  apply (appender_compose (add_issue_if _ _) (add_issue_if _ _));
    apply appender_add_issue_if.
Qed.

Lemma appender_ast (f : Path) (tree : ast) (lines : list string) :
  appender (_check_ast_patterns f tree lines).
Proof.
  unfold _check_ast_patterns. generalize (ast_walk tree). intros ns.
  induction ns as [|n ns IH]; [apply appender_id|].
  simpl. apply (appender_compose (check_node (path_str f) n)
                  (fold_left (fun acc n0 => check_node (path_str f) n0 acc) ns));
    [|exact IH].
  exists (if reported_node n then [node_issue (path_str f) n] else []).
  intros r. rewrite check_node_reported. destruct (reported_node n); reflexivity.
Qed.

Lemma stateless_python_file (env : Env) (f : Path) :
  stateless (_review_python_file env f).
Proof.
  unfold _review_python_file.
  apply stateless_catch; [|intros e; apply stateless_print_err].
  destruct (read_text env (path_str f)) as [content|e]; [|apply stateless_raises].
  cbv zeta. destruct (ast_parse env content) as [tree|lineno msg|e].
  - apply (stateless_ext
             (fun st => Returns (on_result
                (fun r => _check_ast_patterns f tree (split_newline content)
                            (_check_ha_patterns f content (split_newline content)
                               (_check_security_issues f content (split_newline content) r)))
                st))); [reflexivity|].
    apply stateless_on_result.
    apply (appender_compose _ (_check_ast_patterns f tree _)); [|apply appender_ast].
    apply (appender_compose _ (_check_ha_patterns f content _)); [|apply appender_ha].
    apply appender_security.
  - apply (stateless_ext
             (fun st => Returns (on_result
                (fun r => add_issue (syntax_error_issue (path_str f) lineno msg)
                            (_check_ha_patterns f content (split_newline content)
                               (_check_security_issues f content (split_newline content) r)))
                st))); [reflexivity|].
    apply stateless_on_result.
    apply (appender_compose _ (add_issue _)); [|apply appender_add_issue].
    apply (appender_compose _ (_check_ha_patterns f content _)); [|apply appender_ha].
    apply appender_security.
  - apply (stateless_ext
             (fun st => Raises e (on_result
                (fun r => _check_ha_patterns f content (split_newline content)
                            (_check_security_issues f content (split_newline content) r))
                st))); [reflexivity|].
    apply stateless_on_result_raises.
    apply (appender_compose _ (_check_ha_patterns f content _)); [|apply appender_ha].
    apply appender_security.
Qed.

Lemma stateless_required_fields (path : string) (manifest : json) (fields : list string) :
  stateless (check_required_fields path manifest fields).
Proof.
  induction fields as [|field rest IH]; [apply stateless_returns|].
  simpl. destruct (py_in field manifest) as [[|]|e].
  - exact IH.
  - apply (stateless_ext
             (fun st => Returns (on_result (add_issue (missing_field_issue path field)) st)
                        >>= check_required_fields path manifest rest)); [reflexivity|].
    apply stateless_bind; [|exact IH].
    apply stateless_on_result, appender_add_issue.
  - apply stateless_raises.
Qed.

Lemma stateless_load_json (env : Env) (path : string) (k : json -> Reviewer -> outcome) :
  (forall v, stateless (k v)) ->
  stateless (fun st => load_json env path st (fun v => k v st)).
Proof.
  intros Hk. unfold load_json.
  destruct (read_text env path) as [text|e]; [|apply stateless_raises].
  destruct (json_loads env text); [apply Hk | apply stateless_raises].
Qed.

Lemma stateless_manifest (env : Env) (f : Path) : stateless (_review_manifest env f).
Proof.
  unfold _review_manifest.
  apply stateless_catch;
    [|intros e; apply stateless_on_result, appender_add_issue].
  apply (stateless_load_json env (path_str f)
           (fun manifest st =>
              check_required_fields (path_str f) manifest required_fields st >>= fun st0 =>
              match py_get manifest "config_flow" (JBool false) with
              | inr e => Raises e st0
              | inl flag =>
                  Returns (if truthy flag then st0
                           else on_result (add_issue (config_flow_issue (path_str f))) st0)
              end)).
  intros manifest. apply stateless_bind; [apply stateless_required_fields|].
  destruct (py_get manifest "config_flow" (JBool false)) as [flag|e];
    [|apply stateless_raises].
  destruct (truthy flag); [apply stateless_returns|].
  apply stateless_on_result, appender_add_issue.
Qed.

Lemma stateless_strings (env : Env) (f : Path) : stateless (_review_strings env f).
Proof.
  unfold _review_strings.
  apply stateless_catch;
    [|intros e; apply stateless_on_result, appender_add_issue].
  apply (stateless_load_json env (path_str f)
           (fun _ st => Returns (on_result (add_positive "âœ… strings.json is valid JSON") st))).
  intros _. apply stateless_add_positive.
Qed.

Lemma stateless_review_file (env : Env) (f : Path) : stateless (review_file env f).
Proof.
  unfold review_file.
  destruct (String.eqb (suffix f) ".py"); [apply stateless_python_file|].
  destruct (String.eqb (name f) "manifest.json"); [apply stateless_manifest|].
  destruct (String.eqb (name f) "strings.json"); [apply stateless_strings|].
  apply stateless_returns.
Qed.

Lemma stateless_review_each (env : Env) (files : list Path) :
  stateless (review_each env files).
Proof.
  induction files as [|f rest IH]; [apply stateless_returns|].
  simpl. apply stateless_bind; [apply stateless_review_file | exact IH].
Qed.

Lemma add_positives_frame (notes : list string) (r : ReviewResult) :
  positives (add_positives notes r) = (positives r ++ notes)%list /\
  blocking (add_positives notes r) = blocking r /\
  warnings (add_positives notes r) = warnings r /\
  nitpicks (add_positives notes r) = nitpicks r.
Proof.
  revert r. induction notes as [|n notes IH]; intros r.
  - simpl. rewrite app_nil_r. auto.
  - change (add_positives (n :: notes) r) with (add_positives notes (add_positive n r)).
    destruct (IH (add_positive n r)) as (-> & -> & -> & ->). simpl.
    rewrite <- app_assoc. auto.
Qed.

End Stateless.

(** X19. The detectors keep no state between files: what reviewing a list
    of files adds does not depend on the result so far.  If the files,
    reviewed by a fresh reviewer, end (by a return or by a raise) with certain
    buckets, notes and diagnostics, then reviewed from any other state they
    end the same way, and each bucket, the notes and the diagnostics are the
    ones of that state followed by the ones found from fresh. *)
Theorem review_each_independent_of_state (env : Env) (files : list Path)
    (st : Reviewer) :
  let fresh := state_of (review_each env files new_Reviewer) in
  let after := state_of (review_each env files st) in
  review_each env files new_Reviewer <> Blocks /\
  (forall st0, review_each env files new_Reviewer = Returns st0 ->
     review_each env files st = Returns after) /\
  (forall e st0, review_each env files new_Reviewer = Raises e st0 ->
     review_each env files st = Raises e after) /\
  blocking (result after) = (blocking (result st) ++ blocking (result fresh))%list /\
  warnings (result after) = (warnings (result st) ++ warnings (result fresh))%list /\
  nitpicks (result after) = (nitpicks (result st) ++ nitpicks (result fresh))%list /\
  positives (result after) = (positives (result st) ++ positives (result fresh))%list /\
  stderr after = (stderr st ++ stderr fresh)%list.
Proof.
  destruct (stateless_review_each env files) as (l & p & e & ending & H).
  cbv zeta. rewrite (H new_Reviewer), (H st).
  assert (S : forall x, state_of (ends ending x) = x) by (destruct ending; reflexivity).
  rewrite !S.
  split; [destruct ending; discriminate|].
  split; [destruct ending; [discriminate | reflexivity]|].
  split; [destruct ending; [intros x0 st0 [= <- _]; reflexivity | discriminate]|].
  unfold grown. cbn [result stderr].
  destruct (add_positives_frame p (add_issues l (result st))) as (-> & -> & -> & ->).
  destruct (add_positives_frame p (add_issues l (result new_Reviewer)))
    as (-> & -> & -> & ->).
  destruct (add_issues_buckets l (result st)) as (-> & -> & ->).
  destruct (add_issues_buckets l (result new_Reviewer)) as (-> & -> & ->).
  destruct (add_issues_frame l (result st)) as (-> & _).
  destruct (add_issues_frame l (result new_Reviewer)) as (-> & _).
  simpl. auto.
Qed.

Lemma review_each_independent_of_state_witness :
  review_each (Sample.with_parse (SyntaxError (Some 3%Z) "invalid syntax")
                 (Sample.with_text "def f(:" Sample.bare))
    [Sample.api_py] (Sample.reviewer [Sample.issue BLOCKING] [] (PyFloat 0))
  = Returns
      (state_of
         (review_each (Sample.with_parse (SyntaxError (Some 3%Z) "invalid syntax")
                         (Sample.with_text "def f(:" Sample.bare))
            [Sample.api_py] (Sample.reviewer [Sample.issue BLOCKING] [] (PyFloat 0)))).
Proof.
  apply (proj1 (proj2 (review_each_independent_of_state
                         (Sample.with_parse (SyntaxError (Some 3%Z) "invalid syntax")
                            (Sample.with_text "def f(:" Sample.bare))
                         [Sample.api_py]
                         (Sample.reviewer [Sample.issue BLOCKING] [] (PyFloat 0))))
           (state_of
              (review_each (Sample.with_parse (SyntaxError (Some 3%Z) "invalid syntax")
                              (Sample.with_text "def f(:" Sample.bare))
                 [Sample.api_py] new_Reviewer))).
  vm_compute. reflexivity.
Defined.

(** ** Where an object can get into the coverage field *)

Lemma bind_typed (m : outcome) (k : Reviewer -> outcome) :
  (forall v s, m <> ReturnsHolding v s) ->
  (forall st v s, k st <> ReturnsHolding v s) ->
  forall v s, m >>= k <> ReturnsHolding v s.
Proof.
  intros Hm Hk v s. destruct m as [s0|v0 s0|e s0|]; simpl; try discriminate.
  - apply Hk.
  - exfalso. exact (Hm v0 s0 eq_refl).
Qed.

Lemma bind_holding (m : outcome) (k : Reviewer -> outcome) (v : json) (s : Reviewer) :
  (forall v' s', m <> ReturnsHolding v' s') ->
  m >>= k = ReturnsHolding v s ->
  exists s0, m = Returns s0 /\ k s0 = ReturnsHolding v s.
Proof.
  intros Hm. destruct m as [s0|v0 s0|e s0|]; simpl; try discriminate.
  - eauto.
  - exfalso. exact (Hm v0 s0 eq_refl).
Qed.

Lemma review_each_typed (env : Env) (files : list Path) (st : Reviewer) (v : json)
    (s : Reviewer) :
  review_each env files st <> ReturnsHolding v s.
Proof.
  destruct (stateless_review_each env files) as (l & p & e & ending & H).
  rewrite H. destruct ending; discriminate.
Qed.

Lemma run_linter_typed (env : Env) (st : Reviewer) (v : json) (s : Reviewer) :
  _run_linter env st <> ReturnsHolding v s.
Proof.
  unfold _run_linter, run. destruct (subprocess_run env ruff_invocation) as [rc out|e|];
    simpl; [|destruct (is_FileNotFoundError e)|]; try discriminate.
  destruct (rc =? 0)%Z; discriminate.
Qed.

Lemma run_type_checker_typed (env : Env) (st : Reviewer) (v : json) (s : Reviewer) :
  _run_type_checker env st <> ReturnsHolding v s.
Proof.
  unfold _run_type_checker, run.
  destruct (subprocess_run env mypy_invocation) as [rc out|e|];
    simpl; [|destruct (is_FileNotFoundError e)|]; try discriminate.
  destruct (rc =? 0)%Z; [discriminate|].
  destruct (0 <? count_error_lines out)%nat; discriminate.
Qed.

(** Only the coverage phase leaves an object in the field. *)
Lemma phases_holding (env : Env) (files : list Path) (st : Reviewer) (v : json)
    (s : Reviewer) :
  phases env files st = ReturnsHolding v s ->
  exists s3, _check_test_coverage env s3 = ReturnsHolding v s.
Proof.
  unfold phases. intros H. apply bind_holding in H.
  - destruct H as (s3 & _ & H). eauto.
  - apply bind_typed; [|intros; apply run_type_checker_typed].
    apply bind_typed; [|intros; apply run_linter_typed].
    intros; apply review_each_typed.
Qed.

(** The object it leaves is no number at all, or a [bool], recorded as the
    int it equals. *)
Lemma check_test_coverage_holding (env : Env) (st : Reviewer) (v : json) (s : Reviewer) :
  _check_test_coverage env st = ReturnsHolding v s ->
  as_number v = None \/
  exists b, v = JBool b /\ coverage_percent (result s) = PyInt (if b then 1 else 0).
Proof.
  unfold _check_test_coverage, run, load_json.
  destruct (subprocess_run env pytest_invocation) as [rc out|e|]; simpl;
    try discriminate.
  destruct (path_exists env (joinpath (root_path env) "coverage.json"));
    [|discriminate].
  destruct (read_text env (joinpath (root_path env) "coverage.json")) as [text|e];
    simpl; [|discriminate].
  destruct (json_loads env text) as [data|msg]; simpl; [|discriminate].
  destruct (subscript2 data "totals" "percent_covered") as [v0|e];
    simpl; [|discriminate].
  destruct (as_number v0) as [p|] eqn:Hv; simpl.
  - destruct (classify_coverage env (set_coverage_percent p (result st))) as [r'|e] eqn:C;
      simpl; [|discriminate].
    destruct v0; simpl; try discriminate. intros [= <- <-]. right. exists b.
    split; [reflexivity|]. simpl in Hv. injection Hv as <-.
    exact (classify_coverage_keeps_percent env _ _ C).
  - intros [= <- <-]. left. exact Hv.
Qed.

(** The tier of a run that started fresh and returned, with or without an
    object in the coverage field. *)
Lemma returned_run_tier (env : Env) (files : list Path) (coverage : json)
    (st' : Reviewer) :
  returned (review_files env files new_Reviewer) = Some (coverage, st') ->
  (blocking (result st') = [] ->
   In (quality_tier (result st')) ["Bronze (needs testing)"; "Gold"; "Silver"]) /\
  (blocking (result st') <> [] -> quality_tier (result st') = "Below Bronze").
Proof.
  assert (T : forall s, is_nan (coverage_percent (result s)) = false \/
                        In (tier_after env s)
                          ["Below Bronze"; "Bronze (needs testing)"; "Gold"; "Silver"] ->
              (blocking (result (_assess_quality_tier env s)) = [] ->
               In (tier_after env s) ["Bronze (needs testing)"; "Gold"; "Silver"]) /\
              (blocking (result (_assess_quality_tier env s)) <> [] ->
               tier_after env s = "Below Bronze")).
  { intros s Hs.
    assert (Hin : In (tier_after env s)
                    ["Below Bronze"; "Bronze (needs testing)"; "Gold"; "Silver"]).
    { destruct Hs as [Hs | Hs]; [apply tier_after_of_number|]; exact Hs. }
    change (blocking (result (_assess_quality_tier env s))) with (blocking (result s)).
    split.
    - intros Hb. destruct Hin as [E | Hin]; [|exact Hin].
      symmetry in E. apply tier_below_bronze_iff in E.
      apply has_blocking_issues_iff in E. contradiction.
    - intros Hb. apply tier_below_bronze_iff. apply has_blocking_issues_iff. exact Hb. }
  destruct (review_files env files new_Reviewer) as [s|v s|e s|] eqn:Hrun; simpl;
    try discriminate; intros [= <- <-].
  - pose proof (fresh_run_tier env files s Hrun) as F.
    apply review_files_returns_inv in Hrun. destruct Hrun as (s4 & _ & ->).
    apply T. right. exact F.
  - unfold review_files in Hrun.
    destruct (phases env files new_Reviewer) as [s0|v0 s0|e s0|] eqn:Ph; simpl in Hrun;
      try discriminate.
    apply phases_holding in Ph. destruct Ph as (s3 & Ph).
    apply check_test_coverage_holding in Ph.
    unfold _assess_quality_tier_holding in Hrun.
    destruct Ph as [Hv | (b & -> & Hc)].
    + rewrite Hv in Hrun.
      destruct (has_blocking_issues (result s0)) eqn:B.
      * injection Hrun as <- <-. simpl. apply has_blocking_issues_iff in B.
        split; [contradiction | reflexivity].
      * destruct (negb (path_exists env (joinpath (root_path env) "tests")));
          [|discriminate].
        injection Hrun as <- <-. simpl. split; [left; reflexivity|].
        intros Hb. apply has_blocking_issues_iff in Hb. congruence.
    + simpl in Hrun. injection Hrun as <- <-. apply T. left. rewrite Hc. reflexivity.
Qed.

(** ** The exit status of the script *)

(** X17. The exit status of the script and the tier say the same.  When
    the script exits, its status is 0, 1 or 2.  Status 2 means that
    [argparse] refused the command line.  Status 0 means that the help text
    was asked for, or that [custom_components] exists, the run returned
    without a blocking issue, with a tier among Bronze (needs testing), Gold
    and Silver, and exactly one report was printed; warnings never change
    the status.  Status 1 after an exit of [main] means that
    [custom_components] is missing and nothing was printed to the output
    stream, or that the printed report is one of a run that ended Below
    Bronze.  When an exception leaves [main], the status is 1 as well and
    nothing was printed to the output stream: the run raised, or the report
    could not be formatted. *)
Theorem main_exit_status (env : Env) (sh : Shell) :
  let cc := path_exists env (joinpath (root_path env) "custom_components") in
  let run args := review_files env (files_to_review sh args) new_Reviewer in
  let report args coverage st' :=
    format_output env (json_dumps sh) (result st') coverage
      (if json_arg args then "json" else "text") in
  (forall status out errors, main env sh = Exits status out errors ->
     (status = 0 \/ status = 1 \/ status = 2)%Z /\
     (status = 2%Z ->
      exists text, parse_args sh = Usage_error text /\ out = [] /\ errors = [text]) /\
     (status = 0%Z ->
      (exists text, parse_args sh = Help_printed text /\ out = [text] /\ errors = []) \/
      (exists args coverage st' text,
         parse_args sh = Parsed_args args /\ cc = true /\
         returned (run args) = Some (coverage, st') /\
         blocking (result st') = [] /\
         In (quality_tier (result st')) ["Bronze (needs testing)"; "Gold"; "Silver"] /\
         report args coverage st' = inl text /\
         out = [text] /\ errors = stderr st')) /\
     (status = 1%Z ->
      exists args,
        parse_args sh = Parsed_args args /\
        ((cc = false /\ out = []) \/
         (exists coverage st' text,
            cc = true /\
            returned (run args) = Some (coverage, st') /\
            blocking (result st') <> [] /\
            quality_tier (result st') = "Below Bronze" /\
            report args coverage st' = inl text /\
            out = [text] /\ errors = stderr st')))) /\
  (forall e errors, main env sh = MainRaises e errors ->
     exit_status (main env sh) = Some 1%Z /\
     exists args,
       parse_args sh = Parsed_args args /\ cc = true /\
       ((exists st', run args = Raises e st' /\ errors = stderr st') \/
        (exists coverage st',
           returned (run args) = Some (coverage, st') /\
           report args coverage st' = inr e /\ errors = stderr st'))).
Proof.
  intros cc run report.
  assert (R : forall args coverage st',
            returned (run args) = Some (coverage, st') ->
            (forall status out errors,
               print_report env sh args coverage st' = Exits status out errors ->
               exists text,
                 report args coverage st' = inl text /\ out = [text] /\
                 errors = stderr st' /\
                 ((status = 0%Z /\ blocking (result st') = [] /\
                   In (quality_tier (result st'))
                     ["Bronze (needs testing)"; "Gold"; "Silver"]) \/
                  (status = 1%Z /\ blocking (result st') <> [] /\
                   quality_tier (result st') = "Below Bronze"))) /\
            (forall e errors,
               print_report env sh args coverage st' = MainRaises e errors ->
               report args coverage st' = inr e /\ errors = stderr st')).
  { intros args coverage st' Hret.
    destruct (returned_run_tier env (files_to_review sh args) coverage st' Hret)
      as (T0 & T1).
    unfold print_report. fold (report args coverage st').
    destruct (report args coverage st') as [text|e0]; split; try discriminate.
    - intros status out errors [= <- <- <-]. exists text.
      repeat (split; [reflexivity|]).
      destruct (has_blocking_issues (result st')) eqn:B.
      + right. apply has_blocking_issues_iff in B. auto.
      + left. assert (Hb : blocking (result st') = []).
        { destruct (blocking (result st')) eqn:E; [reflexivity|].
          assert (Hne : blocking (result st') <> []) by (rewrite E; discriminate).
          apply has_blocking_issues_iff in Hne. congruence. }
        auto.
    - intros e errors [= <- <-]. auto. }
  unfold main. destruct (parse_args sh) as [args|text|text] eqn:Hargs.
  2:{ split; [|discriminate]. intros status out errors [= <- <- <-].
      split; [auto|]. split; [discriminate|]. split; [|discriminate].
      intros _. left. exists text. auto. }
  2:{ split; [|discriminate]. intros status out errors [= <- <- <-].
      split; [auto|]. split; [|split; discriminate].
      intros _. exists text. auto. }
  unfold main_with. fold cc. destruct cc eqn:Hcc; simpl negb; cbv iota.
  2:{ split; [|discriminate]. intros status out errors [= <- <- <-].
      split; [auto|]. split; [discriminate|]. split; [discriminate|].
      intros _. exists args. split; [reflexivity|]. left. auto. }
  fold (run args).
  assert (G : forall coverage st',
            returned (run args) = Some (coverage, st') ->
            (forall status out errors,
               print_report env sh args coverage st' = Exits status out errors ->
               (status = 0 \/ status = 1 \/ status = 2)%Z /\
               (status = 2%Z ->
                exists text, Parsed_args args = Usage_error text /\ out = []
                             /\ errors = [text]) /\
               (status = 0%Z ->
                (exists text, Parsed_args args = Help_printed text /\ out = [text]
                              /\ errors = []) \/
                (exists args0 coverage0 st0 text,
                   Parsed_args args = Parsed_args args0 /\ true = true /\
                   returned (run args0) = Some (coverage0, st0) /\
                   blocking (result st0) = [] /\
                   In (quality_tier (result st0))
                     ["Bronze (needs testing)"; "Gold"; "Silver"] /\
                   report args0 coverage0 st0 = inl text /\
                   out = [text] /\ errors = stderr st0)) /\
               (status = 1%Z ->
                exists args0,
                  Parsed_args args = Parsed_args args0 /\
                  ((true = false /\ out = []) \/
                   (exists coverage0 st0 text,
                      true = true /\
                      returned (run args0) = Some (coverage0, st0) /\
                      blocking (result st0) <> [] /\
                      quality_tier (result st0) = "Below Bronze" /\
                      report args0 coverage0 st0 = inl text /\
                      out = [text] /\ errors = stderr st0)))) /\
            (forall e errors,
               print_report env sh args coverage st' = MainRaises e errors ->
               exists args0,
                 Parsed_args args = Parsed_args args0 /\ true = true /\
                 ((exists st0, run args0 = Raises e st0 /\ errors = stderr st0) \/
                  (exists coverage0 st0,
                     returned (run args0) = Some (coverage0, st0) /\
                     report args0 coverage0 st0 = inr e /\ errors = stderr st0)))).
  { intros coverage st' Hret. destruct (R args coverage st' Hret) as (R1 & R2). split.
    - intros status out errors H.
      destruct (R1 status out errors H) as (text & Hrep & -> & -> & Hcase).
      destruct Hcase as [(-> & Hb & Ht) | (-> & Hb & Ht)].
      + split; [auto|]. split; [discriminate|]. split; [|discriminate].
        intros _. right. exists args, coverage, st', text. auto 10.
      + split; [auto|]. split; [discriminate|]. split; [discriminate|].
        intros _. exists args. split; [reflexivity|]. right.
        exists coverage, st', text. auto 10.
    - intros e errors H. destruct (R2 e errors H) as (Hrep & ->).
      exists args. split; [reflexivity|]. split; [reflexivity|]. right.
      exists coverage, st'. auto. }
  destruct (run args) as [st'|v st'|e0 st'|] eqn:Hrun.
  - destruct (G (JNum (coverage_percent (result st'))) st' eq_refl) as (G1 & G2).
    split; [exact G1|]. intros e errors H. split; [|exact (G2 e errors H)].
    rewrite H. reflexivity.
  - destruct (G v st' eq_refl) as (G1 & G2).
    split; [exact G1|]. intros e errors H. split; [|exact (G2 e errors H)].
    rewrite H. reflexivity.
  - split; [discriminate|]. intros e errors [= <- <-]. split; [reflexivity|].
    exists args. split; [reflexivity|]. split; [reflexivity|]. left. eauto.
  - split; discriminate.
Qed.

Lemma main_exit_status_witness :
  exists coverage st',
    returned (review_files SampleRun.checkout
                (files_to_review SampleRun.empty_shell SampleRun.no_args) new_Reviewer)
    = Some (coverage, st') /\
    blocking (result st') = [] /\
    In (quality_tier (result st')) ["Bronze (needs testing)"; "Gold"; "Silver"].
Proof.
  destruct (proj1 (main_exit_status SampleRun.checkout SampleRun.empty_shell)
              0%Z _ _ eq_refl)
    as (_ & _ & H0 & _).
  destruct (H0 eq_refl)
    as [(text & Hp & _) | (args & coverage & st' & text & Hp & _ & Hret & Hb & Ht & _)].
  - discriminate Hp.
  - injection Hp as <-. exists coverage, st'. auto.
Defined.

(** ** A manifest that is no object, anywhere in the list *)

Lemma review_each_app (env : Env) (a b : list Path) (st : Reviewer) :
  review_each env (a ++ b) st = review_each env a st >>= review_each env b.
Proof.
  revert st. induction a as [|f a IH]; intros st; [reflexivity|].
  simpl. destruct (stateless_review_file env f) as (l & p & e & ending & H).
  rewrite H. destruct ending; simpl; [reflexivity | apply IH].
Qed.

Lemma run_raises_in_files (env : Env) (files : list Path) (st : Reviewer) (e : exn)
    (st' : Reviewer) :
  review_each env files (on_result (set_files_reviewed (length files)) st)
  = Raises e st' ->
  review_files env files st = Raises e st' /\
  quality_tier (result st') = quality_tier (result st).
Proof.
  intros H. split.
  - unfold review_files, phases. rewrite H. reflexivity.
  - pose proof (kept_review_each (fun r => quality_tier r = quality_tier (result st))
                  (fun i r K => eq_trans (proj1 (proj2 (proj2 (add_issue_frame i r)))) K)
                  (fun _ _ K => K)
                  env files (on_result (set_files_reviewed (length files)) st) eq_refl)
      as K.
    rewrite H in K. exact K.
Qed.

(** X7. A manifest that parses to something else than an object aborts the
    run, wherever it stands in the list of files: [review_files] raises and
    assigns no tier.  When the files before it are reviewed without an
    error, the exception is the [TypeError] or [AttributeError] out of
    [_review_manifest], and the state at the raise is the one after those
    files but for blocking issues: the files after the manifest and the
    three tool phases are not reached. *)
Theorem review_files_aborts_on_odd_manifest (env : Env) (before : list Path) (f : Path)
    (rest : list Path) (st : Reviewer) (text : string) (v : json) :
  String.eqb (suffix f) ".py" = false ->
  name f = "manifest.json" ->
  read_text env (path_str f) = inl text ->
  json_loads env text = JsonValue v ->
  (forall members, v <> JObj members) ->
  let files := (before ++ f :: rest)%list in
  (exists e st',
     review_files env files st = Raises e st' /\
     quality_tier (result st') = quality_tier (result st)) /\
  (forall s1,
     review_each env before (on_result (set_files_reviewed (length files)) st)
     = Returns s1 ->
     exists e st',
       review_files env files st = Raises e st' /\
       (class e = TypeError \/ class e = AttributeError) /\
       warnings (result st') = warnings (result s1) /\
       nitpicks (result st') = nitpicks (result s1) /\
       positives (result st') = positives (result s1) /\
       stderr st' = stderr s1).
Proof.
  intros Hpy Hname Hread Hjson Hobj files.
  set (st0 := on_result (set_files_reviewed (length files)) st).
  assert (A : forall s1, review_each env before st0 = Returns s1 ->
              exists e st',
                review_each env files st0 = Raises e st' /\
                (class e = TypeError \/ class e = AttributeError) /\
                warnings (result st') = warnings (result s1) /\
                nitpicks (result st') = nitpicks (result s1) /\
                positives (result st') = positives (result s1) /\
                stderr st' = stderr s1).
  { intros s1 H1.
    destruct (review_manifest_not_an_object env f s1 text v Hread Hjson Hobj)
      as (e & st' & Hraise & Hrest).
    exists e, st'. split; [|exact Hrest].
    unfold files. rewrite review_each_app, H1. simpl. unfold review_file.
    rewrite Hpy, Hname. simpl. rewrite Hraise. reflexivity. }
  split.
  - destruct (stateless_review_each env before) as (l & p & errs & ending & H).
    destruct ending as [e|].
    + exists e, (grown l p errs st0).
      apply run_raises_in_files. fold files st0.
      unfold files. rewrite review_each_app, H. reflexivity.
    + destruct (A _ (H st0)) as (e & st' & E & _).
      exists e, st'. apply run_raises_in_files. exact E.
  - intros s1 H1. destruct (A s1 H1) as (e & st' & E & Hrest).
    exists e, st'. split; [|exact Hrest].
    apply (run_raises_in_files env files st e st' E).
Qed.

Lemma review_files_aborts_on_odd_manifest_witness :
  exists e st',
    review_files (Sample.with_json (JsonValue (JArr [])) (Sample.with_text "[]" Sample.bare))
      [Sample.strings_json; Sample.manifest_json; Sample.api_py] new_Reviewer
    = Raises e st' /\
    (class e = TypeError \/ class e = AttributeError) /\
    positives (result st') = ["âœ… strings.json is valid JSON"].
Proof.
  destruct (proj2 (review_files_aborts_on_odd_manifest
                     (Sample.with_json (JsonValue (JArr []))
                        (Sample.with_text "[]" Sample.bare))
                     [Sample.strings_json] Sample.manifest_json [Sample.api_py]
                     new_Reviewer "[]" (JArr [])
                     eq_refl eq_refl eq_refl eq_refl ltac:(discriminate))
              _ eq_refl)
    as (e & st' & H & Hc & _ & _ & Hp & _).
  exists e, st'. repeat split; assumption.
Defined.

(** ** The tiers a run can assign *)

(** X6. A run that starts from a fresh reviewer and returns assigns one of
    four tiers: Below Bronze, Bronze (needs testing), Gold or Silver.  The
    initial tier Unknown and the plain Bronze never survive a run, whatever
    the files, the tools and the measured coverage are, also when the
    summary holds an object that is no number. *)
Theorem review_files_tier_values (env : Env) (files : list Path) (st' : Reviewer) :
  returns_in (review_files env files new_Reviewer) st' ->
  In (quality_tier (result st'))
    ["Below Bronze"; "Bronze (needs testing)"; "Gold"; "Silver"] /\
  quality_tier (result st') <> "Unknown" /\
  quality_tier (result st') <> "Bronze".
Proof.
  intros Hrun.
  assert (T : In (quality_tier (result st'))
                ["Below Bronze"; "Bronze (needs testing)"; "Gold"; "Silver"]).
  { assert (R : exists coverage,
                returned (review_files env files new_Reviewer) = Some (coverage, st')).
    { destruct Hrun as [H | (v & H)]; rewrite H; simpl; eauto. }
    destruct R as (coverage & R).
    destruct (returned_run_tier env files coverage st' R) as (T0 & T1).
    destruct (blocking (result st')) eqn:B.
    - right. apply T0. reflexivity.
    - left. symmetry. apply T1. discriminate. }
  split; [exact T|]. simpl in T.
  split; intros E; rewrite E in T; intuition discriminate.
Qed.

Lemma review_files_tier_values_witness :
  In (quality_tier
        (result (state_of (review_files (Sample.measured (PyFloat nan) "nan") []
                             new_Reviewer))))
    ["Below Bronze"; "Bronze (needs testing)"; "Gold"; "Silver"].
Proof.
  apply (review_files_tier_values (Sample.measured (PyFloat nan) "nan") []).
  left. vm_compute. reflexivity.
Defined.
